(** * Scrapy request-lifecycle middlewares: redirect, retry, cookies, httperror

    A shallow embedding of

      - scrapy/downloadermiddlewares/redirect.py
      - scrapy/downloadermiddlewares/retry.py
      - scrapy/downloadermiddlewares/cookies.py
      - scrapy/spidermiddlewares/httperror.py

    Python objects that a hook mutates in place (the incoming request, the
    middleware instance, the stats collector, the logger) are passed in and
    handed back explicitly; a raised exception is a [Raise] result. *)

From Stdlib Require Import ZArith String Ascii List Lia.
From stdpp Require Import base option gmap strings list pretty.

Local Open Scope string_scope.
Local Open Scope Z_scope.
Local Set Warnings "-register-all".

(** ** Python values stored in [Request.meta] *)

(** The dynamically typed values the middlewares read from and write to the
    meta dictionary.  Floats are left out. *)
Inductive PyValue : Type :=
  | VNone
  | VBool (b : bool)
  | VInt (z : Z)
  | VStr (s : string)
  | VList (l : list PyValue).

(** [bool(v)] *)
Definition truthy (v : PyValue) : bool :=
  match v with
  | VNone => false
  | VBool b => b
  | VInt z => negb (z =? 0)
  | VStr s => negb (String.eqb s "")
  | VList l => match l with [] => false | _ :: _ => true end
  end.

(** The integer a value denotes in arithmetic and comparisons: [bool] is a
    subclass of [int]; every other type makes [+], [-] and [<=] against an
    int raise TypeError ([None]). *)
Definition as_int (v : PyValue) : option Z :=
  match v with
  | VInt z => Some z
  | VBool b => Some (Z.b2z b)
  | _ => None
  end.

(** [v + n], [v - n] and [n <= v] for an int [n] *)
Definition py_add_int (v : PyValue) (n : Z) : option Z := (λ z, z + n) <$> as_int v.
Definition py_sub_int (v : PyValue) (n : Z) : option Z := (λ z, z - n) <$> as_int v.
Definition py_int_le (n : Z) (v : PyValue) : option bool := (λ z, n <=? z) <$> as_int v.

(** [v + l] for a list literal [l]: only list + list is defined. *)
Definition py_add_list (v : PyValue) (l : list PyValue) : option PyValue :=
  match v with
  | VList l0 => Some (VList (l0 ++ l))
  | _ => None
  end.

(** [n == v] for an int [n] *)
Definition py_int_eq (n : Z) (v : PyValue) : bool :=
  match as_int v with
  | Some z => n =? z
  | None => false
  end.

(** [n in v] for an int [n]: membership in a list; a string on the right
    wants a string on the left, the other types are not iterable. *)
Definition py_int_in (n : Z) (v : PyValue) : option bool :=
  match v with
  | VList l => Some (existsb (py_int_eq n) l)
  | _ => None
  end.

(** [d.get(k, default)] and [d.setdefault(k, default)] *)
Definition dict_get {V} (k : string) (default : V) (d : gmap string V) : V :=
  match d !! k with
  | Some v => v
  | None => default
  end.

Definition dict_setdefault {V} (k : string) (default : V) (d : gmap string V)
  : V * gmap string V :=
  match d !! k with
  | Some v => (v, d)
  | None => (default, <[k := default]> d)
  end.

(** [k in d] *)
Definition dict_contains {V} (k : string) (d : gmap string V) : bool :=
  match d !! k with
  | Some _ => true
  | None => false
  end.

(** ** Headers *)

Definition is_upper (c : ascii) : bool :=
  let n := N_of_ascii c in ((65 <=? n) && (n <=? 90))%N.
Definition is_lower (c : ascii) : bool :=
  let n := N_of_ascii c in ((97 <=? n) && (n <=? 122))%N.
Definition to_upper (c : ascii) : ascii :=
  if is_lower c then ascii_of_N (N_of_ascii c - 32) else c.
Definition to_lower (c : ascii) : ascii :=
  if is_upper c then ascii_of_N (N_of_ascii c + 32) else c.

(** [str.title()] on ASCII *)
Fixpoint title_from (prev_cased : bool) (s : string) : string :=
  match s with
  | EmptyString => EmptyString
  | String c s' =>
      String (if prev_cased then to_lower c else to_upper c)
             (title_from (is_upper c || is_lower c) s')
  end.
Definition title : string -> string := title_from false.

(** Modelled from the spec: the [Headers] class (scrapy.http.headers is not
    among the sources), a multi-map with case-insensitive keys.  A key is
    stored in its capitalised form and maps to the list of its values. *)
Module Headers.
Definition normkey (k : string) : string := title k.

Definition contains (k : string) (h : gmap string (list string)) : bool :=
  dict_contains (normkey k) h.

(** [h[k]]: the last value, [None] when the key holds no value; the outer
    option is the KeyError of an absent key. *)
Definition getitem (k : string) (h : gmap string (list string))
  : option (option string) :=
  last <$> h !! normkey k.

(** [h.getlist(k)] *)
Definition getlist (k : string) (h : gmap string (list string)) : list string :=
  dict_get (normkey k) [] h.

(** [h.pop(k, None)], the popped value dropped *)
Definition pop (k : string) (h : gmap string (list string))
  : gmap string (list string) :=
  delete (normkey k) h.

(** [h[k] = values] *)
Definition setlist (k : string) (values : list string)
    (h : gmap string (list string)) : gmap string (list string) :=
  <[normkey k := values]> h.
End Headers.

(** ** Requests and responses *)

(** One entry of a list-form [Request.cookies]. *)
Record CookieDict := {
  cookie_name : string;
  cookie_value : string;
  cookie_path : option string;
  cookie_domain : option string;
}.

(** [Request.cookies] is a dict of name/value pairs or a list of dicts. *)
Inductive RequestCookies :=
  | CookiesOfDict (items : list (string * string))
  | CookiesOfList (l : list CookieDict).

Record Request := {
  url : string;
  method : string;
  headers : gmap string (list string);
  body : string;
  cookies : RequestCookies;
  priority : Z;
  dont_filter : bool;
  meta : gmap string PyValue;
}.

Record Response := {
  response_url : string;
  status : Z;
  response_headers : gmap string (list string);
  response_body : string;
  (** the request this response answers, when it is tied to one *)
  response_request : option Request;
}.

(** Modelled from the spec: [Response.meta] (scrapy.http.response is not
    among the sources), which reads through to the meta of the originating
    request; a response tied to no request has none (AttributeError). *)
Definition response_meta (response : Response) : option (gmap string PyValue) :=
  meta <$> response_request response.

Definition set_headers (h : gmap string (list string)) (r : Request) : Request :=
  {| url := url r; method := method r; headers := h; body := body r;
     cookies := cookies r; priority := priority r;
     dont_filter := dont_filter r; meta := meta r |}.
Definition set_priority (p : Z) (r : Request) : Request :=
  {| url := url r; method := method r; headers := headers r; body := body r;
     cookies := cookies r; priority := p;
     dont_filter := dont_filter r; meta := meta r |}.
Definition set_dont_filter (d : bool) (r : Request) : Request :=
  {| url := url r; method := method r; headers := headers r; body := body r;
     cookies := cookies r; priority := priority r;
     dont_filter := d; meta := meta r |}.
Definition set_meta (m : gmap string PyValue) (r : Request) : Request :=
  {| url := url r; method := method r; headers := headers r; body := body r;
     cookies := cookies r; priority := priority r;
     dont_filter := dont_filter r; meta := m |}.

(** [request.meta[k] = v] *)
Definition meta_setitem (k : string) (v : PyValue) (r : Request) : Request :=
  set_meta (<[k := v]> (meta r)) r.

(** Modelled from the spec: [Request.replace] and [Request.copy]
    (scrapy.http.request is not among the sources).  A new request is built
    from the attributes of the old one, the keyword arguments given taking
    the place of the old values; headers and meta are copied into the new
    object, so that writing to the clone leaves the original alone. *)
Definition replace (new_url new_method new_body : option string) (r : Request)
  : Request :=
  {| url := default (url r) new_url;
     method := default (method r) new_method;
     headers := headers r;
     body := default (body r) new_body;
     cookies := cookies r; priority := priority r;
     dont_filter := dont_filter r; meta := meta r |}.

Definition copy (r : Request) : Request := replace None None None r.

(** ** Exceptions *)

Inductive PyClass :=
  | defer_TimeoutError | TimeoutError | DNSLookupError
  | ConnectionRefusedError | ConnectionDone | ConnectError
  | ConnectionLost | TCPTimedOutError | ResponseFailed
  | IOError | TunnelError
  | IgnoreRequestClass | HttpErrorClass
  | TypeErrorClass | AttributeErrorClass | KeyErrorClass
  | ExceptionClass
  | OtherClass (name : string).

Global Instance PyClass_eq_dec : EqDecision PyClass.
Proof. solve_decision. Defined.

(** An exception object: its class, the classes that class inherits from,
    its message, and the [response] attribute that [HttpError] sets. *)
Record PyException := {
  exc_class : PyClass;
  exc_bases : list PyClass;
  exc_message : string;
  exc_response : option Response;
}.

Definition isinstance (e : PyException) (c : PyClass) : bool :=
  bool_decide (c ∈ exc_class e :: exc_bases e).

(** [isinstance(e, (c1, ..., cn))] *)
Definition isinstance_any (e : PyException) (cs : list PyClass) : bool :=
  existsb (isinstance e) cs.

Definition IgnoreRequest (msg : string) : PyException :=
  {| exc_class := IgnoreRequestClass; exc_bases := [ExceptionClass];
     exc_message := msg; exc_response := None |}.

(** [class HttpError(IgnoreRequest)] *)
Definition HttpError (response : Response) (msg : string) : PyException :=
  {| exc_class := HttpErrorClass;
     exc_bases := [IgnoreRequestClass; ExceptionClass];
     exc_message := msg; exc_response := Some response |}.

Definition TypeError : PyException :=
  {| exc_class := TypeErrorClass; exc_bases := [ExceptionClass];
     exc_message := ""; exc_response := None |}.
Definition AttributeError : PyException :=
  {| exc_class := AttributeErrorClass; exc_bases := [ExceptionClass];
     exc_message := ""; exc_response := None |}.
Definition KeyError : PyException :=
  {| exc_class := KeyErrorClass; exc_bases := [ExceptionClass];
     exc_message := ""; exc_response := None |}.

(** What a hook hands back: a value, or a raised exception. *)
Inductive result (A : Type) : Type :=
  | Return (a : A)
  | Raise (e : PyException).
Arguments Return {A} a.
Arguments Raise {A} e.

(** ** Spider, stats collector and logger *)

(** The one spider attribute the middlewares look at, when the spider
    defines it. *)
Record Spider := {
  spider_handle_httpstatus_list : option PyValue;
}.

Inductive LogLevel := DEBUG | INFO.

Record LogRecord := {
  log_level : LogLevel;
  log_message : string;
}.

(** The collaborators a hook writes to: [spider.crawler.stats] and the
    module logger. *)
Record World := {
  stats : gmap string Z;
  log : list LogRecord;
}.

(** Modelled from the spec: the stats sink's [inc_value(key)]
    (scrapy.statscollectors is not among the sources): the counter starts
    at 0 and goes up by one. *)
Definition inc_value (key : string) (w : World) : World :=
  {| stats := <[key := dict_get key 0 (stats w) + 1]> (stats w); log := log w |}.

Definition logger_debug (msg : string) (w : World) : World :=
  {| stats := stats w; log := log w ++ [{| log_level := DEBUG; log_message := msg |}] |}.
Definition logger_info (msg : string) (w : World) : World :=
  {| stats := stats w; log := log w ++ [{| log_level := INFO; log_message := msg |}] |}.

(** What a hook that works on the incoming request object leaves behind:
    the request as the call left it, the collaborators, and the result. *)
Record Outcome (A : Type) := {
  request_after : Request;
  world_after : World;
  returned : result A;
}.
Arguments request_after {A} _.
Arguments world_after {A} _.
Arguments returned {A} _.

(** ** scrapy/downloadermiddlewares/redirect.py *)

(** The two library functions [process_response] builds the target with:
    w3lib's [safe_url_string] and urllib's [urljoin]. *)
Class UrlLib := {
  safe_url_string : string -> string;
  urljoin : string -> string -> string;
}.

Module RedirectMiddleware.

(** [BaseRedirectMiddleware.__init__]: REDIRECT_MAX_TIMES and
    REDIRECT_PRIORITY_ADJUST. *)
Record t := {
  max_redirect_times : Z;
  priority_adjust : Z;
}.

Definition _redirect (self : t) (redirected request : Request)
    (reason : PyValue) (w : World) : Outcome Request :=
  let '(ttl, m) :=
    dict_setdefault "redirect_ttl" (VInt (max_redirect_times self)) (meta request) in
  let request := set_meta m request in
  let attempt : option (option Request) :=
    redirects ← py_add_int (dict_get "redirect_times" (VInt 0) (meta request)) 1;
    if truthy ttl && (redirects <=? max_redirect_times self) then
      let redirected := meta_setitem "redirect_times" (VInt redirects) redirected in
      ttl' ← py_sub_int ttl 1;
      let redirected := meta_setitem "redirect_ttl" (VInt ttl') redirected in
      urls ← py_add_list (dict_get "redirect_urls" (VList []) (meta request))
                         [VStr (url request)];
      let redirected := meta_setitem "redirect_urls" urls redirected in
      reasons ← py_add_list (dict_get "redirect_reasons" (VList []) (meta request))
                            [reason];
      let redirected := meta_setitem "redirect_reasons" reasons redirected in
      let redirected := set_dont_filter (dont_filter request) redirected in
      let redirected :=
        set_priority (priority request + priority_adjust self) redirected in
      Some (Some redirected)
    else Some None in
  match attempt with
  | Some (Some redirected) =>
      {| request_after := request;
         world_after :=
           logger_debug "Redirecting (%(reason)s) to %(redirected)s from %(request)s" w;
         returned := Return redirected |}
  | Some None =>
      {| request_after := request;
         world_after := logger_debug "Discarding %(request)s: max redirections reached" w;
         returned := Raise (IgnoreRequest "max redirections reached") |}
  | None =>
      {| request_after := request; world_after := w; returned := Raise TypeError |}
  end.

Definition _redirect_request_using_get (request : Request) (redirect_url : string)
  : Request :=
  let redirected := replace (Some redirect_url) (Some "GET") (Some "") request in
  let redirected :=
    set_headers (Headers.pop "Content-Type" (headers redirected)) redirected in
  let redirected :=
    set_headers (Headers.pop "Content-Length" (headers redirected)) redirected in
  redirected.

Definition allowed_status : list Z := [301; 302; 303; 307; 308].

(** A request result of [_redirect] seen as a result of [process_response]. *)
Definition as_request (o : Outcome Request) : Outcome (Request + Response) :=
  {| request_after := request_after o;
     world_after := world_after o;
     returned := match returned o with
                 | Return r => Return (inl r)
                 | Raise e => Raise e
                 end |}.

Definition process_response `{UrlLib} (self : t) (request : Request)
    (response : Response) (spider : Spider) (w : World)
  : Outcome (Request + Response) :=
  let finish (r : result (Request + Response)) :=
    {| request_after := request; world_after := w; returned := r |} in
  (* the four tests of the first [if], left to right, the first true one
     deciding *)
  let disabled : option bool :=
    if truthy (dict_get "dont_redirect" (VBool false) (meta request)) then Some true
    else
      in_spider ← py_int_in (status response)
                    (default (VList []) (spider_handle_httpstatus_list spider));
      if in_spider : bool then Some true
      else
        in_meta ← py_int_in (status response)
                    (dict_get "handle_httpstatus_list" (VList []) (meta request));
        if in_meta : bool then Some true
        else Some (truthy (dict_get "handle_httpstatus_all" (VBool false)
                                    (meta request))) in
  match disabled with
  | None => finish (Raise TypeError)
  | Some true => finish (Return (inr response))
  | Some false =>
      if negb (Headers.contains "Location" (response_headers response))
         || negb (bool_decide (status response ∈ allowed_status))
      then finish (Return (inr response))
      else
        match Headers.getitem "location" (response_headers response) with
        | None => finish (Raise KeyError)
        | Some None =>
            (* the header holds no value and [safe_url_string(None)] raises *)
            finish (Raise TypeError)
        | Some (Some value) =>
            let location := safe_url_string value in
            let redirected_url := urljoin (url request) location in
            if bool_decide (status response ∈ [301; 307; 308])
               || String.eqb (method request) "HEAD"
            then
              let redirected := replace (Some redirected_url) None None request in
              as_request (_redirect self redirected request (VInt (status response)) w)
            else
              let redirected := _redirect_request_using_get request redirected_url in
              as_request (_redirect self redirected request (VInt (status response)) w)
        end
  end.

End RedirectMiddleware.

(** ** scrapy/downloadermiddlewares/retry.py *)

(** The two helpers of scrapy.utils the retry middleware formats its reasons
    with. *)
Class RetryLib := {
  response_status_message : Z -> string;
  global_object_name : PyClass -> string;
}.

(** The [reason] of a retry: a status message or the exception caught. *)
Inductive Reason :=
  | ReasonStr (s : string)
  | ReasonExc (e : PyException).

Module RetryMiddleware.

Definition EXCEPTIONS_TO_RETRY : list PyClass :=
  [defer_TimeoutError; TimeoutError; DNSLookupError;
   ConnectionRefusedError; ConnectionDone; ConnectError;
   ConnectionLost; TCPTimedOutError; ResponseFailed;
   IOError; TunnelError].

(** [__init__]: RETRY_TIMES, RETRY_HTTP_CODES, RETRY_PRIORITY_ADJUST. *)
Record t := {
  max_retry_times : Z;
  retry_http_codes : gset Z;
  priority_adjust : Z;
}.

(** ['%s' % reason] *)
Definition reason_str (reason : Reason) : string :=
  match reason with
  | ReasonStr s => s
  | ReasonExc e => exc_message e
  end.

Definition _retry `{RetryLib} (self : t) (request : Request) (reason : Reason)
    (w : World) : World * result (option Request) :=
  match py_add_int (dict_get "retry_times" (VInt 0) (meta request)) 1 with
  | None => (w, Raise TypeError)
  | Some retries =>
      let retry_times :=
        if dict_contains "max_retry_times" (meta request)
        then dict_get "max_retry_times" VNone (meta request)
        else VInt (max_retry_times self) in
      match py_int_le retries retry_times with
      | None => (w, Raise TypeError)
      | Some true =>
          let w :=
            logger_debug "Retrying %(request)s (failed %(retries)d times): %(reason)s" w in
          let retryreq := copy request in
          let retryreq := meta_setitem "retry_times" (VInt retries) retryreq in
          let retryreq := set_dont_filter true retryreq in
          let retryreq :=
            set_priority (priority request + priority_adjust self) retryreq in
          let reason :=
            match reason with
            | ReasonExc e =>
                if isinstance e ExceptionClass
                then ReasonStr (global_object_name (exc_class e))
                else reason
            | ReasonStr _ => reason
            end in
          let w := inc_value "retry/count" w in
          let w := inc_value ("retry/reason_count/" +:+ reason_str reason) w in
          (w, Return (Some retryreq))
      | Some false =>
          let w := inc_value "retry/max_reached" w in
          let w :=
            logger_debug "Gave up retrying %(request)s (failed %(retries)d times): %(reason)s" w in
          (w, Return None)
      end
  end.

Definition process_response `{RetryLib} (self : t) (request : Request)
    (response : Response) (spider : Spider) (w : World)
  : World * result (Request + Response) :=
  if truthy (dict_get "dont_retry" (VBool false) (meta request))
  then (w, Return (inr response))
  else if bool_decide (status response ∈ retry_http_codes self) then
    let reason := response_status_message (status response) in
    (* [self._retry(request, reason, spider) or response] *)
    match _retry self request (ReasonStr reason) w with
    | (w, Return (Some retryreq)) => (w, Return (inl retryreq))
    | (w, Return None) => (w, Return (inr response))
    | (w, Raise e) => (w, Raise e)
    end
  else (w, Return (inr response)).

Definition process_exception `{RetryLib} (self : t) (request : Request)
    (exception : PyException) (spider : Spider) (w : World)
  : World * result (option Request) :=
  if isinstance_any exception EXCEPTIONS_TO_RETRY
     && negb (truthy (dict_get "dont_retry" (VBool false) (meta request)))
  then _retry self request (ReasonExc exception) w
  else (w, Return None).

End RetryMiddleware.

(** ** scrapy/spidermiddlewares/httperror.py *)

Module HttpErrorMiddleware.

(** [__init__]: HTTPERROR_ALLOW_ALL and HTTPERROR_ALLOWED_CODES. *)
Record t := {
  handle_httpstatus_all : bool;
  handle_httpstatus_list : list PyValue;
}.

Definition process_spider_input (self : t) (response : Response) (spider : Spider)
  : result unit :=
  if (200 <=? status response) && (status response <? 300) then Return ()
  else
    match response_meta response with
    | None => Raise AttributeError
    | Some meta =>
        if dict_contains "handle_httpstatus_all" meta then Return ()
        else
          let check (allowed_statuses : PyValue) : result unit :=
            match py_int_in (status response) allowed_statuses with
            | None => Raise TypeError
            | Some true => Return ()
            | Some false => Raise (HttpError response "Ignoring non-200 response")
            end in
          if dict_contains "handle_httpstatus_list" meta
          then check (dict_get "handle_httpstatus_list" VNone meta)
          else if handle_httpstatus_all self then Return ()
          else check (default (VList (handle_httpstatus_list self))
                              (spider_handle_httpstatus_list spider))
    end.

(** Returns [Some []] for the empty list and [None] for Python's None. *)
Definition process_spider_exception (self : t) (response : Response)
    (exception : PyException) (spider : Spider) (w : World)
  : World * option (list Request) :=
  if isinstance exception HttpErrorClass then
    let w := inc_value "httperror/response_ignored_count" w in
    let w :=
      inc_value ("httperror/response_ignored_status_count/" +:+ pretty (status response)) w in
    let w :=
      logger_info
        "Ignoring response %(response)r: HTTP status code is not handled or not allowed" w in
    (w, Some [])
  else (w, None).

End HttpErrorMiddleware.

(** ** scrapy/downloadermiddlewares/cookies.py *)

(** The keys of a Python dict are its hashable values, equal keys sharing an
    entry: [True] and [1] are one key, a list is no key at all. *)
Inductive HashKey :=
  | KNone
  | KInt (z : Z)
  | KStr (s : string).

Global Instance HashKey_eq_dec : EqDecision HashKey.
Proof. solve_decision. Defined.

Global Instance HashKey_countable : Countable HashKey.
Proof.
  refine (inj_countable'
    (λ k, match k with
          | KNone => inl ()
          | KInt z => inr (inl z)
          | KStr s => inr (inr s)
          end)
    (λ x, match x with
          | inl _ => KNone
          | inr (inl z) => KInt z
          | inr (inr s) => KStr s
          end) _).
  by intros [].
Defined.

Definition hash_key (v : PyValue) : option HashKey :=
  match v with
  | VNone => Some KNone
  | VBool b => Some (KInt (Z.b2z b))
  | VInt z => Some (KInt z)
  | VStr s => Some (KStr s)
  | VList _ => None
  end.

(** The cookie store of scrapy.http.cookies, which is not among the sources:
    the operations the middleware calls on a jar.  Each one hands back the
    jar as the call left it. *)
Class CookieJarOps (Jar Cookie : Type) := {
  (** [CookieJar()] *)
  new_jar : Jar;
  make_cookies : Jar -> Response -> Request -> Jar * list Cookie;
  set_cookie_if_ok : Jar -> Cookie -> Request -> Jar;
  (** the value of the Cookie header the jar computes for a request, when
      some cookie of the jar matches it *)
  cookie_header_for : Jar -> Request -> Jar * option string;
  extract_cookies : Jar -> Response -> Request -> Jar;
}.

(** Modelled from the spec: [CookieJar.add_cookie_header]
    (scrapy.http.cookies is not among the sources): the jar computes the
    canonical Cookie header from its matching cookies and sets it on the
    request. *)
Definition add_cookie_header `{CookieJarOps Jar Cookie} (jar : Jar) (request : Request)
  : Jar * Request :=
  let '(jar, attrs) := cookie_header_for jar request in
  match attrs with
  | Some v => (jar, set_headers (Headers.setlist "Cookie" [v] (headers request)) request)
  | None => (jar, request)
  end.

(** [Response(url, headers=h)]: status 200, no body, tied to no request. *)
Definition Response_of_headers (u : string) (h : gmap string (list string)) : Response :=
  {| response_url := u; status := 200; response_headers := h;
     response_body := ""; response_request := None |}.

Module CookiesMiddleware.
Section with_jar.
Context `{CookieJarOps Jar Cookie}.

(** [__init__]: [self.jars = defaultdict(CookieJar)] and the debug flag. *)
Record t := {
  jars : gmap HashKey Jar;
  debug : bool;
}.

(** [self.jars[key]]: a missing key gets a fresh jar, which is stored. *)
Definition jars_getitem (key : HashKey) (jars : gmap HashKey Jar)
  : Jar * gmap HashKey Jar :=
  match jars !! key with
  | Some jar => (jar, jars)
  | None => (new_jar, <[key := new_jar]> jars)
  end.

(** [cookie.get(k, None)] as a condition *)
Definition nonempty (o : option string) : option string :=
  match o with
  | Some s => if String.eqb s "" then None else Some s
  | None => None
  end.

Definition _format_cookie (cookie : CookieDict) : string :=
  let cookie_str := cookie_name cookie +:+ "=" +:+ cookie_value cookie in
  let cookie_str :=
    match nonempty (cookie_path cookie) with
    | Some p => cookie_str +:+ "; Path=" +:+ p
    | None => cookie_str
    end in
  let cookie_str :=
    match nonempty (cookie_domain cookie) with
    | Some d => cookie_str +:+ "; Domain=" +:+ d
    | None => cookie_str
    end in
  cookie_str.

Definition _get_request_cookies (jar : Jar) (request : Request) : Jar * list Cookie :=
  let cookie_list :=
    match cookies request with
    | CookiesOfDict items =>
        map (λ '(k, v), {| cookie_name := k; cookie_value := v;
                           cookie_path := None; cookie_domain := None |}) items
    | CookiesOfList l => l
    end in
  let cookies := map _format_cookie cookie_list in
  let headers := Headers.setlist "Set-Cookie" cookies ∅ in
  let response := Response_of_headers (url request) headers in
  make_cookies jar response request.

Definition _debug_cookie (self : t) (request : Request) (spider : Spider) (w : World)
  : World :=
  if debug self then
    match Headers.getlist "Cookie" (headers request) with
    | [] => w
    | _ :: _ => logger_debug "Sending cookies to: {}\n{}" w
    end
  else w.

Definition _debug_set_cookie (self : t) (response : Response) (spider : Spider)
    (w : World) : World :=
  if debug self then
    match Headers.getlist "Set-Cookie" (response_headers response) with
    | [] => w
    | _ :: _ => logger_debug "Received cookies from: {}\n{}" w
    end
  else w.

Definition process_request (self : t) (request : Request) (spider : Spider)
    (w : World) : t * Outcome unit :=
  if truthy (dict_get "dont_merge_cookies" (VBool false) (meta request)) then
    (self, {| request_after := request; world_after := w; returned := Return () |})
  else
    let cookiejarkey := dict_get "cookiejar" VNone (meta request) in
    match hash_key cookiejarkey with
    | None =>
        (* an unhashable key *)
        (self, {| request_after := request; world_after := w;
                  returned := Raise TypeError |})
    | Some key =>
        let '(jar, jars) := jars_getitem key (jars self) in
        let '(jar, cookies) := _get_request_cookies jar request in
        let jar :=
          fold_left (λ jar cookie, set_cookie_if_ok jar cookie request) cookies jar in
        (* set Cookie header *)
        let request := set_headers (Headers.pop "Cookie" (headers request)) request in
        let '(jar, request) := add_cookie_header jar request in
        let w := _debug_cookie self request spider w in
        ({| jars := <[key := jar]> jars; debug := debug self |},
         {| request_after := request; world_after := w; returned := Return () |})
    end.

Definition process_response (self : t) (request : Request) (response : Response)
    (spider : Spider) (w : World) : t * World * result Response :=
  if truthy (dict_get "dont_merge_cookies" (VBool false) (meta request)) then
    (self, w, Return response)
  else
    let cookiejarkey := dict_get "cookiejar" VNone (meta request) in
    match hash_key cookiejarkey with
    | None => (self, w, Raise TypeError)
    | Some key =>
        let '(jar, jars) := jars_getitem key (jars self) in
        let jar := extract_cookies jar response request in
        let w := _debug_set_cookie self response spider w in
        ({| jars := <[key := jar]> jars; debug := debug self |}, w, Return response)
    end.

End with_jar.
Arguments t : clear implicits.
End CookiesMiddleware.

(** ** Instances the model is run on in the examples below *)

(** Library functions for responses whose Location is already an absolute,
    safe URL: it is its own safe form and replaces the base URL. *)
Definition absolute_urls : UrlLib :=
  {| safe_url_string := λ s, s;
     urljoin := λ base location, location |}.

Definition sample_retry_lib : RetryLib :=
  {| response_status_message := λ code, pretty code +:+ " Unknown Status";
     global_object_name := λ c,
       match c with
       | TimeoutError => "twisted.internet.error.TimeoutError"
       | TunnelError => "scrapy.core.downloader.handlers.http11.TunnelError"
       | OtherClass name => name
       | _ => "Exception"
       end |}.

(** A jar that keeps every cookie string it is given and sends them all,
    whatever the domain and path. *)
Definition simple_jar : CookieJarOps (list string) string :=
  {| new_jar := [];
     make_cookies := λ jar response request,
       (jar, Headers.getlist "Set-Cookie" (response_headers response));
     set_cookie_if_ok := λ jar cookie request, (jar ++ [cookie])%list;
     cookie_header_for := λ jar request,
       (jar, match jar with
             | [] => None
             | c :: cs => Some (fold_left (λ acc x, acc +:+ "; " +:+ x) cs c)
             end);
     extract_cookies := λ jar response request,
       (jar ++ Headers.getlist "Set-Cookie" (response_headers response))%list |}.

Definition empty_world : World := {| stats := ∅; log := [] |}.

Definition default_redirect : RedirectMiddleware.t :=
  {| RedirectMiddleware.max_redirect_times := 20;
     RedirectMiddleware.priority_adjust := 2 |}.

Definition default_retry : RetryMiddleware.t :=
  {| RetryMiddleware.max_retry_times := 2;
     RetryMiddleware.retry_http_codes := {[500; 502; 503; 504; 522; 524; 408; 429]};
     RetryMiddleware.priority_adjust := -1 |}.

Definition default_httperror : HttpErrorMiddleware.t :=
  {| HttpErrorMiddleware.handle_httpstatus_all := false;
     HttpErrorMiddleware.handle_httpstatus_list := [] |}.

Definition plain_spider : Spider := {| spider_handle_httpstatus_list := None |}.

(** [Request(url)] with a method, a body, a priority and a meta dict. *)
Definition make_request (u m b : string) (p : Z) (mt : gmap string PyValue) : Request :=
  {| url := u; method := m; headers := ∅; body := b; cookies := CookiesOfDict [];
     priority := p; dont_filter := false; meta := mt |}.

(** A response to [request] with a status and headers. *)
Definition make_response (request : Request) (st : Z) (h : gmap string (list string))
  : Response :=
  {| response_url := url request; status := st; response_headers := h;
     response_body := ""; response_request := Some request |}.

(** The four meta keys [_redirect] stamps on the candidate. *)
Definition redirect_keys : list string :=
  ["redirect_times"; "redirect_ttl"; "redirect_urls"; "redirect_reasons"].

(** ** Redirect chains *)

(** Two requests carry the same redirect budget. *)
Definition same_redirect_budget (r1 r2 : Request) : Prop :=
  meta r1 !! "redirect_ttl" = meta r2 !! "redirect_ttl"
  ∧ meta r1 !! "redirect_times" = meta r2 !! "redirect_times".

(** One link of a redirect chain: the request [r], as it comes back with a
    response (other components may have written other meta keys in the
    meantime), is handed to [_redirect], which returns [r'].  The candidate,
    the reason and the collaborators are any. *)
Inductive redirect_step (self : RedirectMiddleware.t) (r r' : Request) : Prop :=
  | redirect_step_intro (redirected request : Request) (reason : PyValue) (w : World) :
      same_redirect_budget r request →
      returned (RedirectMiddleware._redirect self redirected request reason w) = Return r' →
      redirect_step self r r'.

(** [redirect_chain self r0 r]: [r] is returned by [_redirect] after one or
    more links starting from [r0]. *)
Inductive redirect_chain (self : RedirectMiddleware.t) (r0 : Request) : Request → Prop :=
  | redirect_chain_first (r1 : Request) :
      redirect_step self r0 r1 → redirect_chain self r0 r1
  | redirect_chain_next (r r' : Request) :
      redirect_chain self r0 r → redirect_step self r r' → redirect_chain self r0 r'.

(** The two budget counters of a request add up to the configured maximum. *)
Definition budget_complement (self : RedirectMiddleware.t) (r : Request) : Prop :=
  ∃ times ttl : Z,
    meta r !! "redirect_times" = Some (VInt times)
    ∧ meta r !! "redirect_ttl" = Some (VInt ttl)
    ∧ times + ttl = RedirectMiddleware.max_redirect_times self.

(** The attributes of a request other than its meta. *)
Definition same_attributes (r1 r2 : Request) : Prop :=
  url r1 = url r2 ∧ method r1 = method r2 ∧ headers r1 = headers r2
  ∧ body r1 = body r2 ∧ cookies r1 = cookies r2
  ∧ priority r1 = priority r2 ∧ dont_filter r1 = dont_filter r2.

(** What [_redirect] leaves in the meta of the request it was called for:
    the redirect_ttl it read, stored when the key was missing. *)
Definition redirect_seeded (self : RedirectMiddleware.t) (m : gmap string PyValue)
  : gmap string PyValue :=
  match m !! "redirect_ttl" with
  | Some _ => m
  | None => <["redirect_ttl" := VInt (RedirectMiddleware.max_redirect_times self)]> m
  end.

(** ** The request the HTTP redirect policy rebuilds *)

(** The rebuilt request [r] keeps the method, the body and the headers of
    [request]. *)
Definition keeps_method_and_body (request r : Request) : Prop :=
  method r = method request ∧ body r = body request ∧ headers r = headers request.

(** The rebuilt request [r] is a GET with an empty body and without the
    Content-Type and Content-Length headers of [request], whose other
    headers it keeps. *)
Definition rebuilt_as_get (request r : Request) : Prop :=
  method r = "GET" ∧ body r = ""
  ∧ Headers.contains "Content-Type" (headers r) = false
  ∧ Headers.contains "Content-Length" (headers r) = false
  ∧ ∀ k, k ≠ Headers.normkey "Content-Type" → k ≠ Headers.normkey "Content-Length" →
         headers r !! k = headers request !! k.

(** A response the first [if] of [RedirectMiddleware.process_response] lets
    through to the redirect logic: no test of it is true. *)
Definition redirect_enabled (request : Request) (response : Response) (spider : Spider)
  : Prop :=
  truthy (dict_get "dont_redirect" (VBool false) (meta request)) = false
  ∧ py_int_in (status response)
      (default (VList []) (spider_handle_httpstatus_list spider)) = Some false
  ∧ py_int_in (status response)
      (dict_get "handle_httpstatus_list" (VList []) (meta request)) = Some false
  ∧ truthy (dict_get "handle_httpstatus_all" (VBool false) (meta request)) = false.

(** ** Cookie jars *)

(** The jar a request selects: its meta cookiejar as a dict key, the key
    [None] when the meta has none; no key at all for an unhashable value. *)
Definition jar_key (request : Request) : option HashKey :=
  hash_key (dict_get "cookiejar" VNone (meta request)).

(** A middleware that has seen nothing yet. *)
Definition fresh_cookies : CookiesMiddleware.t (list string) :=
  {| CookiesMiddleware.jars := ∅; CookiesMiddleware.debug := false |}.

(** A request under cookiejar "A", the response that sets a cookie on it,
    and a request under cookiejar "B". *)
Definition request_jar_A : Request :=
  make_request "http://example.com/login" "GET" "" 0 {["cookiejar" := VStr "A"]}.

Definition response_jar_A : Response :=
  make_response request_jar_A 200 {["Set-Cookie" := ["sid=abc; Path=/"]]}.

Definition request_jar_B : Request :=
  make_request "http://example.com/home" "GET" "" 0 {["cookiejar" := VStr "B"]}.

(** ** Retry counters *)

(** The name a retry reason is counted under. *)
Definition reason_name `{RetryLib} (reason : Reason) : string :=
  match reason with
  | ReasonStr s => s
  | ReasonExc e =>
      if isinstance e ExceptionClass then global_object_name (exc_class e)
      else exc_message e
  end.

(** A response with status 429 to a request already retried twice. *)
Definition retried_twice : Request :=
  make_request "http://example.com/busy" "GET" "" 0 {["retry_times" := VInt 2]}.

Definition too_many_requests : Response := make_response retried_twice 429 ∅.

(** A timeout raised by the transport. *)
Definition timeout_error : PyException :=
  {| exc_class := TimeoutError; exc_bases := [ExceptionClass];
     exc_message := "User timeout caused connection failure.";
     exc_response := None |}.

(** ** The status filter as the specification words it *)

(** What the allow-list resolution comes to: let the response through, or
    test the status against a list. *)
Inductive Resolution :=
  | PassThrough
  | AllowList (allowed_statuses : PyValue).

(** The precedence order of the specification: (a) meta
    handle_httpstatus_list if that key is present; (b) pass-through if meta
    handle_httpstatus_all; (c) the spider's handle_httpstatus_list attribute
    if set; (d) the configured HTTPERROR_ALLOWED_CODES. *)
Definition spec_resolve (self : HttpErrorMiddleware.t) (meta : gmap string PyValue)
    (spider : Spider) : Resolution :=
  match meta !! "handle_httpstatus_list" with
  | Some allowed => AllowList allowed
  | None =>
      if dict_contains "handle_httpstatus_all" meta then PassThrough
      else
        match spider_handle_httpstatus_list spider with
        | Some allowed => AllowList allowed
        | None => AllowList (VList (HttpErrorMiddleware.handle_httpstatus_list self))
        end
  end.

(** The filter of the specification: a status in [200, 300) passes; any
    other passes iff it is in the allow-list resolved by [spec_resolve], and
    raises HttpError carrying the response otherwise. *)
Definition spec_process_spider_input (self : HttpErrorMiddleware.t) (response : Response)
    (spider : Spider) : result unit :=
  if (200 <=? status response) && (status response <? 300) then Return ()
  else
    match response_meta response with
    | None => Raise AttributeError
    | Some meta =>
        match spec_resolve self meta spider with
        | PassThrough => Return ()
        | AllowList allowed =>
            match py_int_in (status response) allowed with
            | None => Raise TypeError
            | Some true => Return ()
            | Some false => Raise (HttpError response "Ignoring non-200 response")
            end
        end
    end.

(** A 500 for a request that allows 404 in handle_httpstatus_list and also
    carries handle_httpstatus_all. *)
Definition allow_404_and_all : Response :=
  make_response
    (make_request "http://example.com/" "GET" "" 0
       {["handle_httpstatus_list" := VList [VInt 404];
         "handle_httpstatus_all" := VBool true]})
    500 ∅.

(** A 500 for a request that allows 404 in handle_httpstatus_list and
    carries handle_httpstatus_all with the value False. *)
Definition allow_404_and_all_false : Response :=
  make_response
    (make_request "http://example.com/" "GET" "" 0
       {["handle_httpstatus_list" := VList [VInt 404];
         "handle_httpstatus_all" := VBool false]})
    500 ∅.

(** A 404 for a request that allows 404 in handle_httpstatus_list. *)
Definition allowed_404 : Response :=
  make_response
    (make_request "http://example.com/missing" "GET" "" 0
       {["handle_httpstatus_list" := VList [VInt 404]]})
    404 ∅.

(** A response with status 500 to a plain request, and a filter configured
    with HTTPERROR_ALLOW_ALL. *)
Definition server_error : Response :=
  make_response (make_request "http://example.com/" "GET" "" 0 ∅) 500 ∅.

Definition allow_all_httperror : HttpErrorMiddleware.t :=
  {| HttpErrorMiddleware.handle_httpstatus_all := true;
     HttpErrorMiddleware.handle_httpstatus_list := [] |}.

(** A response with status 404 to a plain request. *)
Definition not_found : Response :=
  make_response (make_request "http://example.com/" "GET" "" 0 ∅) 404 ∅.

(** A form submission and the 302 that answers it. *)
Definition form_post : Request :=
  {| url := "http://example.com/form"; method := "POST";
     headers := {["Content-Type" := ["application/x-www-form-urlencoded"];
                  "Content-Length" := ["3"]; "Accept" := ["*/*"]]};
     body := "a=1"; cookies := CookiesOfDict []; priority := 5;
     dont_filter := false; meta := ∅ |}.

Definition form_post_302 : Response :=
  make_response form_post 302 {["Location" := ["http://example.com/done"]]}.

(** ** Counted chains *)

(** The request handed to [_redirect] is the one a previous call returned:
    the same url and the same four redirect keys in the meta. *)
Definition same_redirect_state (r1 r2 : Request) : Prop :=
  url r1 = url r2 ∧ ∀ k, k ∈ redirect_keys → meta r1 !! k = meta r2 !! k.

(** [redirect_hops self n r0 r]: [r] comes out of [n] successive calls of
    [_redirect], the first one for [r0], each for the request the call before
    it returned. *)
Inductive redirect_hops (self : RedirectMiddleware.t) : nat → Request → Request → Prop :=
  | redirect_hops_zero (r : Request) : redirect_hops self 0 r r
  | redirect_hops_next (n : nat) (r0 r r' redirected request : Request)
      (reason : PyValue) (w : World) :
      redirect_hops self n r0 r →
      same_redirect_state r request →
      returned (RedirectMiddleware._redirect self redirected request reason w) = Return r' →
      redirect_hops self (S n) r0 r'.

(** [retry_hops self n r0 r]: [r] comes out of [n] successive calls of
    [_retry], the first one for [r0], each for the request the call before it
    returned. *)
Inductive retry_hops `{RetryLib} (self : RetryMiddleware.t) : nat → Request → Request → Prop :=
  | retry_hops_zero (r : Request) : retry_hops self 0 r r
  | retry_hops_next (n : nat) (r0 r r' : Request) (reason : Reason) (w : World) :
      retry_hops self n r0 r →
      (RetryMiddleware._retry self r reason w).2 = Return (Some r') →
      retry_hops self (S n) r0 r'.

(** The requests of a chain of two redirects under the default settings:
    /a, redirected with a 301 to /b, redirected with a 302 to /c. *)
Definition hop_a : Request := make_request "http://example.com/a" "GET" "" 0 ∅.

Definition hop_b : Request :=
  make_request "http://example.com/b" "GET" "" 2
    (<["redirect_reasons" := VList [VInt 301]]>
     (<["redirect_urls" := VList [VStr "http://example.com/a"]]>
      (<["redirect_ttl" := VInt 19]> (<["redirect_times" := VInt 1]> ∅)))).

Definition hop_c : Request :=
  make_request "http://example.com/c" "GET" "" 4
    (<["redirect_reasons" := VList [VInt 301; VInt 302]]>
     (<["redirect_urls" := VList [VStr "http://example.com/a";
                                  VStr "http://example.com/b"]]>
      (<["redirect_ttl" := VInt 18]> (<["redirect_times" := VInt 2]> ∅)))).

(** A request that timed out once and its first retry. *)
Definition slow_request : Request :=
  make_request "http://example.com/slow" "GET" "" 0 ∅.

Definition slow_retry_1 : Request :=
  {| url := "http://example.com/slow"; method := "GET"; headers := ∅; body := "";
     cookies := CookiesOfDict []; priority := -1; dont_filter := true;
     meta := {["retry_times" := VInt 1]} |}.

Definition slow_retry_2 : Request :=
  {| url := "http://example.com/slow"; method := "GET"; headers := ∅; body := "";
     cookies := CookiesOfDict []; priority := -2; dont_filter := true;
     meta := {["retry_times" := VInt 2]} |}.

(** What the 302 of [form_post_302] makes of [form_post]. *)
Definition form_post_redirected : Request :=
  {| url := "http://example.com/done"; method := "GET";
     headers := {["Accept" := ["*/*"]]};
     body := ""; cookies := CookiesOfDict []; priority := 7; dont_filter := false;
     meta := <["redirect_reasons" := VList [VInt 302]]>
               (<["redirect_urls" := VList [VStr "http://example.com/form"]]>
                  (<["redirect_ttl" := VInt 19]> (<["redirect_times" := VInt 1]> ∅))) |}.

(** A request that brings its own Cookie header to an empty jar. *)
Definition request_own_cookie : Request :=
  {| url := "http://example.com/"; method := "GET";
     headers := {["Cookie" := ["stale=1"]]};
     body := ""; cookies := CookiesOfDict []; priority := 0; dont_filter := false;
     meta := ∅ |}.

(** A 302 with a Location for a request that wants to see 302 responses. *)
Definition request_handles_302 : Request :=
  make_request "http://example.com/old" "GET" "" 0
    {["handle_httpstatus_list" := VList [VInt 302]]}.

Definition response_handled_302 : Response :=
  make_response request_handles_302 302 {["Location" := ["http://example.com/new"]]}.

(** A spider that wants to see 500 responses, and a filter configured to
    allow them too. *)
Definition spider_handles_500 : Spider :=
  {| spider_handle_httpstatus_list := Some (VList [VInt 500]) |}.

Definition httperror_allows_500 : HttpErrorMiddleware.t :=
  {| HttpErrorMiddleware.handle_httpstatus_all := false;
     HttpErrorMiddleware.handle_httpstatus_list := [VInt 500] |}.

(** A 500 for a request whose meta allows 404 only. *)
Definition server_error_allow_404 : Response :=
  make_response
    (make_request "http://example.com/" "GET" "" 0
       {["handle_httpstatus_list" := VList [VInt 404]]})
    500 ∅.

(** ** MetaRefreshMiddleware of scrapy/downloadermiddlewares/redirect.py *)

(** What the middleware asks of a response: whether it is an [HtmlResponse],
    and [get_meta_refresh] of scrapy.utils.response, which gives the interval
    and the url of the page's refresh directive, or [(None, None)].  The
    interval is a float; the one thing done with it is the test
    [interval < n] against an int. *)
Class MetaRefreshLib (Interval : Type) := {
  is_HtmlResponse : Response -> bool;
  get_meta_refresh : Response -> list string -> option (Interval * string);
  interval_lt : Interval -> Z -> bool;
}.

Module MetaRefreshMiddleware.

(** [__init__]: the attributes of [BaseRedirectMiddleware], then
    METAREFRESH_IGNORE_TAGS and the maximum delay. *)
Record t := {
  base : RedirectMiddleware.t;
  _ignore_tags : list string;
  _maxdelay : Z;
}.

Definition process_response `{MetaRefreshLib Interval} (self : t) (request : Request)
    (response : Response) (spider : Spider) (w : World)
  : Outcome (Request + Response) :=
  let pass :=
    {| request_after := request; world_after := w; returned := Return (inr response) |} in
  if truthy (dict_get "dont_redirect" (VBool false) (meta request))
     || String.eqb (method request) "HEAD"
     || negb (is_HtmlResponse response)
  then pass
  else
    match get_meta_refresh response (_ignore_tags self) with
    | Some (interval, url) =>
        if negb (String.eqb url "") && interval_lt interval (_maxdelay self) then
          let redirected := RedirectMiddleware._redirect_request_using_get request url in
          RedirectMiddleware.as_request
            (RedirectMiddleware._redirect (base self) redirected request
               (VStr "meta refresh") w)
        else pass
    | None => pass
    end.

End MetaRefreshMiddleware.

(** A reader of refresh directives to run the model on: every response is
    HTML, and a body that is not empty is the url to go to at once. *)
Definition body_is_target : MetaRefreshLib Z :=
  {| is_HtmlResponse := λ _, true;
     get_meta_refresh := λ response _,
       if String.eqb (response_body response) "" then None
       else Some (0, response_body response);
     interval_lt := Z.ltb |}.

Definition default_metarefresh : MetaRefreshMiddleware.t :=
  {| MetaRefreshMiddleware.base := default_redirect;
     MetaRefreshMiddleware._ignore_tags := ["script"; "noscript"];
     MetaRefreshMiddleware._maxdelay := 100 |}.

(** A page that refreshes to /next, and what the refresh makes of
    [form_post]. *)
Definition refresh_page : Response :=
  {| response_url := "http://example.com/form"; status := 200; response_headers := ∅;
     response_body := "http://example.com/next"; response_request := Some form_post |}.

Definition form_post_refreshed : Request :=
  {| url := "http://example.com/next"; method := "GET";
     headers := {["Accept" := ["*/*"]]};
     body := ""; cookies := CookiesOfDict []; priority := 7; dont_filter := false;
     meta := <["redirect_reasons" := VList [VStr "meta refresh"]]>
               (<["redirect_urls" := VList [VStr "http://example.com/form"]]>
                  (<["redirect_ttl" := VInt 19]> (<["redirect_times" := VInt 1]> ∅))) |}.

(** ** scrapy/cmdline.py *)

(** [_pop_command_name]: the loop over [argv[1:]], [i] counting the
    arguments seen, and [argv] as the call leaves it. *)
Fixpoint _pop_command_name_loop (rest : list string) (i : nat) (argv : list string)
  : option string * list string :=
  match rest with
  | [] => (None, argv)
  | arg :: rest' =>
      if negb (String.prefix "-" arg) then (Some arg, delete i argv)
      else _pop_command_name_loop rest' (S i) argv
  end.

Definition _pop_command_name (argv : list string) : option string * list string :=
  _pop_command_name_loop (drop 1 argv) 0 argv.

(** ** scrapy/utils/conf.py *)

Definition ValueError : PyException :=
  {| exc_class := OtherClass "ValueError"; exc_bases := [ExceptionClass];
     exc_message := ""; exc_response := None |}.

(** [s.split(sep, 1)]: one string when [sep] is not in [s], else what is
    before the first [sep] and what is after it. *)
Fixpoint split_once (sep : ascii) (s : string) : list string :=
  match s with
  | EmptyString => [EmptyString]
  | String c s' =>
      if Ascii.eqb c sep then [EmptyString; s']
      else match split_once sep s' with
           | head :: rest => String c head :: rest
           | [] => []
           end
  end.

(** [dict(pairs)], onto the entries read so far: every element has to hold
    two items, and a later key replaces an earlier one. *)
Fixpoint dict_of_pairs (d : gmap string string) (pairs : list (list string))
  : result (gmap string string) :=
  match pairs with
  | [] => Return d
  | [k; v] :: pairs' => dict_of_pairs (<[k := v]> d) pairs'
  | _ :: _ => Raise ValueError
  end.

Definition arglist_to_dict (arglist : list string) : result (gmap string string) :=
  dict_of_pairs ∅ (map (split_once "=") arglist).

(** [sep in s] *)
Fixpoint contains_char (sep : ascii) (s : string) : bool :=
  match s with
  | EmptyString => false
  | String c s' => Ascii.eqb c sep || contains_char sep s'
  end.

(** ** scrapy/settings/__init__.py *)

(** The settings hold plain values here: None, booleans, ints, strings and
    lists.  A setting whose value is itself a [BaseSettings] or a
    [SettingsAttribute] object, a dict or a float is outside this model, and
    so are the JSON strings [update] and [getdict] parse. *)

Definition SETTINGS_PRIORITIES : gmap string Z :=
  {["default" := 0; "command" := 10; "project" := 20; "spider" := 30; "cmdline" := 40]}.

(** A priority is given by name or as a number. *)
Inductive Priority :=
  | PriorityName (name : string)
  | PriorityNumber (z : Z).

Definition get_settings_priority (priority : Priority) : result Z :=
  match priority with
  | PriorityName name =>
      match SETTINGS_PRIORITIES !! name with
      | Some z => Return z
      | None => Raise KeyError
      end
  | PriorityNumber z => Return z
  end.

Module SettingsAttribute.

Record t := {
  value : PyValue;
  priority : Z;
}.

(** [SettingsAttribute(value, priority)] *)
Definition new (value : PyValue) (priority : Z) : t :=
  {| value := value; priority := priority |}.

Definition set (self : t) (value : PyValue) (priority : Z) : t :=
  if priority >=? SettingsAttribute.priority self
  then {| value := value; priority := priority |}
  else self.

End SettingsAttribute.

(** Python's [int(s)] for a string [s], [None] when it raises ValueError. *)
Class PyBuiltins := {
  int_of_str : string -> option Z;
}.

(** [int(v)] *)
Definition py_int `{PyBuiltins} (v : PyValue) : result Z :=
  match v with
  | VInt z => Return z
  | VBool b => Return (Z.b2z b)
  | VStr s =>
      match int_of_str s with
      | Some z => Return z
      | None => Raise ValueError
      end
  | VNone | VList _ => Raise TypeError
  end.

(** [v in (s1, ..., sn)] for strings [s1 ... sn] *)
Definition py_in_strings (v : PyValue) (words : list string) : bool :=
  match v with
  | VStr s => bool_decide (s ∈ words)
  | _ => false
  end.

(** [s.split(sep)] for a separator of one character *)
Fixpoint split_on (sep : ascii) (s : string) : list string :=
  match s with
  | EmptyString => [EmptyString]
  | String c s' =>
      if Ascii.eqb c sep then EmptyString :: split_on sep s'
      else match split_on sep s' with
           | head :: rest => String c head :: rest
           | [] => [String c EmptyString]
           end
  end.

(** [sep.join(parts)] *)
Fixpoint join (sep : string) (parts : list string) : string :=
  match parts with
  | [] => EmptyString
  | [part] => part
  | part :: parts' => part +:+ sep +:+ join sep parts'
  end.

Module BaseSettings.

Record t := {
  frozen : bool;
  attributes : gmap string SettingsAttribute.t;
}.

(** [BaseSettings()] *)
Definition empty : t := {| frozen := false; attributes := ∅ |}.

Definition __contains__ (self : t) (name : string) : bool :=
  dict_contains name (attributes self).

Definition __getitem__ (self : t) (opt_name : string) : PyValue :=
  match attributes self !! opt_name with
  | None => VNone
  | Some attribute => SettingsAttribute.value attribute
  end.

Definition get (self : t) (name : string) (default : PyValue) : PyValue :=
  match __getitem__ self name with
  | VNone => default
  | v => v
  end.

Definition getbool `{PyBuiltins} (self : t) (name : string) (default : PyValue)
  : result bool :=
  let got := get self name default in
  match py_int got with
  | Return z => Return (negb (z =? 0))
  | Raise e =>
      if bool_decide (exc_class e = exc_class ValueError) then
        if py_in_strings got ["True"; "true"] then Return true
        else if py_in_strings got ["False"; "false"] then Return false
        else Raise ValueError
      else Raise e
  end.

Definition getint `{PyBuiltins} (self : t) (name : string) (default : PyValue)
  : result Z :=
  py_int (get self name default).

Definition getlist (self : t) (name : string) (default : PyValue)
  : result (list PyValue) :=
  let value := get self name (if truthy default then default else VList []) in
  let value :=
    match value with
    | VStr s => VList (VStr <$> split_on "," s)
    | _ => value
    end in
  match value with
  | VList l => Return l
  | _ => Raise TypeError
  end.

Definition getpriority (self : t) (name : string) : option Z :=
  SettingsAttribute.priority <$> attributes self !! name.

Definition maxpriority (self : t) : Z :=
  match map_to_list (attributes self) with
  | [] => 0
  | (_, attribute) :: rest =>
      foldr (λ entry acc, Z.max (SettingsAttribute.priority entry.2) acc)
            (SettingsAttribute.priority attribute) rest
  end.

Definition set (self : t) (name : string) (value : PyValue) (priority : Priority)
  : result t :=
  if frozen self then Raise TypeError
  else
    match get_settings_priority priority with
    | Raise e => Raise e
    | Return priority =>
        let attribute :=
          match attributes self !! name with
          | None => SettingsAttribute.new value priority
          | Some attribute => SettingsAttribute.set attribute value priority
          end in
        Return {| frozen := frozen self;
                  attributes := <[name := attribute]> (attributes self) |}
    end.

(** The loop of [update] over the items of a dict. *)
Fixpoint set_items (self : t) (items : list (string * PyValue)) (priority : Priority)
  : result t :=
  match items with
  | [] => Return self
  | (name, value) :: items' =>
      match set self name value priority with
      | Return self' => set_items self' items' priority
      | Raise e => Raise e
      end
  end.

(** [update(values, priority)] for [values] None or a dict, given by its
    items. *)
Definition update (self : t) (values : option (list (string * PyValue)))
    (priority : Priority) : result t :=
  if frozen self then Raise TypeError
  else
    match values with
    | None => Return self
    | Some items => set_items self items priority
    end.

Definition setdict := update.

Definition delete (self : t) (name : string) (priority : Priority) : result t :=
  if frozen self then Raise TypeError
  else
    match get_settings_priority priority with
    | Raise e => Raise e
    | Return priority =>
        match getpriority self name with
        | None => Raise TypeError
        | Some current =>
            if priority >=? current
            then Return {| frozen := frozen self;
                           attributes := base.delete name (attributes self) |}
            else Return self
        end
    end.

End BaseSettings.

(** [Spider.update_settings] of scrapy/spiders/__init__.py, for a spider
    class with the given [custom_settings], None or a dict. *)
Definition update_settings (custom_settings : option (list (string * PyValue)))
    (settings : BaseSettings.t) : result BaseSettings.t :=
  BaseSettings.setdict settings
    (Some (match custom_settings with
           | Some ((_ :: _) as items) => items
           | _ => []
           end))
    (PriorityName "spider").

(** [HttpErrorMiddleware.__init__] *)
Definition HttpErrorMiddleware_init `{PyBuiltins} (settings : BaseSettings.t)
  : result HttpErrorMiddleware.t :=
  match BaseSettings.getbool settings "HTTPERROR_ALLOW_ALL" (VBool false) with
  | Raise e => Raise e
  | Return allow_all =>
      match BaseSettings.getlist settings "HTTPERROR_ALLOWED_CODES" VNone with
      | Raise e => Raise e
      | Return codes =>
          Return {| HttpErrorMiddleware.handle_httpstatus_all := allow_all;
                    HttpErrorMiddleware.handle_httpstatus_list := codes |}
      end
  end.

(** A parser of unsigned decimal numbers, to run the model on. *)
Fixpoint digits_value (acc : Z) (s : string) : option Z :=
  match s with
  | EmptyString => Some acc
  | String c s' =>
      let n := Z.of_N (N_of_ascii c) in
      if (48 <=? n) && (n <=? 57) then digits_value (10 * acc + (n - 48)) s' else None
  end.

Definition decimal_parser : PyBuiltins :=
  {| int_of_str := λ s, match s with
                        | EmptyString => None
                        | _ => digits_value 0 s
                        end |}.

(** Settings with project-level and command-line entries. *)
Definition project_settings : BaseSettings.t :=
  {| BaseSettings.frozen := false;
     BaseSettings.attributes :=
       {["REDIRECT_MAX_TIMES" := SettingsAttribute.new (VInt 20) 0;
         "RETRY_TIMES" := SettingsAttribute.new (VStr "3") 20;
         "HTTPERROR_ALLOWED_CODES" := SettingsAttribute.new (VStr "404,500") 40;
         "DOWNLOAD_DELAY" := SettingsAttribute.new (VInt 5) 40]} |}.

(** [f] on the value of a result, a raised exception passing through. *)
Definition and_then {A B : Type} (r : result A) (f : A → result B) : result B :=
  match r with
  | Return a => f a
  | Raise e => Raise e
  end.

(** ** Requests as objects *)

(** The hooks above take the request by value and hand back what the call
    left of it.  [request.copy()] makes a new object and the retry hooks
    write to that one: to tell these writes from writes to the request that
    was copied, the hooks that assign nothing to the request they are given
    (the retry hooks and [CookiesMiddleware.process_response]) are run here
    on a heap of request objects, a request being a reference into it. *)
Definition Ref := positive.
Definition Heap := gmap Ref Request.

(** A new object holding [r], at a reference that is not in use. *)
Definition heap_new (r : Request) (h : Heap) : Ref * Heap :=
  let l := fresh (dom h) in (l, <[l := r]> h).

(** [obj.attr = v] and [obj.meta[k] = v]: the object at [l] after [f]. *)
Definition heap_set (f : Request → Request) (l : Ref) (h : Heap) : Heap :=
  alter f l h.

(** The hooks of scrapy/downloadermiddlewares/retry.py on request objects.
    A hook called with a reference to no object is no run of the program:
    the result is [None] then. *)
Module RetryMiddlewareOnHeap.

Definition _retry `{RetryLib} (self : RetryMiddleware.t) (request : Ref)
    (reason : Reason) (h : Heap) (w : World)
  : option (Heap * World * result (option Ref)) :=
  r ← h !! request;
  match py_add_int (dict_get "retry_times" (VInt 0) (meta r)) 1 with
  | None => Some (h, w, Raise TypeError)
  | Some retries =>
      let retry_times :=
        if dict_contains "max_retry_times" (meta r)
        then dict_get "max_retry_times" VNone (meta r)
        else VInt (RetryMiddleware.max_retry_times self) in
      match py_int_le retries retry_times with
      | None => Some (h, w, Raise TypeError)
      | Some true =>
          let w :=
            logger_debug "Retrying %(request)s (failed %(retries)d times): %(reason)s" w in
          (* retryreq = request.copy() *)
          let '(retryreq, h) := heap_new (copy r) h in
          let h := heap_set (meta_setitem "retry_times" (VInt retries)) retryreq h in
          let h := heap_set (set_dont_filter true) retryreq h in
          (* retryreq.priority = request.priority + self.priority_adjust *)
          r ← h !! request;
          let h :=
            heap_set (set_priority (priority r + RetryMiddleware.priority_adjust self))
              retryreq h in
          let reason :=
            match reason with
            | ReasonExc e =>
                if isinstance e ExceptionClass
                then ReasonStr (global_object_name (exc_class e))
                else reason
            | ReasonStr _ => reason
            end in
          let w := inc_value "retry/count" w in
          let w :=
            inc_value ("retry/reason_count/" +:+ RetryMiddleware.reason_str reason) w in
          Some (h, w, Return (Some retryreq))
      | Some false =>
          let w := inc_value "retry/max_reached" w in
          let w :=
            logger_debug "Gave up retrying %(request)s (failed %(retries)d times): %(reason)s" w in
          Some (h, w, Return None)
      end
  end.

Definition process_response `{RetryLib} (self : RetryMiddleware.t) (request : Ref)
    (response : Response) (spider : Spider) (h : Heap) (w : World)
  : option (Heap * World * result (Ref + Response)) :=
  r ← h !! request;
  if truthy (dict_get "dont_retry" (VBool false) (meta r))
  then Some (h, w, Return (inr response))
  else if bool_decide (status response ∈ RetryMiddleware.retry_http_codes self) then
    let reason := response_status_message (status response) in
    (* [self._retry(request, reason, spider) or response] *)
    '(h, w, res) ← _retry self request (ReasonStr reason) h w;
    match res with
    | Return (Some retryreq) => Some (h, w, Return (inl retryreq))
    | Return None => Some (h, w, Return (inr response))
    | Raise e => Some (h, w, Raise e)
    end
  else Some (h, w, Return (inr response)).

Definition process_exception `{RetryLib} (self : RetryMiddleware.t) (request : Ref)
    (exception : PyException) (spider : Spider) (h : Heap) (w : World)
  : option (Heap * World * result (option Ref)) :=
  r ← h !! request;
  if isinstance_any exception RetryMiddleware.EXCEPTIONS_TO_RETRY
     && negb (truthy (dict_get "dont_retry" (VBool false) (meta r)))
  then _retry self request (ReasonExc exception) h w
  else Some (h, w, Return None).

End RetryMiddlewareOnHeap.

(** [CookiesMiddleware.process_response] on request objects: the request is
    read for its meta and handed to the jar. *)
Module CookiesMiddlewareOnHeap.
Section with_jar.
Context `{CookieJarOps Jar Cookie}.

Definition process_response (self : CookiesMiddleware.t Jar) (request : Ref)
    (response : Response) (spider : Spider) (h : Heap) (w : World)
  : option (Heap * CookiesMiddleware.t Jar * World * result Response) :=
  r ← h !! request;
  if truthy (dict_get "dont_merge_cookies" (VBool false) (meta r)) then
    Some (h, self, w, Return response)
  else
    let cookiejarkey := dict_get "cookiejar" VNone (meta r) in
    match hash_key cookiejarkey with
    | None => Some (h, self, w, Raise TypeError)
    | Some key =>
        let '(jar, jars) :=
          CookiesMiddleware.jars_getitem key (CookiesMiddleware.jars self) in
        r ← h !! request;
        let jar := extract_cookies jar response r in
        let w := CookiesMiddleware._debug_set_cookie self response spider w in
        Some (h,
              {| CookiesMiddleware.jars := <[key := jar]> jars;
                 CookiesMiddleware.debug := CookiesMiddleware.debug self |},
              w, Return response)
    end.

End with_jar.
End CookiesMiddlewareOnHeap.

(** A heap that holds [slow_request] and one other request. *)
Definition two_requests : Heap := {[1%positive := slow_request; 2%positive := request_jar_A]}.

(** * Properties *)

(** ** Python values and dicts *)

(** Closes a goal with a hypothesis [H : x ∈ [a; b; ...]] where [x] is none
    of the elements. *)
Ltac refute_elem_of H :=
  repeat (apply elem_of_cons in H as [H|H]; [discriminate H|]);
  by apply elem_of_nil in H.

Lemma truthy_as_int v z : as_int v = Some z → truthy v = negb (z =? 0).
Proof. destruct v as [ | [] | | | ]; simpl; intros; simplify_eq; done. Qed.

Lemma dict_get_insert_ne {V} (k k' : string) (x d : V) (m : gmap string V) :
  k ≠ k' → dict_get k' d (<[k := x]> m) = dict_get k' d m.
Proof. intros. unfold dict_get. by rewrite lookup_insert_ne. Qed.

Lemma dict_setdefault_fst {V} (k : string) (d : V) (m : gmap string V) :
  (dict_setdefault k d m).1 = dict_get k d m.
Proof. unfold dict_setdefault, dict_get. by destruct (m !! k). Qed.

Lemma dict_setdefault_snd_ne {V} (k k' : string) (d : V) (m : gmap string V) :
  k ≠ k' → (dict_setdefault k d m).2 !! k' = m !! k'.
Proof.
  intros. unfold dict_setdefault. destruct (m !! k); simpl; [done|].
  by rewrite lookup_insert_ne.
Qed.

(** ** The redirect core *)

Section redirect_core.
Import RedirectMiddleware.
Variables (self : RedirectMiddleware.t) (redirected request : Request)
          (reason : PyValue) (w : World).

(** [_redirect] with the reads of the original meta named. *)
Lemma _redirect_returned (ttl : PyValue) (times : Z) :
  dict_get "redirect_ttl" (VInt (max_redirect_times self)) (meta request) = ttl →
  as_int (dict_get "redirect_times" (VInt 0) (meta request)) = Some times →
  returned (_redirect self redirected request reason w) =
    if truthy ttl && (times + 1 <=? max_redirect_times self) then
      match py_sub_int ttl 1,
            py_add_list (dict_get "redirect_urls" (VList []) (meta request))
                        [VStr (url request)],
            py_add_list (dict_get "redirect_reasons" (VList []) (meta request))
                        [reason] with
      | Some ttl', Some urls, Some reasons =>
          Return
            (set_priority (priority request + priority_adjust self)
              (set_dont_filter (dont_filter request)
                (meta_setitem "redirect_reasons" reasons
                  (meta_setitem "redirect_urls" urls
                    (meta_setitem "redirect_ttl" (VInt ttl')
                      (meta_setitem "redirect_times" (VInt (times + 1))
                         redirected))))))
      | _, _, _ => Raise TypeError
      end
    else Raise (IgnoreRequest "max redirections reached").
Proof.
  intros Httl Htimes. unfold _redirect.
  pose proof (dict_setdefault_fst "redirect_ttl" (VInt (max_redirect_times self))
                (meta request)) as Hfst.
  destruct (dict_setdefault _ _ _) as [ttl0 m] eqn:Hsd. simpl in Hfst.
  rewrite Httl in Hfst. subst ttl0.
  assert (Hm : ∀ k, k ≠ "redirect_ttl" → m !! k = meta request !! k).
  { intros k Hk.
    pose proof (dict_setdefault_snd_ne "redirect_ttl" k
                  (VInt (max_redirect_times self)) (meta request)) as Hs.
    rewrite Hsd in Hs. simpl in Hs. apply Hs. done. }
  assert (Hg : ∀ k d, k ≠ "redirect_ttl" →
               dict_get k d (meta (set_meta m request)) = dict_get k d (meta request)).
  { intros k d Hk. unfold dict_get. simpl. by rewrite Hm. }
  rewrite !Hg by done.
  unfold py_add_int. rewrite Htimes. simpl.
  destruct (truthy ttl && (times + 1 <=? max_redirect_times self)); [|done].
  destruct (py_sub_int ttl 1); simpl; [|done].
  destruct (py_add_list (dict_get "redirect_urls" _ _) _); simpl; [|done].
  destruct (py_add_list (dict_get "redirect_reasons" _ _) _); simpl; done.
Qed.

(** C1: with ttl the meta redirect_ttl of the request (max_redirect_times
    when absent) and redirects its meta redirect_times (0 when absent) plus
    one: if ttl is nonzero and redirects <= max_redirect_times, [_redirect]
    returns the candidate stamped with redirect_times = redirects,
    redirect_ttl = ttl - 1, the request's url appended to redirect_urls,
    the reason appended to redirect_reasons, dont_filter copied from the
    request and priority = the request's priority + priority_adjust,
    everything else of the candidate kept; otherwise it returns no request
    and raises IgnoreRequest("max redirections reached"). *)
Theorem redirect_core_spec (ttl times : Z) :
  as_int (dict_get "redirect_ttl" (VInt (max_redirect_times self)) (meta request))
    = Some ttl →
  as_int (dict_get "redirect_times" (VInt 0) (meta request)) = Some times →
  let redirects := times + 1 in
  (ttl ≠ 0 ∧ redirects ≤ max_redirect_times self →
   ∀ urls reasons,
     dict_get "redirect_urls" (VList []) (meta request) = VList urls →
     dict_get "redirect_reasons" (VList []) (meta request) = VList reasons →
     ∃ r, returned (_redirect self redirected request reason w) = Return r
        ∧ meta r !! "redirect_times" = Some (VInt redirects)
        ∧ meta r !! "redirect_ttl" = Some (VInt (ttl - 1))
        ∧ meta r !! "redirect_urls" = Some (VList (urls ++ [VStr (url request)]))
        ∧ meta r !! "redirect_reasons" = Some (VList (reasons ++ [reason]))
        ∧ dont_filter r = dont_filter request
        ∧ priority r = priority request + priority_adjust self
        ∧ url r = url redirected ∧ method r = method redirected
        ∧ headers r = headers redirected ∧ body r = body redirected
        ∧ cookies r = cookies redirected
        ∧ ∀ k, k ∉ redirect_keys → meta r !! k = meta redirected !! k)
  ∧ (¬ (ttl ≠ 0 ∧ redirects ≤ max_redirect_times self) →
     returned (_redirect self redirected request reason w)
       = Raise (IgnoreRequest "max redirections reached")).
Proof.
  intros Httl Htimes redirects.
  rewrite (_redirect_returned _ times eq_refl Htimes).
  rewrite (truthy_as_int _ _ Httl).
  unfold py_sub_int. rewrite Httl. simpl. fold redirects.
  split.
  - intros [Hnz Hle] urls reasons -> ->. simpl.
    assert (negb (ttl =? 0) && (redirects <=? max_redirect_times self) = true)
      as -> by (apply andb_true_iff; split; [apply negb_true_iff|]; lia).
    eexists. split; [reflexivity|]. simpl.
    repeat (split; [by simplify_map_eq|]).
    intros k Hk. unfold redirect_keys in Hk.
    rewrite !lookup_insert_ne; [done|set_solver..].
  - intros Hno.
    assert (negb (ttl =? 0) && (redirects <=? max_redirect_times self) = false)
      as -> ; [|done].
    apply andb_false_iff.
    destruct (decide (ttl = 0)) as [->|Hnz]; [by left|right].
    apply Z.leb_gt. lia.
Qed.
End redirect_core.

(** The first redirect of a fresh request under the default settings. *)
Lemma redirect_core_spec_witness :
  ∃ r, returned (RedirectMiddleware._redirect default_redirect
                   (make_request "http://example.com/new" "GET" "" 0 ∅)
                   (make_request "http://example.com/old" "GET" "" 0 ∅)
                   (VInt 301) empty_world) = Return r
     ∧ meta r !! "redirect_times" = Some (VInt 1)
     ∧ meta r !! "redirect_ttl" = Some (VInt 19)
     ∧ priority r = 2.
Proof.
  destruct (redirect_core_spec default_redirect
              (make_request "http://example.com/new" "GET" "" 0 ∅)
              (make_request "http://example.com/old" "GET" "" 0 ∅)
              (VInt 301) empty_world 20 0) as [Hgo _]; [reflexivity..|].
  destruct (Hgo ltac:(simpl; lia) [] []) as (r & Hr & Htimes & Httl & _ & _ & _ & Hprio & _);
    [reflexivity..|].
  exists r. repeat split; assumption.
Defined.

(** ** What a call leaves of the request it was given *)

Lemma _redirect_request_after self redirected request reason w :
  request_after (RedirectMiddleware._redirect self redirected request reason w)
  = set_meta (redirect_seeded self (meta request)) request.
Proof.
  unfold RedirectMiddleware._redirect, redirect_seeded, dict_setdefault.
  destruct (meta request !! "redirect_ttl") as [v|];
    match goal with |- context [match ?a with _ => _ end] => destruct a as [[?|]|] end;
    reflexivity.
Qed.

(** ** The budget along a redirect chain *)

Section redirect_chain.
Import RedirectMiddleware.
Variable self : RedirectMiddleware.t.

Lemma _redirect_stamp redirected request reason w r (ttl times : Z) :
  as_int (dict_get "redirect_ttl" (VInt (max_redirect_times self)) (meta request))
    = Some ttl →
  as_int (dict_get "redirect_times" (VInt 0) (meta request)) = Some times →
  returned (_redirect self redirected request reason w) = Return r →
  meta r !! "redirect_times" = Some (VInt (times + 1))
  ∧ meta r !! "redirect_ttl" = Some (VInt (ttl - 1)).
Proof.
  intros Httl Htimes.
  rewrite (_redirect_returned _ _ _ _ _ _ times eq_refl Htimes).
  unfold py_sub_int. rewrite Httl. simpl.
  destruct (_ && _); [|done].
  destruct (py_add_list (dict_get "redirect_urls" _ _) _); [|done].
  destruct (py_add_list (dict_get "redirect_reasons" _ _) _); [|done].
  intros [= <-]. simpl. by simplify_map_eq.
Qed.

Lemma redirect_step_fresh r0 r1 :
  meta r0 !! "redirect_ttl" = None →
  meta r0 !! "redirect_times" = None →
  redirect_step self r0 r1 →
  budget_complement self r1.
Proof.
  intros Httl Htimes [redirected request reason w [Ebt Ebn] Hret].
  rewrite Httl in Ebt. rewrite Htimes in Ebn.
  destruct (_redirect_stamp redirected request reason w r1
              (max_redirect_times self) 0) as [H1 H2]; [| |done|].
  - unfold dict_get. by rewrite <- Ebt.
  - unfold dict_get. by rewrite <- Ebn.
  - exists (0 + 1), (max_redirect_times self - 1). repeat split; [done..|lia].
Qed.

Lemma redirect_step_complement r r' :
  budget_complement self r →
  redirect_step self r r' →
  budget_complement self r'.
Proof.
  intros (times & ttl & Htimes & Httl & Hsum) [redirected request reason w [Ebt Ebn] Hret].
  rewrite Httl in Ebt. rewrite Htimes in Ebn.
  destruct (_redirect_stamp redirected request reason w r' ttl times) as [H1 H2];
    [| |done|].
  - unfold dict_get. by rewrite <- Ebt.
  - unfold dict_get. by rewrite <- Ebn.
  - exists (times + 1), (ttl - 1). repeat split; [done..|lia].
Qed.

(** C10: along a redirect chain whose first request has neither redirect_ttl
    nor redirect_times in its meta, every request [_redirect] returns has
    meta redirect_times + meta redirect_ttl = max_redirect_times. *)
Theorem redirect_chain_budget_complement (r0 r : Request) :
  meta r0 !! "redirect_ttl" = None →
  meta r0 !! "redirect_times" = None →
  redirect_chain self r0 r →
  budget_complement self r.
Proof.
  intros Httl Htimes Hchain.
  induction Hchain as [r1 Hstep | r r' _ IH Hstep].
  - by apply redirect_step_fresh with r0.
  - by apply redirect_step_complement with r.
Qed.
End redirect_chain.

(** A chain of two redirects under the default settings: /a to /b to /c. *)
Lemma redirect_chain_budget_complement_witness :
  budget_complement default_redirect
    (make_request "http://example.com/c" "GET" "" 4
       (<["redirect_reasons" := VList [VInt 301; VInt 302]]>
        (<["redirect_urls" := VList [VStr "http://example.com/a";
                                     VStr "http://example.com/b"]]>
         (<["redirect_ttl" := VInt 18]> (<["redirect_times" := VInt 2]> ∅))))).
Proof.
  pose (r1 := make_request "http://example.com/b" "GET" "" 2
                (<["redirect_reasons" := VList [VInt 301]]>
                 (<["redirect_urls" := VList [VStr "http://example.com/a"]]>
                  (<["redirect_ttl" := VInt 19]> (<["redirect_times" := VInt 1]> ∅))))).
  apply (redirect_chain_budget_complement default_redirect
           (make_request "http://example.com/a" "GET" "" 0 ∅)); [reflexivity..|].
  apply redirect_chain_next with r1.
  - apply redirect_chain_first.
    apply (redirect_step_intro _ _ _
             (make_request "http://example.com/b" "GET" "" 0 ∅)
             (make_request "http://example.com/a" "GET" "" 0 ∅)
             (VInt 301) empty_world); [by split|].
    vm_compute. reflexivity.
  - apply (redirect_step_intro _ _ _
             (make_request "http://example.com/c" "GET" "" 2 (meta r1))
             r1 (VInt 302) empty_world); [by split|].
    vm_compute. reflexivity.
Defined.

(** ** The HTTP redirect policy *)

Section http_redirect.
Import RedirectMiddleware.
Context `{UrlLib}.

Lemma _redirect_keeps_candidate self redirected request reason w r :
  returned (_redirect self redirected request reason w) = Return r →
  url r = url redirected ∧ method r = method redirected
  ∧ headers r = headers redirected ∧ body r = body redirected
  ∧ cookies r = cookies redirected.
Proof.
  unfold _redirect. destruct (dict_setdefault _ _ _) as [ttl m]. simpl.
  destruct (py_add_int _ _) as [redirects|]; simpl; [|done].
  destruct (truthy ttl && _); [|done].
  destruct (py_sub_int ttl 1); simpl; [|done].
  destruct (py_add_list (dict_get "redirect_urls" _ _) _); simpl; [|done].
  destruct (py_add_list (dict_get "redirect_reasons" _ _) _); simpl; [|done].
  by intros [= <-].
Qed.

Lemma returned_as_request (o : Outcome Request) r :
  returned (as_request o) = Return (inl r) → returned o = Return r.
Proof. unfold as_request. simpl. destruct (returned o); by intros [= <-]. Qed.

Lemma rebuilt_using_get request redirect_url :
  url (_redirect_request_using_get request redirect_url) = redirect_url
  ∧ rebuilt_as_get request (_redirect_request_using_get request redirect_url).
Proof.
  unfold _redirect_request_using_get, rebuilt_as_get, Headers.contains, Headers.pop,
    dict_contains. simpl.
  repeat split.
  - by rewrite lookup_delete_ne, lookup_delete_eq.
  - by rewrite lookup_delete_eq.
  - intros k H1 H2. by rewrite !lookup_delete_ne.
Qed.

(** The branch [process_response] takes for a redirect it handles. *)
Lemma process_response_redirects self request response spider w value :
  redirect_enabled request response spider →
  status response ∈ allowed_status →
  Headers.getitem "Location" (response_headers response) = Some (Some value) →
  process_response self request response spider w =
    let redirected_url := urljoin (url request) (safe_url_string value) in
    as_request
      (_redirect self
         (if bool_decide (status response ∈ [301; 307; 308])
             || String.eqb (method request) "HEAD"
          then replace (Some redirected_url) None None request
          else _redirect_request_using_get request redirected_url)
         request (VInt (status response)) w).
Proof.
  intros (Hdont & Hspider & Hmeta & Hall) Hstatus Hloc.
  unfold process_response. rewrite Hdont, Hspider. simpl. rewrite Hmeta. simpl.
  rewrite Hall.
  assert (Headers.contains "Location" (response_headers response) = true) as ->.
  { unfold Headers.getitem in Hloc. unfold Headers.contains, dict_contains.
    by destruct (response_headers response !! Headers.normkey "Location"). }
  rewrite (bool_decide_eq_true_2 _ Hstatus). simpl.
  change (Headers.getitem "location" (response_headers response))
    with (Headers.getitem "Location" (response_headers response)).
  rewrite Hloc. by destruct (_ || _).
Qed.

(** C4: for a redirect [RedirectMiddleware.process_response] handles
    (status 301, 302, 303, 307 or 308, a Location header, nothing that
    disables redirects) the result is that of [_redirect] on a rebuilt
    request whose url is the Location value resolved against the url of the
    original request; for status 301, 307 or 308 or an original method HEAD
    the rebuilt request keeps the method and the body, otherwise it is a GET
    with an empty body and without the Content-Type and Content-Length
    headers; and every request [process_response] returns has that shape. *)
Theorem http_redirect_policy self request response spider w value :
  redirect_enabled request response spider →
  status response ∈ allowed_status →
  Headers.getitem "Location" (response_headers response) = Some (Some value) →
  let target := urljoin (url request) (safe_url_string value) in
  let keep := status response ∈ [301; 307; 308] ∨ method request = "HEAD" in
  let shape (r : Request) :=
    url r = target
    ∧ (keep → keeps_method_and_body request r)
    ∧ (¬ keep → rebuilt_as_get request r) in
  ∃ redirected,
    process_response self request response spider w
      = as_request (_redirect self redirected request (VInt (status response)) w)
    ∧ shape redirected
    ∧ ∀ r, returned (process_response self request response spider w) = Return (inl r) →
           shape r.
Proof.
  intros Hen Hstatus Hloc target keep shape.
  rewrite (process_response_redirects _ _ _ _ _ _ Hen Hstatus Hloc). cbv zeta.
  fold target.
  destruct (bool_decide (status response ∈ [301; 307; 308])
            || String.eqb (method request) "HEAD") eqn:Hkeep.
  - assert (keep) as Hk.
    { apply orb_true_iff in Hkeep as [Hs|Hm].
      - left. by apply bool_decide_eq_true in Hs.
      - right. by apply String.eqb_eq. }
    assert (shape (replace (Some target) None None request)) as Hshape.
    { unfold shape. simpl. by repeat split. }
    eexists. split; [reflexivity|]. split; [done|].
    intros r Hr. apply returned_as_request, _redirect_keeps_candidate in Hr
      as (Hu & Hm & Hh & Hb & _).
    destruct Hshape as (Su & Sk & Sg). unfold shape, keeps_method_and_body in *.
    rewrite Hu, Hm, Hh, Hb. by repeat split.
  - assert (¬ keep) as Hk.
    { apply orb_false_iff in Hkeep as [Hs Hm]. intros [Hs'|Hm'].
      - by apply bool_decide_eq_false in Hs.
      - apply String.eqb_neq in Hm. done. }
    destruct (rebuilt_using_get request target) as [Gu Gs].
    assert (shape (_redirect_request_using_get request target)) as Hshape.
    { unfold shape. split; [done|]. split; [intros Hk'; by destruct Hk|done]. }
    eexists. split; [reflexivity|]. split; [done|].
    intros r Hr. apply returned_as_request, _redirect_keeps_candidate in Hr
      as (Hu & Hm & Hh & Hb & _).
    unfold shape, rebuilt_as_get in *.
    rewrite Hu, Hm, Hh, Hb. split; [done|]. split; [intros Hk'; by destruct Hk|].
    intros _. apply Gs.
Qed.
End http_redirect.

(** A POST answered by a 302 is followed as a GET of the Location. *)
Lemma http_redirect_policy_witness :
  ∃ redirected,
    RedirectMiddleware.process_response (H := absolute_urls)
        default_redirect form_post form_post_302 plain_spider empty_world
      = RedirectMiddleware.as_request
          (RedirectMiddleware._redirect default_redirect redirected form_post
             (VInt 302) empty_world)
    ∧ url redirected = "http://example.com/done"
    ∧ rebuilt_as_get form_post redirected.
Proof.
  destruct (http_redirect_policy (H := absolute_urls)
              default_redirect form_post form_post_302 plain_spider empty_world
              "http://example.com/done")
    as (redirected & Heq & (Hurl & _ & Hget) & _).
  - unfold redirect_enabled. repeat split; reflexivity.
  - simpl. set_solver.
  - reflexivity.
  - exists redirected. split; [exact Heq|]. split; [exact Hurl|].
    apply Hget. simpl. intros [Hs|Hm]; [refute_elem_of Hs|discriminate].
Defined.

(** ** The retry core *)

Section retry.
Import RetryMiddleware.
Context `{RetryLib}.
Variables (self : RetryMiddleware.t) (request : Request).

(** The request [_retry] returns. *)
Lemma _retry_unfold reason w (times budget : Z) :
  as_int (dict_get "retry_times" (VInt 0) (meta request)) = Some times →
  as_int (dict_get "max_retry_times" (VInt (max_retry_times self)) (meta request))
    = Some budget →
  _retry self request reason w =
    if times + 1 <=? budget then
      (inc_value ("retry/reason_count/" +:+ reason_name reason)
         (inc_value "retry/count"
            (logger_debug "Retrying %(request)s (failed %(retries)d times): %(reason)s" w)),
       Return (Some
         (set_priority (priority request + priority_adjust self)
            (set_dont_filter true
               (meta_setitem "retry_times" (VInt (times + 1)) (copy request))))))
    else
      (logger_debug "Gave up retrying %(request)s (failed %(retries)d times): %(reason)s"
         (inc_value "retry/max_reached" w),
       Return None).
Proof.
  intros Htimes Hbudget. unfold _retry, py_add_int. rewrite Htimes. simpl.
  assert ((if dict_contains "max_retry_times" (meta request)
           then dict_get "max_retry_times" VNone (meta request)
           else VInt (max_retry_times self))
          = dict_get "max_retry_times" (VInt (max_retry_times self)) (meta request))
    as ->.
  { unfold dict_contains, dict_get. by destruct (meta request !! "max_retry_times"). }
  unfold py_int_le. rewrite Hbudget. simpl.
  destruct (times + 1 <=? budget); [|done].
  destruct reason as [s|e]; simpl; [done|]. by destruct (isinstance e ExceptionClass).
Qed.

(** [_retry] gives a request only to a caller whose budget allows it. *)
Lemma _retry_Some reason w r :
  (_retry self request reason w).2 = Return (Some r) →
  ∃ times budget,
    as_int (dict_get "retry_times" (VInt 0) (meta request)) = Some times
    ∧ as_int (dict_get "max_retry_times" (VInt (max_retry_times self)) (meta request))
        = Some budget
    ∧ times + 1 ≤ budget.
Proof.
  destruct (as_int (dict_get "retry_times" (VInt 0) (meta request)))
    as [times|] eqn:Htimes.
  2: { unfold _retry, py_add_int. by rewrite Htimes. }
  destruct (as_int (dict_get "max_retry_times" (VInt (max_retry_times self))
                      (meta request))) as [budget|] eqn:Hbudget.
  - rewrite (_retry_unfold _ _ _ _ Htimes Hbudget).
    destruct (times + 1 <=? budget) eqn:Hle; [|done].
    intros _. exists times, budget. repeat split; [done..|lia].
  - unfold _retry, py_add_int. rewrite Htimes. simpl.
    assert ((if dict_contains "max_retry_times" (meta request)
             then dict_get "max_retry_times" VNone (meta request)
             else VInt (max_retry_times self))
            = dict_get "max_retry_times" (VInt (max_retry_times self)) (meta request))
      as ->.
    { unfold dict_contains, dict_get. by destruct (meta request !! "max_retry_times"). }
    unfold py_int_le. by rewrite Hbudget.
Qed.

Lemma retry_keys_differ name : "retry/count" ≠ "retry/reason_count/" +:+ name.
Proof. simpl. discriminate. Qed.

(** C2: with retries the meta retry_times of the request (0 when absent)
    plus one and budget its meta max_retry_times (RETRY_TIMES when absent):
    if retries <= budget, [_retry] returns a copy of the request with meta
    retry_times = retries, dont_filter true and priority = the request's
    priority + priority_adjust, and the counters retry/count and
    retry/reason_count/<reason> go up by one, no other counter changing; if
    retries > budget, it returns nothing and retry/max_reached alone goes up
    by one.  A request already retried budget times is not retried again. *)
Theorem retry_core_spec reason w (times budget : Z) :
  as_int (dict_get "retry_times" (VInt 0) (meta request)) = Some times →
  as_int (dict_get "max_retry_times" (VInt (max_retry_times self)) (meta request))
    = Some budget →
  let retries := times + 1 in
  let w' := (_retry self request reason w).1 in
  let res := (_retry self request reason w).2 in
  let reason_key := "retry/reason_count/" +:+ reason_name reason in
  (retries ≤ budget →
     ∃ r, res = Return (Some r)
        ∧ meta r = <["retry_times" := VInt retries]> (meta request)
        ∧ dont_filter r = true
        ∧ priority r = priority request + priority_adjust self
        ∧ url r = url request ∧ method r = method request
        ∧ headers r = headers request ∧ body r = body request
        ∧ cookies r = cookies request
        ∧ stats w' !! "retry/count" = Some (dict_get "retry/count" 0 (stats w) + 1)
        ∧ stats w' !! reason_key = Some (dict_get reason_key 0 (stats w) + 1)
        ∧ ∀ k, k ≠ "retry/count" → k ≠ reason_key → stats w' !! k = stats w !! k)
  ∧ (budget < retries →
     res = Return None
     ∧ stats w' !! "retry/max_reached"
         = Some (dict_get "retry/max_reached" 0 (stats w) + 1)
     ∧ ∀ k, k ≠ "retry/max_reached" → stats w' !! k = stats w !! k)
  ∧ (times = budget → res = Return None).
Proof.
  intros Htimes Hbudget retries w' res reason_key.
  unfold w', res. rewrite (_retry_unfold _ _ _ _ Htimes Hbudget). fold retries.
  pose proof (retry_keys_differ (reason_name reason)) as Hkeys. fold reason_key in Hkeys.
  split; [|split].
  - intros Hle. apply Z.leb_le in Hle. rewrite Hle. fold reason_key.
    eexists. split; [reflexivity|]. simpl. repeat split.
    + rewrite lookup_insert_ne by done. by rewrite lookup_insert_eq.
    + rewrite lookup_insert_eq. by rewrite dict_get_insert_ne.
    + intros k Hk1 Hk2. by rewrite !lookup_insert_ne.
  - intros Hgt. apply Z.leb_gt in Hgt. rewrite Hgt. simpl.
    split; [done|]. split; [by rewrite lookup_insert_eq|].
    intros k Hk. by rewrite lookup_insert_ne.
  - intros ->. assert ((retries <=? budget) = false) as Hgt by (apply Z.leb_gt; lia).
    by rewrite Hgt.
Qed.
End retry.

(** A first timeout: the request is retried with retry_times 1, dont_filter
    set and the priority lowered by one. *)
Lemma retry_core_spec_witness :
  ∃ r, (RetryMiddleware._retry (H := sample_retry_lib) default_retry
          (make_request "http://example.com/slow" "GET" "" 0 ∅)
          (ReasonExc timeout_error) empty_world).2 = Return (Some r)
     ∧ meta r = {["retry_times" := VInt 1]}
     ∧ dont_filter r = true
     ∧ priority r = -1.
Proof.
  destruct (retry_core_spec (H := sample_retry_lib) default_retry
              (make_request "http://example.com/slow" "GET" "" 0 ∅)
              (ReasonExc timeout_error) empty_world 0 2) as [Hgo _];
    [reflexivity..|].
  destruct (Hgo ltac:(simpl; lia)) as (r & Hr & Hmeta & Hdf & Hprio & _).
  exists r. repeat split; assumption.
Defined.

(** ** The retry hooks *)

Section retry_hooks.
Import RetryMiddleware.
Context `{RetryLib}.
Variables (self : RetryMiddleware.t) (request : Request) (spider : Spider) (w : World).

(** C5: [process_response] returns the response it was given when meta
    dont_retry is set or the status is not in retry_http_codes, and also when
    the status is in retry_http_codes but the retry budget is exhausted; a
    response it returns is always the one it was given.  [process_exception]
    returns a request only for an instance of EXCEPTIONS_TO_RETRY with
    dont_retry unset and a budget that is not exhausted, and returns nothing
    otherwise. *)
Theorem retry_never_swallows (response : Response) (exception : PyException) :
  let pr := process_response self request response spider w in
  let pe := process_exception self request exception spider w in
  let dont_retry := truthy (dict_get "dont_retry" (VBool false) (meta request)) in
  let typed (times budget : Z) :=
    as_int (dict_get "retry_times" (VInt 0) (meta request)) = Some times
    ∧ as_int (dict_get "max_retry_times" (VInt (max_retry_times self)) (meta request))
        = Some budget in
  (dont_retry = true ∨ status response ∉ retry_http_codes self →
     pr = (w, Return (inr response)))
  ∧ (∀ times budget, typed times budget → budget < times + 1 →
       pr.2 = Return (inr response))
  ∧ (∀ response', pr.2 = Return (inr response') → response' = response)
  ∧ (∀ r, pe.2 = Return (Some r) →
       isinstance_any exception EXCEPTIONS_TO_RETRY = true
       ∧ dont_retry = false
       ∧ ∃ times budget, typed times budget ∧ times + 1 ≤ budget)
  ∧ (isinstance_any exception EXCEPTIONS_TO_RETRY = false ∨ dont_retry = true →
       pe = (w, Return None))
  ∧ (∀ times budget, typed times budget → budget < times + 1 →
       pe.2 = Return None).
Proof.
  intros pr pe dont_retry typed. unfold pr, pe, process_response, process_exception.
  fold dont_retry.
  split; [|split; [|split; [|split; [|split]]]].
  - intros [-> | Hcode]; [done|].
    destruct dont_retry; [done|]. by rewrite bool_decide_eq_false_2.
  - intros times budget [Htimes Hbudget] Hgt.
    destruct dont_retry; [done|]. destruct (bool_decide _); [|done].
    rewrite (_retry_unfold _ _ _ _ _ _ Htimes Hbudget).
    assert ((times + 1 <=? budget) = false) as -> by (apply Z.leb_gt; lia). done.
  - intros response'. destruct dont_retry; [by intros [= <-]|].
    destruct (bool_decide _); [|by intros [= <-]].
    destruct (_retry self request _ w) as [w' [[r|]|e]]; simpl; [done| |done].
    by intros [= <-].
  - intros r. destruct (isinstance_any exception EXCEPTIONS_TO_RETRY); [|done].
    destruct dont_retry; simpl; [intros [=]|]. intros Hr.
    split; [done|]. split; [done|].
    apply _retry_Some in Hr as (times & budget & Htimes & Hbudget & Hle).
    exists times, budget. by repeat split.
  - intros [-> | ->]; [done|]. by rewrite andb_false_r.
  - intros times budget [Htimes Hbudget] Hgt.
    destruct (_ && _); [|done].
    rewrite (_retry_unfold _ _ _ _ _ _ Htimes Hbudget).
    assert ((times + 1 <=? budget) = false) as -> by (apply Z.leb_gt; lia). done.
Qed.
End retry_hooks.

(** A 429 for a request already retried RETRY_TIMES = 2 times comes back
    as it is. *)
Lemma retry_never_swallows_witness :
  (RetryMiddleware.process_response (H := sample_retry_lib) default_retry
     retried_twice too_many_requests plain_spider empty_world).2
  = Return (inr too_many_requests).
Proof.
  destruct (retry_never_swallows (H := sample_retry_lib) default_retry
              retried_twice plain_spider empty_world too_many_requests timeout_error)
    as (_ & Hexhausted & _).
  apply (Hexhausted 2 2); [by split|lia].
Defined.

(** ** The status filter *)

Section status_filter.
Import HttpErrorMiddleware.
Variables (self : HttpErrorMiddleware.t) (response : Response) (spider : Spider).

Lemma process_spider_input_2xx :
  200 ≤ status response < 300 → process_spider_input self response spider = Return ().
Proof.
  intros [Hlo Hhi]. unfold process_spider_input.
  apply Z.leb_le in Hlo. apply Z.ltb_lt in Hhi. by rewrite Hlo, Hhi.
Qed.

(** The filter on a status outside [200, 300). *)
Lemma process_spider_input_non_2xx (m : gmap string PyValue) :
  ¬ (200 ≤ status response < 300) →
  response_meta response = Some m →
  process_spider_input self response spider =
    let check allowed_statuses :=
      match py_int_in (status response) allowed_statuses with
      | None => Raise TypeError
      | Some true => Return ()
      | Some false => Raise (HttpError response "Ignoring non-200 response")
      end in
    match m !! "handle_httpstatus_all", m !! "handle_httpstatus_list" with
    | Some _, _ => Return ()
    | None, Some allowed => check allowed
    | None, None =>
        if handle_httpstatus_all self then Return ()
        else check (default (VList (handle_httpstatus_list self))
                            (spider_handle_httpstatus_list spider))
    end.
Proof.
  intros Hout Hmeta. unfold process_spider_input.
  assert ((200 <=? status response) && (status response <? 300) = false) as ->.
  { apply andb_false_iff.
    destruct (decide (200 ≤ status response)); [right; apply Z.ltb_ge|left; apply Z.leb_gt];
      lia. }
  rewrite Hmeta. unfold dict_contains, dict_get.
  destruct (m !! "handle_httpstatus_all"); [done|].
  by destruct (m !! "handle_httpstatus_list").
Qed.

(** C9: a response with a status outside [200, 300) whose meta holds the key
    handle_httpstatus_all passes, whatever the value of the key (False
    included) and whatever else the meta, handle_httpstatus_list included,
    holds. *)
Theorem handle_httpstatus_all_presence (m : gmap string PyValue) (v : PyValue) :
  ¬ (200 ≤ status response < 300) →
  response_meta response = Some m →
  m !! "handle_httpstatus_all" = Some v →
  process_spider_input self response spider = Return ().
Proof.
  intros Hout Hmeta Hall.
  rewrite (process_spider_input_non_2xx m Hout Hmeta). by rewrite Hall.
Qed.

(** C3, amended: a status in [200, 300) passes.  For any other status the
    filter decides in this order: the response passes if the key
    handle_httpstatus_all is in its meta; else meta handle_httpstatus_list,
    if present, is the allow-list; else the response passes if
    HTTPERROR_ALLOW_ALL is configured; else the allow-list is the spider's
    handle_httpstatus_list attribute if set and HTTPERROR_ALLOWED_CODES if
    not.  With an allow-list, the response passes iff its status is in it,
    and HttpError carrying the response is raised otherwise. *)
Theorem allow_list_precedence :
  (200 ≤ status response < 300 → process_spider_input self response spider = Return ())
  ∧ (¬ (200 ≤ status response < 300) →
     ∀ m, response_meta response = Some m →
       let filtered (in_list : bool) : result unit :=
         if in_list then Return ()
         else Raise (HttpError response "Ignoring non-200 response") in
       (is_Some (m !! "handle_httpstatus_all") →
          process_spider_input self response spider = Return ())
       ∧ (m !! "handle_httpstatus_all" = None →
          ∀ allowed in_list,
            m !! "handle_httpstatus_list" = Some allowed →
            py_int_in (status response) allowed = Some in_list →
            process_spider_input self response spider = filtered in_list)
       ∧ (m !! "handle_httpstatus_all" = None →
          m !! "handle_httpstatus_list" = None →
          handle_httpstatus_all self = true →
          process_spider_input self response spider = Return ())
       ∧ (m !! "handle_httpstatus_all" = None →
          m !! "handle_httpstatus_list" = None →
          handle_httpstatus_all self = false →
          ∀ in_list,
            py_int_in (status response)
              (default (VList (handle_httpstatus_list self))
                       (spider_handle_httpstatus_list spider)) = Some in_list →
            process_spider_input self response spider = filtered in_list)).
Proof.
  split; [apply process_spider_input_2xx|].
  intros Hout m Hmeta filtered.
  rewrite (process_spider_input_non_2xx m Hout Hmeta). cbv zeta.
  split; [|split; [|split]].
  - by intros [v ->].
  - intros -> allowed in_list -> ->. by destruct in_list.
  - by intros -> -> ->.
  - intros -> -> -> in_list ->. by destruct in_list.
Qed.
End status_filter.

(** A 500 passes on the mere presence of handle_httpstatus_all, here with
    the value False and next to an allow-list that does not hold 500. *)
Lemma handle_httpstatus_all_presence_witness :
  HttpErrorMiddleware.process_spider_input default_httperror allow_404_and_all_false
    plain_spider = Return ().
Proof.
  apply (handle_httpstatus_all_presence default_httperror allow_404_and_all_false
           plain_spider
           {["handle_httpstatus_list" := VList [VInt 404];
             "handle_httpstatus_all" := VBool false]} (VBool false)).
  - simpl. lia.
  - reflexivity.
  - reflexivity.
Defined.

(** C3 as stated fails twice.  With both meta keys present the code lets a
    500 through that is not in the allow-list of meta handle_httpstatus_list,
    which the stated order consults first; and with HTTPERROR_ALLOW_ALL
    configured the code lets a 500 through that is in no allow-list at all. *)
Lemma allow_list_precedence_counterexample :
  ¬ (HttpErrorMiddleware.process_spider_input default_httperror allow_404_and_all
       plain_spider = Return ()
     ↔ spec_process_spider_input default_httperror allow_404_and_all plain_spider
       = Return ())
  ∧ ¬ (HttpErrorMiddleware.process_spider_input allow_all_httperror server_error
         plain_spider = Return ()
       ↔ spec_process_spider_input allow_all_httperror server_error plain_spider
         = Return ()).
Proof.
  split; intros [Hpass _]; specialize (Hpass eq_refl); discriminate Hpass.
Qed.

(** A 404 allowed by meta handle_httpstatus_list passes. *)
Lemma allow_list_precedence_witness :
  HttpErrorMiddleware.process_spider_input default_httperror allowed_404 plain_spider
  = Return ().
Proof.
  destruct (allow_list_precedence default_httperror allowed_404 plain_spider)
    as [_ Hnon].
  destruct (Hnon ltac:(simpl; lia) {["handle_httpstatus_list" := VList [VInt 404]]}
              eq_refl) as (_ & Hlist & _).
  apply (Hlist eq_refl (VList [VInt 404]) true); reflexivity.
Defined.

(** ** The HttpError exception hook *)

Section status_filter_exception.
Import HttpErrorMiddleware.
Variables (self : HttpErrorMiddleware.t) (response : Response) (spider : Spider)
          (w : World).

Lemma httperror_keys_differ suffix :
  "httperror/response_ignored_count"
  ≠ "httperror/response_ignored_status_count/" +:+ suffix.
Proof. simpl. discriminate. Qed.

(** C6: given an HttpError, [process_spider_exception] raises the counter
    httperror/response_ignored_count by one and the counter
    httperror/response_ignored_status_count/<status> of the response's status
    by one, touches no other counter, logs one line and returns an empty
    list; given any other exception it returns nothing and changes
    nothing. *)
Theorem process_spider_exception_spec (exception : PyException) :
  let w' := (process_spider_exception self response exception spider w).1 in
  let res := (process_spider_exception self response exception spider w).2 in
  let total := "httperror/response_ignored_count" in
  let per_status :=
    "httperror/response_ignored_status_count/" +:+ pretty (status response) in
  (isinstance exception HttpErrorClass = true →
     res = Some []
     ∧ stats w' !! total = Some (dict_get total 0 (stats w) + 1)
     ∧ stats w' !! per_status = Some (dict_get per_status 0 (stats w) + 1)
     ∧ (∀ k, k ≠ total → k ≠ per_status → stats w' !! k = stats w !! k)
     ∧ ∃ line, log w' = (log w ++ [line])%list ∧ log_level line = INFO)
  ∧ (isinstance exception HttpErrorClass = false → res = None ∧ w' = w)
  ∧ (∀ response' msg, isinstance (HttpError response' msg) HttpErrorClass = true).
Proof.
  intros w' res total per_status. unfold w', res, process_spider_exception.
  pose proof (httperror_keys_differ (pretty (status response))) as Hkeys.
  fold total per_status in Hkeys |- *.
  split; [|split].
  - intros ->. simpl. split; [done|]. split; [|split; [|split]].
    + rewrite lookup_insert_ne by done. by rewrite lookup_insert_eq.
    + rewrite lookup_insert_eq. by rewrite dict_get_insert_ne.
    + intros k Hk1 Hk2. by rewrite !lookup_insert_ne.
    + by eexists.
  - by intros ->.
  - done.
Qed.
End status_filter_exception.

(** The HttpError raised for a 404 is counted once in each counter. *)
Lemma process_spider_exception_spec_witness :
  let w' := (HttpErrorMiddleware.process_spider_exception default_httperror not_found
               (HttpError not_found "Ignoring non-200 response") plain_spider
               empty_world).1 in
  stats w' !! "httperror/response_ignored_count" = Some 1
  ∧ stats w' !! "httperror/response_ignored_status_count/404" = Some 1.
Proof.
  destruct (process_spider_exception_spec default_httperror not_found plain_spider
              empty_world (HttpError not_found "Ignoring non-200 response"))
    as [Hcount _].
  destruct (Hcount eq_refl) as (_ & Htotal & Hper & _).
  split; [exact Htotal|exact Hper].
Defined.

(** ** Cookie jars *)

Section cookies.
Import CookiesMiddleware.
Context `{CookieJarOps Jar Cookie}.
Variables (spider : Spider).

Lemma jars_getitem_lookup (key : HashKey) (js : gmap HashKey Jar) :
  (jars_getitem key js).1 = default new_jar (js !! key).
Proof. unfold jars_getitem. by destruct (js !! key). Qed.

Lemma jars_getitem_other (key key' : HashKey) (js : gmap HashKey Jar) :
  key ≠ key' → (jars_getitem key js).2 !! key' = js !! key'.
Proof.
  intros. unfold jars_getitem. destruct (js !! key); simpl; [done|].
  by rewrite lookup_insert_ne.
Qed.

(** [process_request] writes to the jar of the request's key only. *)
Lemma process_request_other_jars self request w (key : HashKey) :
  jar_key request ≠ Some key →
  jars (process_request self request spider w).1 !! key = jars self !! key.
Proof.
  intros Hkey. unfold process_request. fold (jar_key request).
  destruct (truthy _); [done|].
  destruct (jar_key request) as [key0|]; [|done].
  pose proof (jars_getitem_other key0 key (jars self)) as Hother.
  destruct (jars_getitem key0 (jars self)) as [jar js].
  destruct (_get_request_cookies jar request) as [jar1 cs].
  destruct (add_cookie_header _ _) as [jar2 request2]. simpl in *.
  rewrite lookup_insert_ne by congruence. apply Hother. congruence.
Qed.

(** [process_response] writes to the jar of the request's key only. *)
Lemma process_response_other_jars self request response w (key : HashKey) :
  jar_key request ≠ Some key →
  jars (process_response self request response spider w).1.1 !! key = jars self !! key.
Proof.
  intros Hkey. unfold process_response. fold (jar_key request).
  destruct (truthy _); [done|].
  destruct (jar_key request) as [key0|]; [|done].
  pose proof (jars_getitem_other key0 key (jars self)) as Hother.
  destruct (jars_getitem key0 (jars self)) as [jar js]. simpl in *.
  rewrite lookup_insert_ne by congruence. apply Hother. congruence.
Qed.

(** The request [process_request] hands on is decided by the jar of the
    request's key alone. *)
Lemma process_request_local self self' request w w' (key : HashKey) :
  jar_key request = Some key →
  jars self !! key = jars self' !! key →
  request_after (process_request self request spider w).2
  = request_after (process_request self' request spider w').2.
Proof.
  intros Hkey Hjar. unfold process_request. fold (jar_key request). rewrite Hkey.
  destruct (truthy _); [done|].
  pose proof (jars_getitem_lookup key (jars self)) as Hl.
  pose proof (jars_getitem_lookup key (jars self')) as Hl'.
  rewrite <- Hjar in Hl'. rewrite <- Hl in Hl'. clear Hl.
  destruct (jars_getitem key (jars self)) as [jar js].
  destruct (jars_getitem key (jars self')) as [jar' js']. simpl in Hl'. subst jar'.
  destruct (_get_request_cookies jar request) as [jar1 cs].
  by destruct (add_cookie_header _ _) as [jar2 request2].
Qed.

(** C8: handling a request or a response under one cookiejar key leaves the
    jar stored under every other key as it was, and the request
    [process_request] hands on under another key, the Cookie header it set
    included, is the one it would have handed on had the first never been
    handled. *)
Theorem cookie_jar_isolation self request_a response_a w (key_b : HashKey) :
  jar_key request_a ≠ Some key_b →
  let after_request := (process_request self request_a spider w).1 in
  let after_response := (process_response self request_a response_a spider w).1.1 in
  jars after_request !! key_b = jars self !! key_b
  ∧ jars after_response !! key_b = jars self !! key_b
  ∧ ∀ request_b w1 w2,
      jar_key request_b = Some key_b →
      request_after (process_request after_request request_b spider w1).2
      = request_after (process_request self request_b spider w2).2
      ∧ request_after (process_request after_response request_b spider w1).2
        = request_after (process_request self request_b spider w2).2.
Proof.
  intros Hkey after_request after_response.
  pose proof (process_request_other_jars self request_a w key_b Hkey) as Hreq.
  pose proof (process_response_other_jars self request_a response_a w key_b Hkey) as Hresp.
  split; [done|]. split; [done|].
  intros request_b w1 w2 Hb. split.
  - by apply process_request_local with key_b.
  - by apply process_request_local with key_b.
Qed.

(** What [process_request] leaves of the request: everything but the Cookie
    header. *)
Lemma process_request_frame self request w :
  let r := request_after (process_request self request spider w).2 in
  meta r = meta request ∧ url r = url request ∧ method r = method request
  ∧ body r = body request ∧ cookies r = cookies request
  ∧ priority r = priority request ∧ dont_filter r = dont_filter request
  ∧ ∀ k, k ≠ Headers.normkey "Cookie" → headers r !! k = headers request !! k.
Proof.
  unfold process_request.
  destruct (truthy _); [done|].
  destruct (hash_key _) as [key|]; [|done].
  destruct (jars_getitem key (jars self)) as [jar js].
  destruct (_get_request_cookies jar request) as [jar1 cs].
  unfold add_cookie_header.
  destruct (cookie_header_for _ _) as [jar2 [v|]]; simpl.
  - repeat split. intros k Hk. unfold Headers.setlist, Headers.pop.
    rewrite lookup_insert_ne by done. by rewrite lookup_delete_ne.
  - repeat split. intros k Hk. unfold Headers.pop. by rewrite lookup_delete_ne.
Qed.

(** [process_request] under dont_merge_cookies, or with a cookiejar value
    that is no dict key, leaves the request as it is. *)
Lemma process_request_untouched self request w :
  truthy (dict_get "dont_merge_cookies" (VBool false) (meta request)) = true
  ∨ jar_key request = None →
  request_after (process_request self request spider w).2 = request.
Proof.
  unfold process_request. fold (jar_key request).
  intros [-> | Hkey]; [done|]. rewrite Hkey. by destruct (truthy _).
Qed.

(** What [process_request] computes: the jar stored under the key of the
    request, a new one when there is none, is given the cookies of the
    request and asked for the Cookie header of the request stripped of its
    own; the header it gives is the one set, and the jar is stored back. *)
Lemma process_request_computed self request w (key : HashKey) :
  truthy (dict_get "dont_merge_cookies" (VBool false) (meta request)) = false →
  jar_key request = Some key →
  let offered := _get_request_cookies (default new_jar (jars self !! key)) request in
  let jar :=
    fold_left (λ jar cookie, set_cookie_if_ok jar cookie request) offered.2 offered.1 in
  let stripped := set_headers (Headers.pop "Cookie" (headers request)) request in
  headers (request_after (process_request self request spider w).2)
    !! Headers.normkey "Cookie"
  = (λ v, [v]) <$> (cookie_header_for jar stripped).2
  ∧ jars (process_request self request spider w).1
    = <[key := (cookie_header_for jar stripped).1]> (jars self).
Proof.
  intros Hdont Hkey. unfold process_request. fold (jar_key request).
  rewrite Hdont, Hkey. unfold jars_getitem.
  destruct (jars self !! key) as [stored|] eqn:Hstored; simpl;
    destruct (_get_request_cookies _ request) as [jar1 cs]; simpl;
    unfold add_cookie_header;
    destruct (cookie_header_for _ _) as [jar2 [v|]]; simpl;
    unfold Headers.setlist, Headers.pop;
    rewrite ?lookup_insert_eq, ?lookup_delete_eq, ?insert_insert_eq; done.
Qed.
End cookies.

(** A cookie absorbed under cookiejar "A" is not sent under cookiejar "B". *)
Lemma cookie_jar_isolation_witness :
  let after_response :=
    (CookiesMiddleware.process_response (H := simple_jar) fresh_cookies
       request_jar_A response_jar_A plain_spider empty_world).1.1 in
  headers (request_after
             (CookiesMiddleware.process_request (H := simple_jar) after_response
                request_jar_B plain_spider empty_world).2) !! "Cookie" = None.
Proof.
  intros after_response.
  destruct (cookie_jar_isolation (H := simple_jar) plain_spider fresh_cookies
              request_jar_A response_jar_A empty_world (KStr "B")) as (_ & _ & Hsame).
  - discriminate.
  - destruct (Hsame request_jar_B empty_world empty_world eq_refl) as [_ Hresp].
    unfold after_response. rewrite Hresp. reflexivity.
Defined.

(** The same cookie is sent under cookiejar "A". *)
Example cookie_sent_under_its_own_jar :
  let after_response :=
    (CookiesMiddleware.process_response (H := simple_jar) fresh_cookies
       request_jar_A response_jar_A plain_spider empty_world).1.1 in
  headers (request_after
             (CookiesMiddleware.process_request (H := simple_jar) after_response
                request_jar_A plain_spider empty_world).2) !! "Cookie"
  = Some ["sid=abc; Path=/"].
Proof. reflexivity. Qed.

(** ** The original request *)

Section original_request.
Context `{UrlLib} `{RetryLib} `{CookieJarOps Jar Cookie} `{MetaRefreshLib Interval}.

Lemma process_response_request_after self request response spider w :
  request_after (RedirectMiddleware.process_response self request response spider w)
  = request
  ∨ request_after (RedirectMiddleware.process_response self request response spider w)
    = set_meta (redirect_seeded self (meta request)) request.
Proof.
  unfold RedirectMiddleware.process_response.
  repeat match goal with
         | |- context [match ?a with _ => _ end] =>
             lazymatch a with
             | context [RedirectMiddleware._redirect] => fail
             | _ => destruct a
             end
         end;
    simpl; rewrite ?_redirect_request_after; auto.
Qed.

(** The outcome of [_redirect] seen through [as_request] is never a
    response, and its request is the one [_redirect] left. *)
Lemma as_request_redirect self redirected request reason w :
  let o := RedirectMiddleware.as_request
             (RedirectMiddleware._redirect self redirected request reason w) in
  request_after o = set_meta (redirect_seeded self (meta request)) request
  ∧ ∀ response', returned o ≠ Return (inr response').
Proof.
  simpl. rewrite _redirect_request_after. split; [done|].
  intros response'. by destruct (returned _).
Qed.

(** [RedirectMiddleware.process_response] hands on a response and leaves the
    request alone, or goes through [_redirect]. *)
Lemma process_response_cases self request response spider w :
  let o := RedirectMiddleware.process_response self request response spider w in
  (request_after o = request ∧ ∀ r', returned o ≠ Return (inl r'))
  ∨ (request_after o = set_meta (redirect_seeded self (meta request)) request
     ∧ ∀ response', returned o ≠ Return (inr response')).
Proof.
  unfold RedirectMiddleware.process_response.
  repeat match goal with
         | |- context [match ?a with _ => _ end] =>
             lazymatch a with
             | context [RedirectMiddleware._redirect] => fail
             | _ => destruct a
             end
         end;
    first [ right; apply as_request_redirect | left; by split ].
Qed.

(** The same for [MetaRefreshMiddleware.process_response]. *)
Lemma meta_refresh_cases (self : MetaRefreshMiddleware.t) request response spider w :
  let o := MetaRefreshMiddleware.process_response self request response spider w in
  (request_after o = request ∧ ∀ r', returned o ≠ Return (inl r'))
  ∨ (request_after o
     = set_meta (redirect_seeded (MetaRefreshMiddleware.base self) (meta request)) request
     ∧ ∀ response', returned o ≠ Return (inr response')).
Proof.
  unfold MetaRefreshMiddleware.process_response.
  repeat match goal with
         | |- context [match ?a with _ => _ end] =>
             lazymatch a with
             | context [RedirectMiddleware._redirect] => fail
             | _ => destruct a
             end
         end;
    first [ right; apply as_request_redirect | left; by split ].
Qed.

(** What the two cases come to for the request. *)
Lemma redirect_cases_frame (self : RedirectMiddleware.t) (request : Request)
    (o : Outcome (Request + Response)) :
  (request_after o = request ∧ ∀ r', returned o ≠ Return (inl r'))
  ∨ (request_after o = set_meta (redirect_seeded self (meta request)) request
     ∧ ∀ response', returned o ≠ Return (inr response')) →
  same_attributes (request_after o) request
  ∧ (is_Some (meta request !! "redirect_ttl") → request_after o = request)
  ∧ (meta request !! "redirect_ttl" = None →
     request_after o = request
     ∨ meta (request_after o)
       = <["redirect_ttl" := VInt (RedirectMiddleware.max_redirect_times self)]>
           (meta request))
  ∧ (∀ k, k ≠ "redirect_ttl" → meta (request_after o) !! k = meta request !! k)
  ∧ (∀ response', returned o = Return (inr response') → request_after o = request)
  ∧ (∀ r', returned o = Return (inl r') →
       is_Some (meta (request_after o) !! "redirect_ttl")).
Proof.
  intros [[-> Hnot] | [-> Hnot]].
  - split; [by repeat split|]. split; [done|]. split; [by left|].
    split; [done|]. split; [done|]. intros r' Hr'. by destruct (Hnot r').
  - unfold redirect_seeded. simpl.
    destruct (meta request !! "redirect_ttl") as [v|] eqn:Hm; simpl.
    + assert (set_meta (meta request) request = request) as -> by by destruct request.
      split; [by repeat split|]. split; [done|]. split; [by left|].
      split; [done|]. split; [done|]. intros r' _. by rewrite Hm.
    + split; [by repeat split|]. split; [by intros [? ?]|]. split; [by right|].
      split; [intros k Hk; by rewrite lookup_insert_ne|].
      split; [intros response' Hr'; by destruct (Hnot response')|].
      intros r' _. by rewrite lookup_insert_eq.
Qed.

(** The new object of [heap_new] is none of the objects there were. *)
Lemma heap_new_fresh (h : Heap) : h !! fresh (dom h) = None.
Proof. apply not_elem_of_dom. apply is_fresh. Qed.

(** [_retry] on the heap: the objects there were are as they were, the one
    object made is the request returned, and it holds what [_retry] returns
    by value. *)
Lemma _retry_on_heap self (request : Ref) reason (h : Heap) w r :
  h !! request = Some r →
  ∃ h' res,
    RetryMiddlewareOnHeap._retry self request reason h w
    = Some (h', (RetryMiddleware._retry self r reason w).1, res)
    ∧ (∀ l r0, h !! l = Some r0 → h' !! l = Some r0)
    ∧ (∀ l, res ≠ Return (Some l) → h' !! l = h !! l)
    ∧ match res with
      | Return (Some retryreq) =>
          h !! retryreq = None
          ∧ ∃ r', h' !! retryreq = Some r'
                  ∧ (RetryMiddleware._retry self r reason w).2 = Return (Some r')
      | Return None => (RetryMiddleware._retry self r reason w).2 = Return None
      | Raise e => (RetryMiddleware._retry self r reason w).2 = Raise e
      end.
Proof.
  intros Hr. unfold RetryMiddlewareOnHeap._retry, RetryMiddleware._retry.
  rewrite Hr. simpl.
  destruct (py_add_int _ 1) as [retries|]; [|by eexists _, _].
  destruct (py_int_le retries _) as [[|]|]; [| by eexists _, _ | by eexists _, _].
  unfold heap_new, heap_set.
  pose proof (heap_new_fresh h) as Hfresh.
  unfold Heap, Ref in *.
  set (l := fresh (dom h)) in *.
  assert (l ≠ request) as Hne by (intros ->; congruence).
  rewrite !lookup_alter_ne, lookup_insert_ne, Hr by done. simpl.
  eexists _, _. split; [reflexivity|]. split; [|split; [|split; [done|]]].
  - intros l0 r0 Hl0. assert (l ≠ l0) by (intros ->; congruence).
    by rewrite !lookup_alter_ne, lookup_insert_ne.
  - intros l0 Hl0. assert (l ≠ l0) by (intros ->; done).
    by rewrite !lookup_alter_ne, lookup_insert_ne.
  - eexists. split; [|reflexivity].
    by rewrite !lookup_alter_eq, lookup_insert_eq.
Qed.

(** C7, amended: no operation of a middleware on a request changes the
    request it is given, with two exceptions.  [_redirect] stores
    redirect_ttl = max_redirect_times in the meta of the request when the
    key is not there, and changes nothing else of it; so do
    [RedirectMiddleware.process_response] and
    [MetaRefreshMiddleware.process_response] when they go through
    [_redirect], while a request whose response they hand on is as it was.
    [CookiesMiddleware.process_request] replaces the Cookie header of the
    request by the one the jar computes, and changes nothing else of it.  The
    retry hooks and [CookiesMiddleware.process_response], run on request
    objects, leave every object there was as it was: the new values
    (retry_times, dont_filter, the priority) are written to the one object
    [_retry] makes, the copy it returns. *)
Theorem original_request_frame :
  (∀ self redirected request reason w,
     let r := request_after (RedirectMiddleware._redirect self redirected request reason w) in
     same_attributes r request
     ∧ (is_Some (meta request !! "redirect_ttl") → meta r = meta request)
     ∧ (meta request !! "redirect_ttl" = None →
        meta r = <["redirect_ttl" := VInt (RedirectMiddleware.max_redirect_times self)]>
                   (meta request))
     ∧ ∀ k, k ≠ "redirect_ttl" → meta r !! k = meta request !! k)
  ∧ (∀ self request response spider w,
       let o := RedirectMiddleware.process_response self request response spider w in
       let r := request_after o in
       same_attributes r request
       ∧ (is_Some (meta request !! "redirect_ttl") → r = request)
       ∧ (meta request !! "redirect_ttl" = None →
          r = request
          ∨ meta r = <["redirect_ttl" := VInt (RedirectMiddleware.max_redirect_times self)]>
                       (meta request))
       ∧ (∀ k, k ≠ "redirect_ttl" → meta r !! k = meta request !! k)
       ∧ (∀ response', returned o = Return (inr response') → r = request)
       ∧ (∀ r', returned o = Return (inl r') → is_Some (meta r !! "redirect_ttl")))
  ∧ (∀ (self : MetaRefreshMiddleware.t) request response spider w,
       let o := MetaRefreshMiddleware.process_response self request response spider w in
       let r := request_after o in
       same_attributes r request
       ∧ (is_Some (meta request !! "redirect_ttl") → r = request)
       ∧ (meta request !! "redirect_ttl" = None →
          r = request
          ∨ meta r
            = <["redirect_ttl" :=
                  VInt (RedirectMiddleware.max_redirect_times
                          (MetaRefreshMiddleware.base self))]> (meta request))
       ∧ (∀ k, k ≠ "redirect_ttl" → meta r !! k = meta request !! k)
       ∧ (∀ response', returned o = Return (inr response') → r = request)
       ∧ (∀ r', returned o = Return (inl r') → is_Some (meta r !! "redirect_ttl")))
  ∧ (∀ (self : CookiesMiddleware.t Jar) request spider w,
       let r := request_after (CookiesMiddleware.process_request self request spider w).2 in
       meta r = meta request ∧ url r = url request ∧ method r = method request
       ∧ body r = body request ∧ cookies r = cookies request
       ∧ priority r = priority request ∧ dont_filter r = dont_filter request
       ∧ (∀ k, k ≠ Headers.normkey "Cookie" → headers r !! k = headers request !! k)
       ∧ (truthy (dict_get "dont_merge_cookies" (VBool false) (meta request)) = true
          ∨ jar_key request = None → r = request)
       ∧ ∀ key,
           truthy (dict_get "dont_merge_cookies" (VBool false) (meta request)) = false →
           jar_key request = Some key →
           let offered :=
             CookiesMiddleware._get_request_cookies
               (default new_jar (CookiesMiddleware.jars self !! key)) request in
           let jar :=
             fold_left (λ jar cookie, set_cookie_if_ok jar cookie request)
               offered.2 offered.1 in
           let stripped := set_headers (Headers.pop "Cookie" (headers request)) request in
           headers r !! Headers.normkey "Cookie"
           = (λ v, [v]) <$> (cookie_header_for jar stripped).2)
  ∧ (∀ self (request : Ref) reason (h : Heap) w r,
       h !! request = Some r →
       ∃ h' res,
         RetryMiddlewareOnHeap._retry self request reason h w
         = Some (h', (RetryMiddleware._retry self r reason w).1, res)
         ∧ (∀ l r0, h !! l = Some r0 → h' !! l = Some r0)
         ∧ (∀ l, res ≠ Return (Some l) → h' !! l = h !! l)
         ∧ match res with
           | Return (Some retryreq) =>
               h !! retryreq = None
               ∧ ∃ r', h' !! retryreq = Some r'
                       ∧ (RetryMiddleware._retry self r reason w).2 = Return (Some r')
           | Return None => (RetryMiddleware._retry self r reason w).2 = Return None
           | Raise e => (RetryMiddleware._retry self r reason w).2 = Raise e
           end)
  ∧ (∀ self (request : Ref) response spider (h : Heap) w r,
       h !! request = Some r →
       ∃ h' res,
         RetryMiddlewareOnHeap.process_response self request response spider h w
         = Some (h', (RetryMiddleware.process_response self r response spider w).1, res)
         ∧ (∀ l r0, h !! l = Some r0 → h' !! l = Some r0)
         ∧ (∀ l, res ≠ Return (inl l) → h' !! l = h !! l)
         ∧ match res with
           | Return (inl retryreq) =>
               h !! retryreq = None
               ∧ ∃ r', h' !! retryreq = Some r'
                       ∧ (RetryMiddleware.process_response self r response spider w).2
                         = Return (inl r')
           | Return (inr response') =>
               (RetryMiddleware.process_response self r response spider w).2
               = Return (inr response')
           | Raise e =>
               (RetryMiddleware.process_response self r response spider w).2 = Raise e
           end)
  ∧ (∀ self (request : Ref) exception spider (h : Heap) w r,
       h !! request = Some r →
       ∃ h' res,
         RetryMiddlewareOnHeap.process_exception self request exception spider h w
         = Some (h', (RetryMiddleware.process_exception self r exception spider w).1, res)
         ∧ (∀ l r0, h !! l = Some r0 → h' !! l = Some r0)
         ∧ (∀ l, res ≠ Return (Some l) → h' !! l = h !! l)
         ∧ match res with
           | Return (Some retryreq) =>
               h !! retryreq = None
               ∧ ∃ r', h' !! retryreq = Some r'
                       ∧ (RetryMiddleware.process_exception self r exception spider w).2
                         = Return (Some r')
           | Return None =>
               (RetryMiddleware.process_exception self r exception spider w).2
               = Return None
           | Raise e =>
               (RetryMiddleware.process_exception self r exception spider w).2 = Raise e
           end)
  ∧ (∀ (self : CookiesMiddleware.t Jar) (request : Ref) response spider (h : Heap) w r,
       h !! request = Some r →
       CookiesMiddlewareOnHeap.process_response self request response spider h w
       = Some (h, (CookiesMiddleware.process_response self r response spider w).1.1,
               (CookiesMiddleware.process_response self r response spider w).1.2,
               (CookiesMiddleware.process_response self r response spider w).2)).
Proof.
  assert (Hseed : ∀ self (m : gmap string PyValue),
            (is_Some (m !! "redirect_ttl") → redirect_seeded self m = m)
            ∧ (m !! "redirect_ttl" = None →
               redirect_seeded self m
               = <["redirect_ttl" := VInt (RedirectMiddleware.max_redirect_times self)]> m)
            ∧ ∀ k, k ≠ "redirect_ttl" → redirect_seeded self m !! k = m !! k).
  { intros self m. unfold redirect_seeded.
    destruct (m !! "redirect_ttl") as [v|] eqn:Hm.
    - split; [done|]. split; [done|]. done.
    - split; [by intros [? ?]|]. split; [done|]. intros k Hk. by rewrite lookup_insert_ne. }
  split; [|split; [|split; [|split; [|split; [|split; [|split]]]]]].
  - intros self redirected request reason w r. unfold r.
    rewrite _redirect_request_after. simpl.
    destruct (Hseed self (meta request)) as (Hsome & Hnone & Hother).
    split; [by repeat split|]. by repeat split.
  - intros self request response spider w o r.
    apply (redirect_cases_frame self request o), process_response_cases.
  - intros self request response spider w o r.
    apply (redirect_cases_frame (MetaRefreshMiddleware.base self) request o),
      meta_refresh_cases.
  - intros self request spider w r.
    destruct (process_request_frame spider self request w)
      as (Hm & Hu & Hme & Hb & Hc & Hp & Hd & Hh).
    do 8 (split; [assumption|]). split.
    + intros Hskip. unfold r. by apply process_request_untouched.
    + intros key Hdont Hkey. apply (process_request_computed spider self request w key Hdont Hkey).
  - intros self request reason h w r Hr. by apply _retry_on_heap.
  - intros self request response spider h w r Hr.
    unfold RetryMiddlewareOnHeap.process_response, RetryMiddleware.process_response.
    rewrite Hr. simpl.
    destruct (truthy _); [by eexists _, _|].
    destruct (bool_decide _); [|by eexists _, _].
    destruct (_retry_on_heap self request (ReasonStr (response_status_message (status response)))
                h w r Hr) as (h' & res & -> & Hold & Hnew & Hres).
    simpl. destruct (RetryMiddleware._retry self r _ w) as [w' v]. simpl in *.
    destruct res as [[retryreq|]|e]; simpl.
    + destruct Hres as (Hfresh & r' & Hr' & ->).
      eexists _, _. split; [reflexivity|]. split; [done|].
      split; [intros l Hl; apply Hnew; congruence|]. split; [done|]. by exists r'.
    + subst v. eexists _, _. split; [reflexivity|]. split; [done|].
      split; [intros l Hl; by apply Hnew|]. done.
    + subst v. eexists _, _. split; [reflexivity|]. split; [done|].
      split; [intros l Hl; by apply Hnew|]. done.
  - intros self request exception spider h w r Hr.
    unfold RetryMiddlewareOnHeap.process_exception, RetryMiddleware.process_exception.
    rewrite Hr. simpl.
    destruct (_ && _); [by apply _retry_on_heap|]. by eexists _, _.
  - intros self request response spider h w r Hr.
    unfold CookiesMiddlewareOnHeap.process_response, CookiesMiddleware.process_response.
    rewrite Hr. simpl.
    destruct (truthy _); [done|].
    destruct (hash_key _) as [key|]; [|done].
    by destruct (CookiesMiddleware.jars_getitem key _) as [jar js].
Qed.
End original_request.

(** C7 as stated fails: the first redirect of a request writes redirect_ttl
    into the meta of that request, and a request that comes with a Cookie
    header to an empty jar leaves the cookies middleware without it. *)
Lemma original_request_frame_counterexample :
  meta (request_after
          (RedirectMiddleware._redirect default_redirect
             (make_request "http://example.com/new" "GET" "" 0 ∅)
             (make_request "http://example.com/old" "GET" "" 0 ∅)
             (VInt 301) empty_world))
  ≠ meta (make_request "http://example.com/old" "GET" "" 0 ∅)
  ∧ headers (request_after
               (CookiesMiddleware.process_request (H := simple_jar) fresh_cookies
                  request_own_cookie plain_spider empty_world).2)
    ≠ headers request_own_cookie.
Proof.
  split.
  - intros Heq. apply (f_equal (λ m : gmap string PyValue, m !! "redirect_ttl")) in Heq.
    vm_compute in Heq. discriminate Heq.
  - intros Heq. apply (f_equal (λ m : gmap string (list string), m !! "Cookie")) in Heq.
    vm_compute in Heq. discriminate Heq.
Qed.

(** The first redirect of a request leaves redirect_ttl = 20, and nothing
    else, in the meta of that request; its first retry is a new object and
    the request is as it was. *)
Lemma original_request_frame_witness :
  meta (request_after
          (RedirectMiddleware._redirect default_redirect
             (make_request "http://example.com/new" "GET" "" 0 ∅)
             (make_request "http://example.com/old" "GET" "" 0 ∅)
             (VInt 301) empty_world))
  = {["redirect_ttl" := VInt 20]}
  ∧ ∃ h' retryreq,
      RetryMiddlewareOnHeap._retry (H := sample_retry_lib) default_retry 1%positive
        (ReasonExc timeout_error) two_requests empty_world
      = Some (h',
              (RetryMiddleware._retry (H := sample_retry_lib) default_retry slow_request
                 (ReasonExc timeout_error) empty_world).1,
              Return (Some retryreq))
      ∧ h' !! 1%positive = Some slow_request
      ∧ h' !! 2%positive = Some request_jar_A
      ∧ two_requests !! retryreq = None
      ∧ h' !! retryreq = Some slow_retry_1.
Proof.
  destruct (@original_request_frame absolute_urls sample_retry_lib _ _ simple_jar
              _ body_is_target)
    as (Hredirect & _ & _ & _ & Hretry & _).
  split.
  - destruct (Hredirect default_redirect
                (make_request "http://example.com/new" "GET" "" 0 ∅)
                (make_request "http://example.com/old" "GET" "" 0 ∅)
                (VInt 301) empty_world) as (_ & _ & Habsent & _).
    apply Habsent. reflexivity.
  - destruct (Hretry default_retry 1%positive (ReasonExc timeout_error) two_requests
                empty_world slow_request eq_refl)
      as (h' & res & Hrun & Hold & _ & Hres).
    destruct res as [[retryreq|]|e]; [|discriminate Hres|discriminate Hres].
    destruct Hres as (Hfresh & r' & Hr' & Hvalue).
    exists h', retryreq. split; [exact Hrun|].
    split; [by apply Hold|]. split; [by apply Hold|]. split; [exact Hfresh|].
    rewrite Hr'. f_equal. vm_compute in Hvalue. by injection Hvalue.
Defined.

(** ** Scenarios *)

(** A 301 for a request of priority 0 is followed with the method kept,
    priority 2 and redirect_times 1. *)
Example scenario_301 :
  let request := make_request "http://example.com/old" "HEAD" "" 0 ∅ in
  let response := make_response request 301 {["Location" := ["http://example.com/new"]]} in
  ∃ r, returned (RedirectMiddleware.process_response (H := absolute_urls)
                   default_redirect request response plain_spider empty_world)
       = Return (inl r)
     ∧ url r = "http://example.com/new" ∧ method r = "HEAD" ∧ priority r = 2
     ∧ meta r !! "redirect_times" = Some (VInt 1).
Proof. eexists. split; [vm_compute; reflexivity|]. by repeat split. Qed.

(** A request already redirected REDIRECT_MAX_TIMES = 20 times is not
    redirected again. *)
Example scenario_max_redirections :
  let request :=
    make_request "http://example.com/loop" "GET" "" 0 {["redirect_times" := VInt 20]} in
  let response := make_response request 301 {["Location" := ["http://example.com/loop"]]} in
  returned (RedirectMiddleware.process_response (H := absolute_urls)
              default_redirect request response plain_spider empty_world)
  = Raise (IgnoreRequest "max redirections reached").
Proof. vm_compute. reflexivity. Qed.

(** A redirect_ttl of 0 ends the chain below the configured maximum. *)
Example scenario_ttl_exhausted :
  returned (RedirectMiddleware._redirect default_redirect
              (make_request "http://example.com/b" "GET" "" 0 ∅)
              (make_request "http://example.com/a" "GET" "" 0
                 {["redirect_ttl" := VInt 0; "redirect_times" := VInt 3]})
              (VStr "meta refresh") empty_world)
  = Raise (IgnoreRequest "max redirections reached").
Proof. vm_compute. reflexivity. Qed.

(** A response with status 404 and no allow-list is filtered. *)
Example scenario_not_found :
  HttpErrorMiddleware.process_spider_input default_httperror not_found plain_spider
  = Raise (HttpError not_found "Ignoring non-200 response").
Proof. reflexivity. Qed.

(** A 429 past the budget raises retry/max_reached. *)
Example scenario_429 :
  stats (RetryMiddleware.process_response (H := sample_retry_lib) default_retry
           retried_twice too_many_requests plain_spider empty_world).1
    !! "retry/max_reached" = Some 1.
Proof. reflexivity. Qed.

(** HTTPERROR_ALLOW_ALL lets a 500 through when the meta says nothing. *)
Example scenario_allow_all :
  HttpErrorMiddleware.process_spider_input allow_all_httperror server_error plain_spider
  = Return ().
Proof. reflexivity. Qed.

(** A status of 250 lies in [200, 300) and passes. *)
Example scenario_status_250 :
  HttpErrorMiddleware.process_spider_input default_httperror
    (make_response (make_request "http://example.com/" "GET" "" 0 ∅) 250 ∅)
    plain_spider
  = Return ().
Proof. reflexivity. Qed.

(** * Further properties *)

(** ** The redirect core, read backwards *)

Section redirect_inversion.
Import RedirectMiddleware.
Variables (self : RedirectMiddleware.t).

(** A request comes out of [_redirect] only when the budget allowed it, and
    then its meta is that of the candidate with the four keys stamped. *)
Lemma _redirect_Return_inv redirected request reason w r :
  returned (_redirect self redirected request reason w) = Return r →
  ∃ (ttl times : Z) (urls reasons : list PyValue),
    as_int (dict_get "redirect_ttl" (VInt (max_redirect_times self)) (meta request))
      = Some ttl
    ∧ as_int (dict_get "redirect_times" (VInt 0) (meta request)) = Some times
    ∧ dict_get "redirect_urls" (VList []) (meta request) = VList urls
    ∧ dict_get "redirect_reasons" (VList []) (meta request) = VList reasons
    ∧ ttl ≠ 0 ∧ times + 1 ≤ max_redirect_times self
    ∧ meta r = <["redirect_reasons" := VList (reasons ++ [reason])]>
                 (<["redirect_urls" := VList (urls ++ [VStr (url request)])]>
                    (<["redirect_ttl" := VInt (ttl - 1)]>
                       (<["redirect_times" := VInt (times + 1)]> (meta redirected))))
    ∧ priority r = priority request + priority_adjust self.
Proof.
  destruct (as_int (dict_get "redirect_times" (VInt 0) (meta request)))
    as [times|] eqn:Htimes.
  - rewrite (_redirect_returned _ _ _ _ _ _ times eq_refl Htimes).
    destruct (truthy _ && _) eqn:Hcond; [|done].
    apply andb_true_iff in Hcond as [Httl Hle]. apply Z.leb_le in Hle.
    destruct (as_int (dict_get "redirect_ttl" (VInt (max_redirect_times self))
                        (meta request))) as [ttl|] eqn:Ettl.
    + rewrite (truthy_as_int _ _ Ettl) in Httl. apply negb_true_iff, Z.eqb_neq in Httl.
      unfold py_sub_int. rewrite Ettl. simpl.
      destruct (dict_get "redirect_urls" _ _) as [| | | |urls] eqn:Eurls; try done.
      destruct (dict_get "redirect_reasons" _ _) as [| | | |reasons] eqn:Ereasons;
        try done.
      simpl. intros [= <-]. exists ttl, times, urls, reasons. by repeat split.
    + unfold py_sub_int. by rewrite Ettl.
  - unfold _redirect. destruct (dict_setdefault _ _ _) as [ttl0 m] eqn:Hsd.
    assert (dict_get "redirect_times" (VInt 0) (meta (set_meta m request))
            = dict_get "redirect_times" (VInt 0) (meta request)) as ->.
    { unfold dict_get. simpl.
      pose proof (dict_setdefault_snd_ne "redirect_ttl" "redirect_times"
                    (VInt (max_redirect_times self)) (meta request)) as Hs.
      rewrite Hsd in Hs. simpl in Hs. by rewrite Hs. }
    unfold py_add_int. by rewrite Htimes.
Qed.
End redirect_inversion.

(** ** Successive redirects *)

Section redirect_hops.
Import RedirectMiddleware.
Variables (self : RedirectMiddleware.t).

(** Proves that a literal key is one of [redirect_keys]. *)
Ltac redirect_key := unfold redirect_keys; rewrite !elem_of_cons; auto 10.

Lemma same_redirect_state_get (r request : Request) (k : string) (d : PyValue) :
  same_redirect_state r request → k ∈ redirect_keys →
  dict_get k d (meta r) = dict_get k d (meta request).
Proof. intros [_ Hk] Hin. unfold dict_get. by rewrite (Hk k Hin). Qed.

(** X1: after [n] successive redirects that start from a request with
    redirect_ttl [ttl0] (max_redirect_times when absent) and redirect_times
    [times0] (0 when absent), the request in hand has redirect_ttl
    [ttl0 - n] and redirect_times [times0 + n]; [n] is at most
    [max_redirect_times - times0], and at most [ttl0] when [ttl0] is not
    negative.  So every chain of redirects ends, and a redirect_ttl in the
    meta can shorten it but not extend it. *)
Theorem redirect_hops_bounded (n : nat) (r0 r : Request) (ttl0 times0 : Z) :
  as_int (dict_get "redirect_ttl" (VInt (max_redirect_times self)) (meta r0))
    = Some ttl0 →
  as_int (dict_get "redirect_times" (VInt 0) (meta r0)) = Some times0 →
  redirect_hops self n r0 r →
  as_int (dict_get "redirect_ttl" (VInt (max_redirect_times self)) (meta r))
    = Some (ttl0 - Z.of_nat n)
  ∧ as_int (dict_get "redirect_times" (VInt 0) (meta r)) = Some (times0 + Z.of_nat n)
  ∧ ((0 < n)%nat → times0 + Z.of_nat n ≤ max_redirect_times self)
  ∧ (0 ≤ ttl0 → Z.of_nat n ≤ ttl0).
Proof.
  intros Httl Htimes Hhops. revert Httl Htimes.
  induction Hhops as [r | n r0 r r' redirected request reason w _ IH Hstate Hret];
    intros Httl Htimes.
  - rewrite Httl, Htimes.
    repeat split; [f_equal; lia | f_equal; lia | lia | lia].
  - destruct (IH Httl Htimes) as (Ittl & Itimes & _ & Ile).
    rewrite (same_redirect_state_get r request "redirect_ttl" _ Hstate) in Ittl
      by redirect_key.
    rewrite (same_redirect_state_get r request "redirect_times" _ Hstate) in Itimes
      by redirect_key.
    apply _redirect_Return_inv in Hret
      as (ttl & times & urls & reasons & Ettl & Etimes & _ & _ & Hnz & Hle & Hmeta & _).
    rewrite Ettl in Ittl. rewrite Etimes in Itimes.
    injection Ittl as ->. injection Itimes as ->.
    unfold dict_get. rewrite Hmeta. simplify_map_eq.
    repeat split; [f_equal; lia | f_equal; lia | lia | lia].
Qed.

(** X2: when the first request of a chain has neither redirect_urls nor
    redirect_reasons in its meta, the request in hand after [n] successive
    redirects holds [n] urls and [n] reasons, the first url being the url of
    the first request. *)
Theorem redirect_hops_history (n : nat) (r0 r : Request) :
  meta r0 !! "redirect_urls" = None →
  meta r0 !! "redirect_reasons" = None →
  redirect_hops self n r0 r →
  ∃ urls reasons : list PyValue,
    dict_get "redirect_urls" (VList []) (meta r) = VList urls
    ∧ dict_get "redirect_reasons" (VList []) (meta r) = VList reasons
    ∧ length urls = n ∧ length reasons = n
    ∧ ((0 < n)%nat → urls !! 0%nat = Some (VStr (url r0)))
    ∧ (n = 0%nat → r = r0).
Proof.
  intros Hurls Hreasons Hhops. revert Hurls Hreasons.
  induction Hhops as [r | n r0 r r' redirected request reason w _ IH Hstate Hret];
    intros Hurls Hreasons.
  - exists [], []. unfold dict_get. rewrite Hurls, Hreasons.
    repeat split; first [done | lia].
  - destruct (IH Hurls Hreasons) as (us & rs & Iurls & Ireasons & Ilu & Ilr & Ihead & Izero).
    rewrite (same_redirect_state_get r request "redirect_urls" _ Hstate) in Iurls
      by redirect_key.
    rewrite (same_redirect_state_get r request "redirect_reasons" _ Hstate) in Ireasons
      by redirect_key.
    apply _redirect_Return_inv in Hret
      as (ttl & times & urls & reasons & _ & _ & Eurls & Ereasons & _ & _ & Hmeta & _).
    rewrite Eurls in Iurls. rewrite Ereasons in Ireasons.
    injection Iurls as ->. injection Ireasons as ->.
    exists (us ++ [VStr (url request)])%list, (rs ++ [reason])%list.
    unfold dict_get. rewrite Hmeta. simplify_map_eq.
    rewrite !length_app. simpl.
    repeat split; [lia | lia | | lia].
    intros _. destruct us as [|u us'].
    + simpl. destruct Hstate as [<- _]. by rewrite (Izero eq_refl).
    + simpl. apply Ihead. simpl. lia.
Qed.
End redirect_hops.

Lemma two_redirect_hops : redirect_hops default_redirect 2 hop_a hop_c.
Proof.
  apply (redirect_hops_next _ 1 hop_a hop_b hop_c
           (make_request "http://example.com/c" "GET" "" 2 (meta hop_b))
           hop_b (VInt 302) empty_world).
  - apply (redirect_hops_next _ 0 hop_a hop_a hop_b
             (make_request "http://example.com/b" "GET" "" 0 ∅)
             hop_a (VInt 301) empty_world).
    + apply redirect_hops_zero.
    + by split.
    + vm_compute. reflexivity.
  - by split.
  - vm_compute. reflexivity.
Qed.

(** Two redirects of a fresh request under the default settings leave a
    redirect_ttl of 18 and a redirect_times of 2. *)
Lemma redirect_hops_bounded_witness :
  as_int (dict_get "redirect_ttl" (VInt 20) (meta hop_c)) = Some (20 - 2)
  ∧ as_int (dict_get "redirect_times" (VInt 0) (meta hop_c)) = Some (0 + 2).
Proof.
  destruct (redirect_hops_bounded default_redirect 2 hop_a hop_c 20 0)
    as (Httl & Htimes & _);
    [reflexivity | reflexivity | exact two_redirect_hops |].
  split; [exact Httl | exact Htimes].
Defined.

(** After two redirects the history holds two urls, the first one that of
    the first request. *)
Lemma redirect_hops_history_witness :
  ∃ urls reasons : list PyValue,
    dict_get "redirect_urls" (VList []) (meta hop_c) = VList urls
    ∧ dict_get "redirect_reasons" (VList []) (meta hop_c) = VList reasons
    ∧ length urls = 2%nat ∧ length reasons = 2%nat
    ∧ urls !! 0%nat = Some (VStr (url hop_a)).
Proof.
  destruct (redirect_hops_history default_redirect 2 hop_a hop_c)
    as (urls & reasons & Hu & Hr & Hlu & Hlr & Hhead & _);
    [reflexivity | reflexivity | exact two_redirect_hops |].
  exists urls, reasons. repeat split; try assumption. apply Hhead. lia.
Defined.

(** ** Responses the redirect middleware leaves alone *)

Section redirect_pass_through.
Import RedirectMiddleware.
Context `{UrlLib}.
Variables (self : RedirectMiddleware.t) (request : Request) (response : Response)
          (spider : Spider) (w : World).

(** X3: [RedirectMiddleware.process_response] hands back the response it was
    given, with the request and the collaborators untouched, when meta
    dont_redirect is set, when the status is in the spider's or in the meta's
    handle_httpstatus_list, when meta handle_httpstatus_all is set, when the
    response has no Location header, and when the status is none of 301,
    302, 303, 307, 308. *)
Theorem http_redirect_pass_through :
  let dont := truthy (dict_get "dont_redirect" (VBool false) (meta request)) in
  let in_spider :=
    py_int_in (status response)
      (default (VList []) (spider_handle_httpstatus_list spider)) in
  let in_meta :=
    py_int_in (status response)
      (dict_get "handle_httpstatus_list" (VList []) (meta request)) in
  let all := truthy (dict_get "handle_httpstatus_all" (VBool false) (meta request)) in
  dont = true
  ∨ (dont = false ∧ in_spider = Some true)
  ∨ (dont = false ∧ in_spider = Some false ∧ in_meta = Some true)
  ∨ (dont = false ∧ in_spider = Some false ∧ in_meta = Some false ∧ all = true)
  ∨ (redirect_enabled request response spider
     ∧ (Headers.contains "Location" (response_headers response) = false
        ∨ status response ∉ allowed_status)) →
  process_response self request response spider w
  = {| request_after := request; world_after := w; returned := Return (inr response) |}.
Proof.
  intros dont in_spider in_meta all Hcase. unfold process_response.
  fold dont in_spider in_meta all.
  destruct Hcase as [-> | [[-> ->] | [(-> & -> & ->) | [(-> & -> & -> & ->) | [Hen Hno]]]]];
    try done.
  destruct Hen as (Hd & Hs & Hm & Ha).
  fold dont in Hd. fold in_spider in Hs. fold in_meta in Hm. fold all in Ha.
  rewrite Hd, Hs. simpl. rewrite Hm. simpl. rewrite Ha.
  destruct Hno as [-> | Hstatus]; [done|].
  rewrite (bool_decide_eq_false_2 _ Hstatus). by rewrite orb_true_r.
Qed.

(** X4: [RedirectMiddleware.process_response] never touches the stats and
    logs at most one line, a DEBUG one; when it returns a request, it has
    logged that line. *)
Theorem http_redirect_effects :
  let o := process_response self request response spider w in
  stats (world_after o) = stats w
  ∧ (log (world_after o) = log w
     ∨ ∃ line, log (world_after o) = (log w ++ [line])%list ∧ log_level line = DEBUG)
  ∧ ∀ r, returned o = Return (inl r) →
         ∃ line, log (world_after o) = (log w ++ [line])%list ∧ log_level line = DEBUG.
Proof.
  assert (Hcore : ∀ redirected reason,
            let o := as_request (_redirect self redirected request reason w) in
            stats (world_after o) = stats w
            ∧ (log (world_after o) = log w
               ∨ ∃ line, log (world_after o) = (log w ++ [line])%list
                         ∧ log_level line = DEBUG)
            ∧ ∀ r, returned o = Return (inl r) →
                   ∃ line, log (world_after o) = (log w ++ [line])%list
                           ∧ log_level line = DEBUG).
  { intros redirected reason. unfold _redirect, as_request.
    destruct (dict_setdefault _ _ _) as [ttl m].
    match goal with |- context [match ?a with _ => _ end] => destruct a as [[?|]|] end;
      simpl; (split; [done|]); split; eauto; done. }
  unfold process_response.
  repeat match goal with
         | |- context [match ?a with _ => _ end] =>
             lazymatch a with
             | context [_redirect] => fail
             | _ => destruct a
             end
         end;
    try apply Hcore; simpl; (split; [done|]); split; auto; done.
Qed.
End redirect_pass_through.

(** The redirect of a form submission is logged. *)
Lemma http_redirect_effects_witness :
  ∃ line,
    log (world_after
           (RedirectMiddleware.process_response (H := absolute_urls) default_redirect
              form_post form_post_302 plain_spider empty_world))
    = [line] ∧ log_level line = DEBUG.
Proof.
  destruct (http_redirect_effects (H := absolute_urls) default_redirect form_post
              form_post_302 plain_spider empty_world) as (_ & _ & Hlogged).
  apply (Hlogged form_post_redirected). vm_compute. reflexivity.
Defined.

(** A 404 is not a redirect: the response comes back as it is. *)
Lemma http_redirect_pass_through_witness :
  RedirectMiddleware.process_response (H := absolute_urls) default_redirect
    (make_request "http://example.com/" "GET" "" 0 ∅) not_found plain_spider empty_world
  = {| request_after := make_request "http://example.com/" "GET" "" 0 ∅;
       world_after := empty_world; returned := Return (inr not_found) |}.
Proof.
  apply (http_redirect_pass_through (H := absolute_urls)).
  right. right. right. right. split.
  - unfold redirect_enabled. repeat split; reflexivity.
  - left. reflexivity.
Defined.

(** ** Successive retries *)

Section retry_hops.
Import RetryMiddleware.
Context `{RetryLib}.
Variables (self : RetryMiddleware.t).

(** X5: after [n] successive retries that start from a request with
    retry_times [times0] (0 when absent) and budget [budget] (meta
    max_retry_times, RETRY_TIMES when absent), the request in hand is the
    first one with retry_times [times0 + n] in its meta and its priority
    moved [n] times by priority_adjust; when [n] is not 0 it has dont_filter
    set and [times0 + n <= budget].  So a request is retried at most
    [budget - times0] times. *)
Theorem retry_hops_bounded (n : nat) (r0 r : Request) (times0 budget : Z) :
  as_int (dict_get "retry_times" (VInt 0) (meta r0)) = Some times0 →
  as_int (dict_get "max_retry_times" (VInt (max_retry_times self)) (meta r0))
    = Some budget →
  retry_hops self n r0 r →
  meta r = match n with
           | O => meta r0
           | S _ => <["retry_times" := VInt (times0 + Z.of_nat n)]> (meta r0)
           end
  ∧ priority r = priority r0 + Z.of_nat n * priority_adjust self
  ∧ url r = url r0 ∧ method r = method r0 ∧ headers r = headers r0
  ∧ body r = body r0 ∧ cookies r = cookies r0
  ∧ ((0 < n)%nat → times0 + Z.of_nat n ≤ budget ∧ dont_filter r = true).
Proof.
  intros Htimes Hbudget Hhops. revert Htimes Hbudget.
  induction Hhops as [r | n r0 r r' reason w _ IH Hret]; intros Htimes Hbudget.
  - repeat split; first [done | lia].
  - destruct (IH Htimes Hbudget) as (Imeta & Iprio & Iurl & Imethod & Iheaders & Ibody
                                     & Icookies & _).
    assert (as_int (dict_get "retry_times" (VInt 0) (meta r))
            = Some (times0 + Z.of_nat n)) as Etimes.
    { rewrite Imeta. destruct n.
      - rewrite Htimes. f_equal. lia.
      - unfold dict_get. by rewrite lookup_insert_eq. }
    assert (as_int (dict_get "max_retry_times" (VInt (max_retry_times self)) (meta r))
            = Some budget) as Ebudget.
    { rewrite Imeta. destruct n; [done|]. by rewrite dict_get_insert_ne. }
    rewrite (_retry_unfold _ _ _ _ _ _ Etimes Ebudget) in Hret.
    destruct (times0 + Z.of_nat n + 1 <=? budget) eqn:Hle; [|done].
    apply Z.leb_le in Hle. simpl in Hret. injection Hret as <-. simpl.
    rewrite Iprio, Iurl, Imethod, Iheaders, Ibody, Icookies.
    split.
    { rewrite Imeta. destruct n.
      - f_equal. f_equal. lia.
      - rewrite insert_insert_eq. f_equal. f_equal. lia. }
    repeat split; first [done | lia].
Qed.
End retry_hops.

Lemma two_retry_hops :
  retry_hops (H := sample_retry_lib) default_retry 2 slow_request slow_retry_2.
Proof.
  apply (retry_hops_next (H := sample_retry_lib) _ 1 slow_request slow_retry_1 slow_retry_2
           (ReasonExc timeout_error) empty_world).
  - apply (retry_hops_next (H := sample_retry_lib) _ 0 slow_request slow_request
             slow_retry_1 (ReasonExc timeout_error) empty_world).
    + apply retry_hops_zero.
    + vm_compute. reflexivity.
  - vm_compute. reflexivity.
Qed.

(** Two timeouts under RETRY_TIMES = 2: the second retry has priority -2
    and exhausts the budget. *)
Lemma retry_hops_bounded_witness :
  priority slow_retry_2 = 0 + 2 * -1 ∧ 0 + 2 ≤ 2.
Proof.
  destruct (retry_hops_bounded (H := sample_retry_lib) default_retry 2
              slow_request slow_retry_2 0 2)
    as (_ & Hprio & _ & _ & _ & _ & _ & Hle);
    [reflexivity | reflexivity | exact two_retry_hops |].
  split; [exact Hprio | apply Hle; lia].
Defined.

(** ** Redirects and retries of one request *)

Section budgets_apart.
Context `{UrlLib} `{RetryLib}.

(** X6: the request [_retry] returns carries every meta key of the request
    it retries except retry_times: the redirect budget and history and the
    cookie jar selection are those of the request retried. *)
Theorem retry_keeps_redirect_state (self : RetryMiddleware.t) request reason w r :
  (RetryMiddleware._retry self request reason w).2 = Return (Some r) →
  (∀ k, k ≠ "retry_times" → meta r !! k = meta request !! k)
  ∧ same_redirect_state request r
  ∧ jar_key r = jar_key request.
Proof.
  intros Hret.
  destruct (_retry_Some _ _ _ _ _ Hret) as (times & budget & Htimes & Hbudget & _).
  rewrite (_retry_unfold _ _ _ _ _ _ Htimes Hbudget) in Hret.
  destruct (times + 1 <=? budget); [|done]. simpl in Hret. injection Hret as <-.
  assert (Hother : ∀ k, k ≠ "retry_times" →
            <["retry_times" := VInt (times + 1)]> (meta request) !! k = meta request !! k).
  { intros k Hk. by rewrite lookup_insert_ne. }
  split; [exact Hother|]. split.
  - split; [done|]. intros k Hk. simpl. rewrite Hother; [done|].
    intros ->. unfold redirect_keys in Hk. refute_elem_of Hk.
  - unfold jar_key, dict_get. simpl. by rewrite Hother.
Qed.

Lemma not_redirect_key (k : string) :
  k ≠ "redirect_times" → k ≠ "redirect_ttl" → k ≠ "redirect_urls" →
  k ≠ "redirect_reasons" → k ∉ redirect_keys.
Proof.
  intros H1 H2 H3 H4 Hin. unfold redirect_keys in Hin.
  repeat (apply elem_of_cons in Hin as [Hin|Hin]; [done|]).
  by apply elem_of_nil in Hin.
Qed.

(** X7: the request [RedirectMiddleware.process_response] returns carries
    every meta key of the request it redirects except the four redirect
    keys: the retry count, the retry budget and the cookie jar selection
    are those of the request redirected. *)
Theorem redirect_keeps_retry_state (self : RedirectMiddleware.t)
    request response spider w r :
  returned (RedirectMiddleware.process_response self request response spider w)
    = Return (inl r) →
  (∀ k, k ∉ redirect_keys → meta r !! k = meta request !! k)
  ∧ dict_get "retry_times" (VInt 0) (meta r) = dict_get "retry_times" (VInt 0) (meta request)
  ∧ meta r !! "max_retry_times" = meta request !! "max_retry_times"
  ∧ jar_key r = jar_key request.
Proof.
  intros Hret.
  assert (Hkeep : ∀ k, k ∉ redirect_keys → meta r !! k = meta request !! k).
  { assert (Hcore : ∀ redirected reason,
              meta redirected = meta request →
              returned (RedirectMiddleware.as_request
                          (RedirectMiddleware._redirect self redirected request reason w))
                = Return (inl r) →
              ∀ k, k ∉ redirect_keys → meta r !! k = meta request !! k).
    { intros redirected reason Hmeta Hr k Hk.
      apply returned_as_request, _redirect_Return_inv in Hr
        as (ttl & times & urls & reasons & _ & _ & _ & _ & _ & _ & -> & _).
      rewrite Hmeta. unfold redirect_keys in Hk.
      repeat (apply not_elem_of_cons in Hk as [? Hk]).
      by rewrite !lookup_insert_ne. }
    revert Hret. unfold RedirectMiddleware.process_response.
    repeat match goal with
           | |- context [match ?a with _ => _ end] =>
               lazymatch a with
               | context [RedirectMiddleware._redirect] => fail
               | _ => destruct a
               end
           end; simpl; try done; by apply Hcore. }
  split; [exact Hkeep|]. split; [|split].
  - unfold dict_get. rewrite Hkeep; [done|]. by apply not_redirect_key.
  - apply Hkeep. by apply not_redirect_key.
  - unfold jar_key, dict_get. rewrite Hkeep; [done|]. by apply not_redirect_key.
Qed.
End budgets_apart.

(** The retry of a timed-out request stays in the jar of that request. *)
Lemma retry_keeps_redirect_state_witness :
  same_redirect_state slow_request slow_retry_1
  ∧ jar_key slow_retry_1 = jar_key slow_request.
Proof.
  destruct (retry_keeps_redirect_state (H0 := sample_retry_lib) default_retry
              slow_request (ReasonExc timeout_error) empty_world slow_retry_1)
    as (_ & Hstate & Hjar); [vm_compute; reflexivity|].
  split; [exact Hstate | exact Hjar].
Defined.

(** The redirect of a form submission stays in the jar of the submission. *)
Lemma redirect_keeps_retry_state_witness :
  jar_key form_post_redirected = jar_key form_post.
Proof.
  destruct (redirect_keeps_retry_state (H := absolute_urls) default_redirect
              form_post form_post_302 plain_spider empty_world form_post_redirected)
    as (_ & _ & _ & Hjar); [vm_compute; reflexivity|].
  exact Hjar.
Defined.

(** ** The cookies middleware at its edges *)

Section cookies_edges.
Import CookiesMiddleware.
Context `{CookieJarOps Jar Cookie}.
Variables (spider : Spider).

(** X8: the debug flag changes only what is logged: with it or without it
    the jars, the request handed on and the result are the same, and without
    it nothing is logged. *)
Theorem cookies_debug_only_logs (js : gmap HashKey Jar) request response w :
  let quiet := {| jars := js; debug := false |} in
  let verbose := {| jars := js; debug := true |} in
  jars (process_request verbose request spider w).1
    = jars (process_request quiet request spider w).1
  ∧ request_after (process_request verbose request spider w).2
    = request_after (process_request quiet request spider w).2
  ∧ returned (process_request verbose request spider w).2
    = returned (process_request quiet request spider w).2
  ∧ world_after (process_request quiet request spider w).2 = w
  ∧ jars (process_response verbose request response spider w).1.1
    = jars (process_response quiet request response spider w).1.1
  ∧ (process_response verbose request response spider w).2
    = (process_response quiet request response spider w).2
  ∧ (process_response quiet request response spider w).1.2 = w.
Proof.
  intros quiet verbose. unfold process_request, process_response. simpl.
  destruct (truthy _); [done|].
  destruct (hash_key _) as [key|]; [|done].
  destruct (jars_getitem key js) as [jar js'].
  destruct (_get_request_cookies jar request) as [jar1 cs].
  by destruct (add_cookie_header _ _) as [jar2 request2].
Qed.

(** X9: a Cookie header the request came with does not survive
    [process_request]: the Cookie header of the request handed on is the one
    value computed by the jar stored under the cookiejar key of the request
    (a new jar when the key has none yet), after the cookies of the request
    were put into that jar, for the request stripped of its own Cookie
    header; when that jar computes none the request has no Cookie header. *)
Theorem cookie_header_replaced (self : CookiesMiddleware.t Jar) request w (key : HashKey) :
  truthy (dict_get "dont_merge_cookies" (VBool false) (meta request)) = false →
  jar_key request = Some key →
  let r := request_after (process_request self request spider w).2 in
  let offered := _get_request_cookies (default new_jar (jars self !! key)) request in
  let jar :=
    fold_left (λ jar cookie, set_cookie_if_ok jar cookie request) offered.2 offered.1 in
  let stripped := set_headers (Headers.pop "Cookie" (headers request)) request in
  headers stripped !! Headers.normkey "Cookie" = None
  ∧ headers r !! Headers.normkey "Cookie"
    = (λ v, [v]) <$> (cookie_header_for jar stripped).2.
Proof.
  intros Hdont Hkey r offered jar stripped. split.
  - unfold stripped, Headers.pop. simpl. by rewrite lookup_delete_eq.
  - apply (process_request_computed spider self request w key Hdont Hkey).
Qed.

(** X10: a jar is made on the first use of its key and kept from then on.
    Under a cookiejar key, the jars after [process_response] are the jars
    there were, with the jar of that key (a new one when the key had none)
    replaced by itself after the cookies of the response were extracted into
    it, and the response comes back as it is; the jars after
    [process_request] are the jars there were, with the jar of that key (a
    new one when the key had none) replaced by itself after the cookies of
    the request were put into it and the Cookie header was asked of it.  An
    unhashable cookiejar value raises TypeError and changes nothing. *)
Theorem cookie_jar_on_demand (self : CookiesMiddleware.t Jar) request response w :
  truthy (dict_get "dont_merge_cookies" (VBool false) (meta request)) = false →
  (∀ key, jar_key request = Some key →
     let stored := default new_jar (jars self !! key) in
     let offered := _get_request_cookies stored request in
     let jar :=
       fold_left (λ jar cookie, set_cookie_if_ok jar cookie request) offered.2 offered.1 in
     let stripped := set_headers (Headers.pop "Cookie" (headers request)) request in
     jars (process_response self request response spider w).1.1
       = <[key := extract_cookies stored response request]> (jars self)
     ∧ (process_response self request response spider w).2 = Return response
     ∧ jars (process_request self request spider w).1
       = <[key := (cookie_header_for jar stripped).1]> (jars self)
     ∧ returned (process_request self request spider w).2 = Return ())
  ∧ (jar_key request = None →
     process_response self request response spider w = (self, w, Raise TypeError)
     ∧ process_request self request spider w
       = (self, {| request_after := request; world_after := w;
                   returned := Raise TypeError |})).
Proof.
  intros Hdont. split.
  - intros key Hkey stored offered jar stripped.
    split; [|split; [|split]].
    + unfold process_response, jars_getitem. fold (jar_key request).
      rewrite Hdont, Hkey. unfold stored.
      destruct (jars self !! key); simpl; by rewrite ?insert_insert_eq.
    + unfold process_response. fold (jar_key request). rewrite Hdont, Hkey.
      by destruct (jars_getitem key (jars self)).
    + apply (process_request_computed spider self request w key Hdont Hkey).
    + unfold process_request. fold (jar_key request). rewrite Hdont, Hkey.
      destruct (jars_getitem key (jars self)) as [jar0 js].
      destruct (_get_request_cookies jar0 request) as [jar1 cs].
      by destruct (add_cookie_header _ _).
  - unfold process_request, process_response. fold (jar_key request).
    rewrite Hdont. by intros ->.
Qed.
End cookies_edges.

(** A stale Cookie header meets an empty jar: the request goes out without
    a Cookie header. *)
Lemma cookie_header_replaced_witness :
  headers (request_after
             (CookiesMiddleware.process_request (H := simple_jar) fresh_cookies
                request_own_cookie plain_spider empty_world).2)
    !! Headers.normkey "Cookie" = None.
Proof.
  destruct (cookie_header_replaced (H := simple_jar) plain_spider fresh_cookies
              request_own_cookie empty_world KNone) as [_ Hheader];
    [reflexivity | reflexivity |].
  rewrite Hheader. reflexivity.
Defined.

(** The first response under cookiejar "A" makes that jar and puts the
    cookie in it; no other jar is made. *)
Lemma cookie_jar_on_demand_witness :
  CookiesMiddleware.jars
    (CookiesMiddleware.process_response (H := simple_jar) fresh_cookies
       request_jar_A response_jar_A plain_spider empty_world).1.1
  = {[KStr "A" := ["sid=abc; Path=/"]]}.
Proof.
  destruct (cookie_jar_on_demand (H := simple_jar) plain_spider fresh_cookies
              request_jar_A response_jar_A empty_world) as [Hkey _]; [reflexivity|].
  destruct (Hkey (KStr "A")) as (Hjar & _); [reflexivity|].
  rewrite Hjar. reflexivity.
Defined.

(** ** The status filter, further *)

Section status_filter_more.
Import HttpErrorMiddleware.

(** X11: when the meta of the response holds handle_httpstatus_list (and
    not handle_httpstatus_all), that list alone decides: the result is the
    same whatever the settings and the spider allow.  The lists are not
    merged. *)
Theorem meta_allow_list_decides_alone (self self' : HttpErrorMiddleware.t)
    (spider spider' : Spider) (response : Response) (m : gmap string PyValue) :
  response_meta response = Some m →
  m !! "handle_httpstatus_all" = None →
  is_Some (m !! "handle_httpstatus_list") →
  process_spider_input self response spider = process_spider_input self' response spider'.
Proof.
  intros Hmeta Hall [v Hlist].
  destruct (decide (200 ≤ status response < 300)) as [Hin|Hout].
  - by rewrite !process_spider_input_2xx.
  - rewrite (process_spider_input_non_2xx self response spider m Hout Hmeta).
    rewrite (process_spider_input_non_2xx self' response spider' m Hout Hmeta).
    by rewrite Hall, Hlist.
Qed.

(** X12: whatever [process_spider_input] raises is an HttpError that carries
    the response it was given, or a TypeError or an AttributeError.  The
    HttpError is what [process_spider_exception] turns into an empty result;
    the other two it lets through, changing nothing. *)
Theorem filtered_response_is_absorbed (self : HttpErrorMiddleware.t) (response : Response)
    (spider : Spider) (w : World) (e : PyException) :
  process_spider_input self response spider = Raise e →
  (e = HttpError response "Ignoring non-200 response"
   ∧ (process_spider_exception self response e spider w).2 = Some [])
  ∨ ((e = TypeError ∨ e = AttributeError)
     ∧ process_spider_exception self response e spider w = (w, None)).
Proof.
  unfold process_spider_input.
  repeat match goal with
         | |- context [match ?a with _ => _ end] => destruct a
         end;
    intros [= <-]; auto.
Qed.
End status_filter_more.

(** A 500 is filtered when the meta allows 404 only, though the spider and
    the settings both allow 500. *)
Lemma meta_allow_list_decides_alone_witness :
  HttpErrorMiddleware.process_spider_input httperror_allows_500 server_error_allow_404
    spider_handles_500
  = Raise (HttpError server_error_allow_404 "Ignoring non-200 response").
Proof.
  rewrite (meta_allow_list_decides_alone httperror_allows_500 default_httperror
             spider_handles_500 plain_spider server_error_allow_404
             {["handle_httpstatus_list" := VList [VInt 404]]});
    [reflexivity | reflexivity | reflexivity | by eexists].
Defined.

(** The HttpError raised for a 404 comes back as an empty result. *)
Lemma filtered_response_is_absorbed_witness :
  (HttpErrorMiddleware.process_spider_exception default_httperror not_found
     (HttpError not_found "Ignoring non-200 response") plain_spider empty_world).2
  = Some [].
Proof.
  destruct (filtered_response_is_absorbed default_httperror not_found plain_spider
              empty_world (HttpError not_found "Ignoring non-200 response"))
    as [[_ Habsorbed] | [[Hty | Hattr] _]];
    [reflexivity | exact Habsorbed | discriminate Hty | discriminate Hattr].
Defined.

(** ** A handled status through both middlewares *)

Section handled_status.
Context `{UrlLib}.

(** X13: a response whose status is in the handle_httpstatus_list of its
    request's meta is not redirected by [RedirectMiddleware.process_response]
    and is let through by [HttpErrorMiddleware.process_spider_input]: it
    reaches the spider as it is. *)
Theorem handled_status_reaches_spider (redirect : RedirectMiddleware.t)
    (filter : HttpErrorMiddleware.t) request response spider w
    (allowed : PyValue) (in_spider : bool) :
  response_request response = Some request →
  meta request !! "handle_httpstatus_list" = Some allowed →
  py_int_in (status response) allowed = Some true →
  py_int_in (status response) (default (VList []) (spider_handle_httpstatus_list spider))
    = Some in_spider →
  RedirectMiddleware.process_response redirect request response spider w
  = {| request_after := request; world_after := w; returned := Return (inr response) |}
  ∧ HttpErrorMiddleware.process_spider_input filter response spider = Return ().
Proof.
  intros Hreq Hlist Hin Hspider. split.
  - unfold RedirectMiddleware.process_response.
    destruct (truthy (dict_get "dont_redirect" (VBool false) (meta request)));
      [done|].
    rewrite Hspider. simpl. destruct in_spider; [done|].
    assert (dict_get "handle_httpstatus_list" (VList []) (meta request) = allowed) as ->
      by (unfold dict_get; by rewrite Hlist).
    by rewrite Hin.
  - destruct (decide (200 ≤ status response < 300)) as [H2xx|Hout].
    + by apply process_spider_input_2xx.
    + rewrite (process_spider_input_non_2xx filter response spider (meta request) Hout).
      * cbv zeta. rewrite Hlist.
        destruct (meta request !! "handle_httpstatus_all"); [done|].
        by rewrite Hin.
      * unfold response_meta. by rewrite Hreq.
Qed.
End handled_status.

(** A 302 the request asked to see: not followed, not filtered. *)
Lemma handled_status_reaches_spider_witness :
  returned (RedirectMiddleware.process_response (H := absolute_urls) default_redirect
              request_handles_302 response_handled_302 plain_spider empty_world)
  = Return (inr response_handled_302)
  ∧ HttpErrorMiddleware.process_spider_input default_httperror response_handled_302
      plain_spider = Return ().
Proof.
  destruct (handled_status_reaches_spider (H := absolute_urls) default_redirect
              default_httperror request_handles_302 response_handled_302 plain_spider
              empty_world (VList [VInt 302]) false) as [Hredirect Hfilter];
    [reflexivity..|].
  split; [by rewrite Hredirect | exact Hfilter].
Defined.

(** ** The meta-refresh policy *)

Section meta_refresh.
Import MetaRefreshMiddleware.
Context `{MetaRefreshLib Interval}.
Variables (self : MetaRefreshMiddleware.t) (request : Request) (response : Response)
          (spider : Spider) (w : World).

(** X14: [MetaRefreshMiddleware.process_response] hands back the response
    it was given, with the request and the collaborators untouched, when
    meta dont_redirect is set, when the method is HEAD, when the response is
    not HTML, when the page has no refresh directive or one with an empty
    url, and when the interval is not below the maximum delay. *)
Theorem meta_refresh_pass_through :
  truthy (dict_get "dont_redirect" (VBool false) (meta request)) = true
  ∨ method request = "HEAD"
  ∨ is_HtmlResponse response = false
  ∨ get_meta_refresh response (_ignore_tags self) = None
  ∨ (∃ interval url,
       get_meta_refresh response (_ignore_tags self) = Some (interval, url)
       ∧ (url = "" ∨ interval_lt interval (_maxdelay self) = false)) →
  process_response self request response spider w
  = {| request_after := request; world_after := w; returned := Return (inr response) |}.
Proof.
  intros Hcase. unfold process_response.
  destruct (truthy _ || String.eqb (method request) "HEAD"
            || negb (is_HtmlResponse response)) eqn:Hguard; [done|].
  apply orb_false_iff in Hguard as [Hguard Hhtml].
  apply orb_false_iff in Hguard as [Hdont Hhead].
  destruct Hcase as [Hd | [Hm | [Hh | [-> | (interval & url & -> & Hno)]]]].
  - by rewrite Hd in Hdont.
  - apply String.eqb_neq in Hhead. done.
  - by rewrite Hh in Hhtml.
  - done.
  - destruct Hno as [-> | ->]; [done|]. by rewrite andb_false_r.
Qed.

(** X15: a request [MetaRefreshMiddleware.process_response] returns goes to
    the url of the refresh directive as a GET with an empty body and without
    the Content-Type and Content-Length headers; it comes out of the same
    [_redirect] as an HTTP redirect does, so it draws on the same budget, and
    the reason recorded last is "meta refresh". *)
Theorem meta_refresh_redirects (r : Request) :
  returned (process_response self request response spider w) = Return (inl r) →
  ∃ interval target reasons,
    get_meta_refresh response (_ignore_tags self) = Some (interval, target)
    ∧ interval_lt interval (_maxdelay self) = true
    ∧ url r = target
    ∧ rebuilt_as_get request r
    ∧ redirect_step (base self) request r
    ∧ meta r !! "redirect_reasons" = Some (VList (reasons ++ [VStr "meta refresh"])).
Proof.
  unfold process_response.
  destruct (_ || _ || _); [done|].
  destruct (get_meta_refresh response (_ignore_tags self)) as [[interval target]|]; [|done].
  destruct (negb (String.eqb target "") && _) eqn:Hcond; [|done].
  apply andb_true_iff in Hcond as [_ Hlt].
  intros Hr. apply returned_as_request in Hr.
  exists interval, target.
  destruct (_redirect_Return_inv _ _ _ _ _ _ Hr)
    as (ttl & times & urls & reasons & _ & _ & _ & _ & _ & _ & Hmeta & _).
  exists reasons.
  destruct (_redirect_keeps_candidate _ _ _ _ _ _ Hr) as (Hu & Hm & Hh & Hb & _).
  destruct (rebuilt_using_get request target) as [Gu Gs].
  split; [done|]. split; [done|]. split; [by rewrite Hu|]. split.
  - unfold rebuilt_as_get in *. by rewrite Hm, Hh, Hb.
  - split.
    + by apply (redirect_step_intro _ _ _
                  (RedirectMiddleware._redirect_request_using_get request target)
                  request (VStr "meta refresh") w).
    + rewrite Hmeta. by rewrite lookup_insert_eq.
Qed.
End meta_refresh.

(** A HEAD request is never refreshed. *)
Lemma meta_refresh_pass_through_witness :
  MetaRefreshMiddleware.process_response (H := body_is_target) default_metarefresh
    (make_request "http://example.com/" "HEAD" "" 0 ∅) refresh_page plain_spider empty_world
  = {| request_after := make_request "http://example.com/" "HEAD" "" 0 ∅;
       world_after := empty_world; returned := Return (inr refresh_page) |}.
Proof.
  apply (meta_refresh_pass_through (H := body_is_target)). right. left. reflexivity.
Defined.

(** The refresh of a form submission is a GET of the refresh url. *)
Lemma meta_refresh_redirects_witness :
  url form_post_refreshed = "http://example.com/next"
  ∧ rebuilt_as_get form_post form_post_refreshed.
Proof.
  destruct (meta_refresh_redirects (H := body_is_target) default_metarefresh form_post
              refresh_page plain_spider empty_world form_post_refreshed)
    as (interval & target & reasons & Hget & _ & Hurl & Hshape & _);
    [vm_compute; reflexivity|].
  split; [reflexivity | exact Hshape].
Defined.

(** ** The command name on the command line *)

Lemma _pop_command_name_loop_spec (opts rest : list string) (cmd : string)
    (i : nat) (argv : list string) :
  Forall (λ o, String.prefix "-" o = true) opts →
  String.prefix "-" cmd = false →
  _pop_command_name_loop (opts ++ cmd :: rest)%list i argv
  = (Some cmd, delete (i + length opts)%nat argv).
Proof.
  intros Hopts Hcmd. revert i.
  induction Hopts as [|o opts Ho _ IH]; intros i; simpl.
  - rewrite Hcmd. simpl. by rewrite Nat.add_0_r.
  - rewrite Ho. simpl. rewrite IH. do 2 f_equal. lia.
Qed.

(** X16: [_pop_command_name] returns the first argument after [argv[0]] that
    does not start with "-", and deletes from [argv] the element just before
    it: [argv[0]] when the command comes first, so that the command takes
    its place, and otherwise the option written before the command.  The
    command itself stays in [argv]. *)
Theorem _pop_command_name_found (prog cmd : string) (opts rest : list string) :
  Forall (λ o, String.prefix "-" o = true) opts →
  String.prefix "-" cmd = false →
  _pop_command_name (prog :: (opts ++ cmd :: rest)%list)
  = (Some cmd, (removelast (prog :: opts) ++ cmd :: rest)%list).
Proof.
  intros Hopts Hcmd. unfold _pop_command_name. simpl drop.
  rewrite (_pop_command_name_loop_spec opts rest cmd 0 _ Hopts Hcmd). f_equal.
  simpl Nat.add. clear Hopts Hcmd. revert prog.
  induction opts as [|o opts IH]; intros prog; [done|].
  change (delete (length (o :: opts)) (prog :: ((o :: opts) ++ cmd :: rest)%list))
    with (prog :: delete (length opts) (o :: (opts ++ cmd :: rest)%list)).
  rewrite IH. by destruct opts.
Qed.

Lemma _pop_command_name_loop_none (rest : list string) (i : nat) (argv : list string) :
  Forall (λ o, String.prefix "-" o = true) rest →
  _pop_command_name_loop rest i argv = (None, argv).
Proof.
  intros Hrest. revert i.
  induction Hrest as [|o rest Ho _ IH]; intros i; simpl; [done|].
  rewrite Ho. simpl. apply IH.
Qed.

(** X17: when every argument after [argv[0]] starts with "-", or there is
    none, [_pop_command_name] returns nothing and leaves [argv] as it is. *)
Theorem _pop_command_name_none (argv : list string) :
  Forall (λ o, String.prefix "-" o = true) (drop 1 argv) →
  _pop_command_name argv = (None, argv).
Proof. apply _pop_command_name_loop_none. Qed.

(** [scrapy --nolog crawl quotes]: the option is lost and the command stays. *)
Lemma _pop_command_name_found_witness :
  _pop_command_name ["scrapy"; "--nolog"; "crawl"; "quotes"]
  = (Some "crawl", ["scrapy"; "crawl"; "quotes"]).
Proof.
  apply (_pop_command_name_found "scrapy" "crawl" ["--nolog"] ["quotes"]).
  - repeat constructor.
  - reflexivity.
Defined.

Lemma _pop_command_name_none_witness :
  _pop_command_name ["scrapy"; "-h"] = (None, ["scrapy"; "-h"]).
Proof. apply _pop_command_name_none. repeat constructor. Defined.

(** ** Arguments of the form name=value *)

Lemma split_once_without (sep : ascii) (s : string) :
  contains_char sep s = false → split_once sep s = [s].
Proof.
  induction s as [|c s IH]; simpl; [done|].
  intros Hno. apply orb_false_iff in Hno as [-> Hno]. by rewrite (IH Hno).
Qed.

Lemma split_once_with (sep : ascii) (k v : string) :
  contains_char sep k = false →
  split_once sep (k +:+ String sep v) = [k; v].
Proof.
  induction k as [|c k IH]; simpl.
  - intros _. by rewrite Ascii.eqb_refl.
  - intros Hno. apply orb_false_iff in Hno as [-> Hno]. by rewrite (IH Hno).
Qed.

Lemma split_once_found (sep : ascii) (s : string) :
  contains_char sep s = true → ∃ k v, split_once sep s = [k; v].
Proof.
  induction s as [|c s IH]; simpl; [done|].
  destruct (Ascii.eqb c sep); simpl; [by eauto|].
  intros Hyes. destruct (IH Hyes) as (k & v & ->). eauto.
Qed.

Lemma dict_of_pairs_items (d : gmap string string) (items : list (string * string)) :
  dict_of_pairs d (map (λ kv, [kv.1; kv.2]) items)
  = Return (list_to_map (reverse items) ∪ d).
Proof.
  revert d. induction items as [|[k v] items IH]; intros d; simpl.
  - by rewrite (left_id_L ∅ (∪) d).
  - rewrite IH. f_equal. rewrite reverse_cons, list_to_map_app. simpl.
    rewrite <- (assoc_L (∪)). f_equal.
    rewrite insert_empty. by rewrite <- insert_union_singleton_l.
Qed.

(** X18: [arglist_to_dict] undoes the writing of items as name=value, for
    names without "=": the value is everything after the first "=", "="
    signs included, and of two items with one name the later one is kept. *)
Theorem arglist_to_dict_round_trip (items : list (string * string)) :
  Forall (λ kv, contains_char "=" kv.1 = false) items →
  arglist_to_dict (map (λ kv, kv.1 +:+ String "=" kv.2) items)
  = Return (list_to_map (reverse items)).
Proof.
  intros Hnames. unfold arglist_to_dict. rewrite map_map.
  rewrite (map_ext_Forall _ (λ kv, [kv.1; kv.2])).
  - rewrite dict_of_pairs_items. by rewrite (right_id_L ∅ (∪)).
  - eapply Forall_impl; [exact Hnames|]. intros kv Hkv. by apply split_once_with.
Qed.

Lemma dict_of_pairs_error (d : gmap string string) (arglist : list string) :
  (Exists (λ x, contains_char "=" x = false) arglist →
   dict_of_pairs d (map (split_once "=") arglist) = Raise ValueError)
  ∧ (Forall (λ x, contains_char "=" x = true) arglist →
     ∃ d', dict_of_pairs d (map (split_once "=") arglist) = Return d').
Proof.
  revert d. induction arglist as [|x arglist IH]; intros d; simpl.
  - split; [by intros ?%Exists_nil | eauto].
  - destruct (contains_char "=" x) eqn:Hx.
    + destruct (split_once_found _ _ Hx) as (k & v & ->).
      destruct (IH (<[k := v]> d)) as [IHe IHr]. split.
      * intros [Hno|Hlater]%Exists_cons; [congruence | by apply IHe].
      * intros [_ Hall]%Forall_cons. by apply IHr.
    + rewrite (split_once_without _ _ Hx). split; [done|].
      intros [Hyes _]%Forall_cons. congruence.
Qed.

(** X19: [arglist_to_dict] raises ValueError exactly when some argument has
    no "=" in it; an empty name or an empty value is accepted. *)
Theorem arglist_to_dict_error (arglist : list string) :
  arglist_to_dict arglist = Raise ValueError
  ↔ Exists (λ x, contains_char "=" x = false) arglist.
Proof.
  unfold arglist_to_dict. destruct (dict_of_pairs_error ∅ arglist) as [He Hr].
  split; [|exact He].
  intros Hraise.
  destruct (decide (Exists (λ x, contains_char "=" x = false) arglist)) as [|Hnone];
    [done|].
  apply not_Exists_Forall in Hnone; [|intros x; apply _].
  destruct Hr as [d' Hd'].
  - eapply Forall_impl; [exact Hnone|]. intros x Hx. simpl in Hx.
    by destruct (contains_char "=" x).
  - congruence.
Qed.

(** Two settings from the command line, the first one given twice. *)
Lemma arglist_to_dict_round_trip_witness :
  arglist_to_dict ["LOG_LEVEL=INFO"; "USER_AGENT=a=b"; "LOG_LEVEL=DEBUG"]
  = Return {["LOG_LEVEL" := "DEBUG"; "USER_AGENT" := "a=b"]}.
Proof.
  exact (arglist_to_dict_round_trip
           [("LOG_LEVEL", "INFO"); ("USER_AGENT", "a=b"); ("LOG_LEVEL", "DEBUG")]
           ltac:(repeat constructor)).
Defined.

(** A lone word is no name=value argument. *)
Lemma arglist_to_dict_error_witness :
  arglist_to_dict ["LOG_LEVEL=INFO"; "verbose"] = Raise ValueError.
Proof.
  apply (proj2 (arglist_to_dict_error ["LOG_LEVEL=INFO"; "verbose"])).
  apply Exists_cons_tl, Exists_cons_hd. reflexivity.
Defined.

(** ** Settings and their priorities *)

Section settings.
Import BaseSettings.

Lemma geb_true (a b : Z) : (a >=? b) = true ↔ b ≤ a.
Proof. rewrite Z.geb_leb. apply Z.leb_le. Qed.

Lemma geb_false (a b : Z) : (a >=? b) = false ↔ a < b.
Proof. rewrite Z.geb_leb. apply Z.leb_gt. Qed.

Lemma attribute_set_commutes (a : SettingsAttribute.t) v1 v2 (z1 z2 : Z) :
  z1 ≠ z2 →
  SettingsAttribute.set (SettingsAttribute.set a v1 z1) v2 z2
  = SettingsAttribute.set (SettingsAttribute.set a v2 z2) v1 z1.
Proof.
  intros Hne. unfold SettingsAttribute.set.
  destruct (z1 >=? SettingsAttribute.priority a) eqn:H1;
    destruct (z2 >=? SettingsAttribute.priority a) eqn:H2; simpl;
    rewrite ?H1, ?H2;
    destruct (z2 >=? z1) eqn:H21; destruct (z1 >=? z2) eqn:H12; simpl;
    rewrite ?H1, ?H2; try done;
    rewrite ?geb_true, ?geb_false in *; lia.
Qed.

Lemma attribute_new_commutes v1 v2 (z1 z2 : Z) :
  z1 ≠ z2 →
  SettingsAttribute.set (SettingsAttribute.new v1 z1) v2 z2
  = SettingsAttribute.set (SettingsAttribute.new v2 z2) v1 z1.
Proof.
  intros Hne. unfold SettingsAttribute.set, SettingsAttribute.new. simpl.
  destruct (z2 >=? z1) eqn:H21; destruct (z1 >=? z2) eqn:H12; try done;
    rewrite ?geb_true, ?geb_false in *; lia.
Qed.

Lemma get_settings_priority_raises priority e :
  get_settings_priority priority = Raise e → e = KeyError.
Proof.
  destruct priority as [name|z]; simpl; [|done].
  destruct (SETTINGS_PRIORITIES !! name); [done|]. by intros [= <-].
Qed.

(** X20: two [set] calls can be made in either order with the same outcome
    when they are for different names or at different priorities: settings
    of different priority levels can be loaded in any order. *)
Theorem set_commutes (self : BaseSettings.t) n1 v1 p1 n2 v2 p2 :
  n1 ≠ n2 ∨ get_settings_priority p1 ≠ get_settings_priority p2 →
  and_then (set self n1 v1 p1) (λ s, set s n2 v2 p2)
  = and_then (set self n2 v2 p2) (λ s, set s n1 v1 p1).
Proof.
  intros Hdiff. unfold set.
  destruct (frozen self) eqn:Hfrozen; [done|].
  destruct (get_settings_priority p1) as [z1|e1] eqn:E1;
    destruct (get_settings_priority p2) as [z2|e2] eqn:E2; simpl;
    rewrite ?Hfrozen, ?E1, ?E2; try done.
  2: { apply get_settings_priority_raises in E1, E2. by subst. }
  f_equal. f_equal.
  destruct (decide (n1 = n2)) as [<-|Hn].
  - assert (z1 ≠ z2) as Hz by (destruct Hdiff; congruence).
    rewrite !lookup_insert_eq, !insert_insert_eq. f_equal.
    destruct (attributes self !! n1).
    + by apply attribute_set_commutes.
    + by apply attribute_new_commutes.
  - rewrite !lookup_insert_ne by done. by apply insert_insert_ne.
Qed.

(** X21: on settings that are not frozen, [set] at priority [p] stores the
    value with that priority when the name is new or held at a priority of at
    most [p], and changes nothing at all when the name is held at a higher
    priority; no other name is touched. *)
Theorem set_stores_by_priority (self : BaseSettings.t) name value priority (p : Z) :
  frozen self = false →
  get_settings_priority priority = Return p →
  ∃ self',
    set self name value priority = Return self'
    ∧ ((∀ current, getpriority self name = Some current → current ≤ p) →
       __getitem__ self' name = value ∧ getpriority self' name = Some p)
    ∧ ((∃ current, getpriority self name = Some current ∧ p < current) → self' = self)
    ∧ ∀ other, other ≠ name →
        __getitem__ self' other = __getitem__ self other
        ∧ getpriority self' other = getpriority self other.
Proof.
  intros Hfrozen Hp. unfold set. rewrite Hfrozen, Hp.
  eexists. split; [reflexivity|].
  unfold __getitem__, getpriority. simpl.
  split; [|split].
  - intros Hle. rewrite !lookup_insert_eq. simpl.
    destruct (attributes self !! name) as [a|]; [|done].
    unfold SettingsAttribute.set.
    assert ((p >=? SettingsAttribute.priority a) = true) as ->; [|done].
    apply geb_true, Hle. done.
  - intros (current & Hcur & Hlt).
    destruct (attributes self !! name) as [a|] eqn:Ha; [|done].
    simpl in Hcur. injection Hcur as <-.
    unfold SettingsAttribute.set.
    assert ((p >=? SettingsAttribute.priority a) = false) as -> by by apply geb_false.
    rewrite insert_id by done. destruct self. simpl in *. by subst.
  - intros other Hother. by rewrite !lookup_insert_ne.
Qed.

(** What the loop of [update] leaves under each name, for items with
    distinct names. *)
Lemma set_items_lookup (self : BaseSettings.t) (items : list (string * PyValue))
    priority (p : Z) :
  frozen self = false →
  get_settings_priority priority = Return p →
  NoDup items.*1 →
  ∃ self',
    set_items self items priority = Return self'
    ∧ frozen self' = false
    ∧ ∀ name,
        attributes self' !! name =
          match (list_to_map items : gmap string PyValue) !! name with
          | None => attributes self !! name
          | Some v =>
              Some (match attributes self !! name with
                    | None => SettingsAttribute.new v p
                    | Some a => SettingsAttribute.set a v p
                    end)
          end.
Proof.
  intros Hfrozen Hp Hnodup. revert self Hfrozen.
  induction items as [|[n v] items IH]; intros self Hfrozen; simpl.
  - by exists self.
  - apply NoDup_cons in Hnodup as [Hfresh Hnodup].
    unfold set at 1. rewrite Hfrozen, Hp.
    match goal with |- context [set_items ?s _ _] => destruct (IH Hnodup s) as (s' & -> & Hf & Hl) end;
      [done|].
    exists s'. split; [done|]. split; [done|].
    intros name. rewrite Hl. simpl.
    assert ((list_to_map items : gmap string PyValue) !! n = None) as Hn.
    { by apply not_elem_of_list_to_map_1. }
    destruct (decide (n = name)) as [<-|Hne].
    + by rewrite Hn, !lookup_insert_eq.
    + by rewrite !lookup_insert_ne.
Qed.

(** X22: an [update] from a dict never removes a name and never lowers a
    priority, and a name that is not in the dict keeps its value and its
    priority. *)
Theorem update_is_monotone (self self' : BaseSettings.t)
    (items : list (string * PyValue)) priority :
  NoDup items.*1 →
  update self (Some items) priority = Return self' →
  (∀ name p0, getpriority self name = Some p0 →
     ∃ p', getpriority self' name = Some p' ∧ p0 ≤ p')
  ∧ (∀ name, name ∉ items.*1 →
       __getitem__ self' name = __getitem__ self name
       ∧ getpriority self' name = getpriority self name)
  ∧ frozen self' = frozen self.
Proof.
  intros Hnodup. unfold update.
  destruct (frozen self) eqn:Hfrozen; [done|].
  destruct (get_settings_priority priority) as [p|e] eqn:Hp.
  - destruct (set_items_lookup self items priority p Hfrozen Hp Hnodup)
      as (s' & -> & Hf & Hl).
    intros [= <-]. unfold getpriority, __getitem__.
    split; [|split; [|done]].
    + intros name p0. rewrite Hl.
      destruct (attributes self !! name) as [a|]; [|done]. simpl. intros [= <-].
      destruct (list_to_map items !! name); simpl; [|eexists; split; [done|lia]].
      unfold SettingsAttribute.set.
      destruct (p >=? SettingsAttribute.priority a) eqn:Hge; simpl.
      * apply geb_true in Hge. eauto.
      * eexists; split; [done|lia].
    + intros name Hname. rewrite Hl.
      by rewrite (not_elem_of_list_to_map_1 _ _ Hname).
  - destruct items as [|[n v] items]; simpl.
    + intros [= <-]. split; [eauto using Z.le_refl|]. by split.
    + unfold set. by rewrite Hfrozen, Hp.
Qed.

(** X23: the settings a spider class brings take effect at the spider
    level: [update_settings] gives a name of custom_settings its custom value
    unless the settings hold it at a priority above 30, as the command line
    sets it, in which case that entry stays as it is. *)
Theorem update_settings_spider_level (settings : BaseSettings.t)
    (custom : list (string * PyValue)) :
  frozen settings = false →
  NoDup custom.*1 →
  ∃ settings',
    update_settings (Some custom) settings = Return settings'
    ∧ ∀ name value, (name, value) ∈ custom →
        ((∀ current, getpriority settings name = Some current → current ≤ 30) →
         __getitem__ settings' name = value ∧ getpriority settings' name = Some 30)
        ∧ ((∃ current, getpriority settings name = Some current ∧ 30 < current) →
           __getitem__ settings' name = __getitem__ settings name
           ∧ getpriority settings' name = getpriority settings name).
Proof.
  intros Hfrozen Hnodup.
  assert (update_settings (Some custom) settings
          = set_items settings custom (PriorityName "spider")) as ->.
  { unfold update_settings, setdict, update. rewrite Hfrozen. by destruct custom. }
  destruct (set_items_lookup settings custom (PriorityName "spider") 30 Hfrozen eq_refl
              Hnodup) as (s' & -> & _ & Hl).
  exists s'. split; [done|].
  intros name value Hin. unfold __getitem__, getpriority. rewrite Hl.
  rewrite (elem_of_list_to_map_1 custom name value Hnodup Hin).
  split.
  - intros Hle. destruct (attributes settings !! name) as [a|]; [|done]. simpl.
    unfold SettingsAttribute.set.
    assert ((30 >=? SettingsAttribute.priority a) = true) as ->; [|done].
    apply geb_true, Hle. done.
  - intros (current & Hcur & Hlt).
    destruct (attributes settings !! name) as [a|]; [|done]. simpl in *.
    injection Hcur as <-. unfold SettingsAttribute.set.
    by assert ((30 >=? SettingsAttribute.priority a) = false) as -> by by apply geb_false.
Qed.
End settings.

(** A project-level value does not replace a command-line one, whichever
    is set first. *)
Lemma set_commutes_witness :
  and_then (BaseSettings.set BaseSettings.empty "LOG_LEVEL" (VStr "INFO")
              (PriorityName "project"))
           (λ s, BaseSettings.set s "LOG_LEVEL" (VStr "DEBUG") (PriorityName "cmdline"))
  = and_then (BaseSettings.set BaseSettings.empty "LOG_LEVEL" (VStr "DEBUG")
                (PriorityName "cmdline"))
             (λ s, BaseSettings.set s "LOG_LEVEL" (VStr "INFO") (PriorityName "project")).
Proof. apply set_commutes. right. discriminate. Defined.

(** A project-level DOWNLOAD_DELAY does not replace the one from the
    command line. *)
Lemma set_stores_by_priority_witness :
  BaseSettings.set project_settings "DOWNLOAD_DELAY" (VInt 1) (PriorityName "project")
  = Return project_settings.
Proof.
  destruct (set_stores_by_priority project_settings "DOWNLOAD_DELAY" (VInt 1)
              (PriorityName "project") 20) as (s' & Hset & _ & Hkept & _);
    [reflexivity | reflexivity |].
  rewrite Hset. f_equal. apply Hkept. exists 40. split; [reflexivity | lia].
Defined.

(** An update at the project level leaves the priority of RETRY_TIMES at 20
    or above. *)
Lemma update_is_monotone_witness :
  ∃ s' p',
    BaseSettings.update project_settings (Some [("RETRY_TIMES", VInt 5)])
      (PriorityName "project") = Return s'
    ∧ BaseSettings.getpriority s' "RETRY_TIMES" = Some p' ∧ 20 ≤ p'.
Proof.
  eexists. 
  destruct (update_is_monotone project_settings _ [("RETRY_TIMES", VInt 5)]
              (PriorityName "project")
              ltac:(repeat constructor; apply not_elem_of_nil) eq_refl)
    as (Hmono & _).
  destruct (Hmono "RETRY_TIMES" 20 eq_refl) as (p' & Hp' & Hle).
  exists p'. split; [reflexivity|]. split; [exact Hp' | exact Hle].
Defined.

(** A spider's custom settings replace the project's RETRY_TIMES and leave
    the command line's DOWNLOAD_DELAY. *)
Lemma update_settings_spider_level_witness :
  ∃ s',
    update_settings (Some [("RETRY_TIMES", VInt 5); ("DOWNLOAD_DELAY", VInt 0)])
      project_settings = Return s'
    ∧ BaseSettings.__getitem__ s' "RETRY_TIMES" = VInt 5
    ∧ BaseSettings.__getitem__ s' "DOWNLOAD_DELAY" = VInt 5.
Proof.
  destruct (update_settings_spider_level project_settings
              [("RETRY_TIMES", VInt 5); ("DOWNLOAD_DELAY", VInt 0)])
    as (s' & Hupdate & Hnames).
  - reflexivity.
  - repeat constructor; rewrite ?elem_of_cons; [|apply not_elem_of_nil].
    intros [Heq | Hin]; [discriminate Heq | by apply elem_of_nil in Hin].
  - exists s'. split; [exact Hupdate|]. split.
    + destruct (Hnames "RETRY_TIMES" (VInt 5)) as [Hset _]; [apply list_elem_of_here|].
      apply Hset. intros current Hcurrent. vm_compute in Hcurrent.
      injection Hcurrent as <-. lia.
    + destruct (Hnames "DOWNLOAD_DELAY" (VInt 0)) as [_ Hkept];
        [apply list_elem_of_further, list_elem_of_here|].
      destruct Hkept as [-> _]; [|reflexivity].
      exists 40. split; [reflexivity | lia].
Defined.

(** ** Reading settings *)

Section settings_getters.
Import BaseSettings.
Context `{PyBuiltins}.

(** X24: a setting that holds a value other than None reads the same way
    through [getint] and [getbool], whatever the defaults: when [getint]
    gives [z], [getbool] gives [z != 0]. *)
Theorem getbool_follows_getint (self : BaseSettings.t) name default default' (z : Z) :
  __getitem__ self name ≠ VNone →
  getint self name default = Return z →
  getbool self name default' = Return (negb (z =? 0)).
Proof.
  intros Hset. unfold getint, getbool, get.
  destruct (__getitem__ self name); try done; by intros ->.
Qed.

Lemma split_on_nonempty (sep : ascii) (s : string) : split_on sep s ≠ [].
Proof.
  destruct s as [|c s]; simpl; [done|].
  destruct (Ascii.eqb c sep); [done|]. by destruct (split_on sep s).
Qed.

Lemma join_split_on (sep : ascii) (s : string) :
  join (String sep EmptyString) (split_on sep s) = s.
Proof.
  induction s as [|c s IH]; simpl; [done|].
  pose proof (split_on_nonempty sep s) as Hne.
  destruct (Ascii.eqb c sep) eqn:Hc.
  - apply Ascii.eqb_eq in Hc as ->.
    destruct (split_on sep s) as [|part parts]; [done|]. simpl in *. by rewrite IH.
  - destruct (split_on sep s) as [|part parts]; [done|].
    destruct parts; simpl in *; by rewrite <- IH.
Qed.

Lemma split_on_parts (sep : ascii) (s : string) :
  Forall (λ part, contains_char sep part = false) (split_on sep s).
Proof.
  induction s as [|c s IH]; simpl; [by repeat constructor|].
  destruct (Ascii.eqb c sep) eqn:Hc; [by constructor|].
  destruct (split_on sep s) as [|part parts]; [by repeat constructor; simpl; rewrite Hc|].
  apply Forall_cons in IH as [Hpart Hparts]. constructor; [|done].
  simpl. by rewrite Hc, Hpart.
Qed.

(** X25: [getlist] of a setting that holds a string gives the pieces of the
    string between its commas: at least one piece, none with a comma in it,
    and joined with commas they give the string back; so the empty string
    gives one empty piece, not the empty list.  A setting that holds a list
    gives that list, and a name that is not set gives the default, or the
    empty list when the default is None. *)
Theorem getlist_reads (self : BaseSettings.t) name default :
  (∀ s, __getitem__ self name = VStr s →
     ∃ parts, getlist self name default = Return (VStr <$> parts)
            ∧ join "," parts = s ∧ parts ≠ []
            ∧ Forall (λ part, contains_char "," part = false) parts)
  ∧ (∀ l, __getitem__ self name = VList l → getlist self name default = Return l)
  ∧ (__getitem__ self name = VNone → default = VNone →
     getlist self name default = Return []).
Proof.
  unfold getlist, get. split; [|split].
  - intros s ->. exists (split_on "," s).
    split; [done|]. split; [apply join_split_on|].
    split; [apply split_on_nonempty | apply split_on_parts].
  - by intros l ->.
  - by intros -> ->.
Qed.

Lemma foldr_max_bounds (l : list (string * SettingsAttribute.t)) (init : Z) :
  let m := foldr (λ entry acc, Z.max (SettingsAttribute.priority entry.2) acc) init l in
  init ≤ m
  ∧ Forall (λ entry, SettingsAttribute.priority entry.2 ≤ m) l
  ∧ (m = init ∨ Exists (λ entry, SettingsAttribute.priority entry.2 = m) l).
Proof.
  induction l as [|entry l IH]; simpl.
  - split; [lia|]. split; [constructor | by left].
  - destruct IH as (Hinit & Hall & Hmax).
    split; [lia|]. split.
    + constructor; [lia|]. eapply Forall_impl; [exact Hall|]. simpl. lia.
    + destruct (Z.max_spec (SettingsAttribute.priority entry.2)
                  (foldr (λ entry acc, Z.max (SettingsAttribute.priority entry.2) acc)
                         init l)) as [[_ ->] | [_ ->]].
      * destruct Hmax as [-> | Hex]; [by left | right; by apply Exists_cons_tl].
      * right. by apply Exists_cons_hd.
Qed.

(** X26: [maxpriority] is 0 for settings with no entry; otherwise it is the
    priority of some entry, and no entry has a higher one. *)
Theorem maxpriority_is_max (self : BaseSettings.t) :
  (attributes self = ∅ → maxpriority self = 0)
  ∧ (∀ name p, getpriority self name = Some p → p ≤ maxpriority self)
  ∧ (attributes self ≠ ∅ → ∃ name, getpriority self name = Some (maxpriority self)).
Proof.
  unfold maxpriority, getpriority.
  destruct (map_to_list (attributes self)) as [|[n0 a0] rest] eqn:Hlist.
  - apply map_to_list_empty_iff in Hlist. rewrite Hlist.
    split; [done|]. split; [|done]. intros name p. by rewrite lookup_empty.
  - destruct (foldr_max_bounds rest (SettingsAttribute.priority a0))
      as (Hinit & Hall & Hmax).
    split.
    { intros Hempty. rewrite Hempty, map_to_list_empty in Hlist. done. }
    split.
    + intros name p Hp.
      destruct (attributes self !! name) as [a|] eqn:Ha; [|done].
      simpl in Hp. injection Hp as <-.
      apply elem_of_map_to_list in Ha. rewrite Hlist in Ha.
      apply elem_of_cons in Ha as [[= -> ->] | Hin]; [done|].
      rewrite Forall_forall in Hall. by apply (Hall (name, a)).
    + intros _. destruct Hmax as [-> | Hex].
      * exists n0. assert (attributes self !! n0 = Some a0) as ->; [|done].
        apply elem_of_map_to_list. rewrite Hlist. apply list_elem_of_here.
      * apply Exists_exists in Hex as ([n a] & Hin & Hprio).
        exists n. assert (attributes self !! n = Some a) as ->.
        { apply elem_of_map_to_list. rewrite Hlist. by apply list_elem_of_further. }
        simpl in *. by rewrite Hprio.
Qed.

Lemma no_int_among_strings (n : Z) (parts : list string) :
  py_int_in n (VList (VStr <$> parts)) = Some false.
Proof. simpl. f_equal. by induction parts. Qed.

(** X27: allowed codes that come as one comma-separated string, as from the
    command line, allow nothing: [HttpErrorMiddleware.__init__] keeps the
    pieces as strings, and the filter it builds lets through no status
    outside [200, 300) that the meta and the spider say nothing about. *)
Theorem allowed_codes_as_string_allow_nothing (settings : BaseSettings.t) (s : string)
    (filter : HttpErrorMiddleware.t) (response : Response) (m : gmap string PyValue) :
  __getitem__ settings "HTTPERROR_ALLOWED_CODES" = VStr s →
  HttpErrorMiddleware_init settings = Return filter →
  HttpErrorMiddleware.handle_httpstatus_all filter = false →
  ¬ (200 ≤ status response < 300) →
  response_meta response = Some m →
  m !! "handle_httpstatus_all" = None →
  m !! "handle_httpstatus_list" = None →
  HttpErrorMiddleware.process_spider_input filter response plain_spider
  = Raise (HttpError response "Ignoring non-200 response").
Proof.
  intros Hcodes Hinit Hall Hout Hmeta Hma Hml.
  rewrite (process_spider_input_non_2xx filter response plain_spider m Hout Hmeta).
  cbv zeta. rewrite Hma, Hml, Hall.
  unfold HttpErrorMiddleware_init in Hinit.
  destruct (getbool settings "HTTPERROR_ALLOW_ALL" (VBool false)); [|done].
  unfold getlist, get in Hinit. rewrite Hcodes in Hinit. injection Hinit as <-.
  change (default _ _) with (VList (VStr <$> split_on "," s)).
  by rewrite no_int_among_strings.
Qed.
End settings_getters.

(** RETRY_TIMES given as the string "3" reads as 3 and as true. *)
Lemma getbool_follows_getint_witness :
  BaseSettings.getbool (H := decimal_parser) project_settings "RETRY_TIMES" (VBool false)
  = Return (negb (3 =? 0)).
Proof.
  apply (getbool_follows_getint (H := decimal_parser) project_settings "RETRY_TIMES"
           (VInt 0) (VBool false) 3); [discriminate | reflexivity].
Defined.

(** "404,500" reads as the two strings "404" and "500". *)
Lemma getlist_reads_witness :
  ∃ parts,
    BaseSettings.getlist project_settings "HTTPERROR_ALLOWED_CODES" VNone
      = Return (VStr <$> parts)
    ∧ join "," parts = "404,500".
Proof.
  destruct (getlist_reads project_settings "HTTPERROR_ALLOWED_CODES" VNone) as [Hstr _].
  destruct (Hstr "404,500" eq_refl) as (parts & Hget & Hjoin & _).
  exists parts. split; [exact Hget | exact Hjoin].
Defined.

(** No entry of [project_settings] has a priority above its maxpriority. *)
Lemma maxpriority_is_max_witness :
  40 ≤ BaseSettings.maxpriority project_settings.
Proof.
  destruct (maxpriority_is_max project_settings) as (_ & Hbound & _).
  apply (Hbound "DOWNLOAD_DELAY" 40). reflexivity.
Defined.

(** With HTTPERROR_ALLOWED_CODES = "404,500" from the command line, a 404
    is filtered all the same. *)
Lemma allowed_codes_as_string_allow_nothing_witness :
  ∃ filter,
    HttpErrorMiddleware_init (H := decimal_parser) project_settings = Return filter
    ∧ HttpErrorMiddleware.process_spider_input filter not_found plain_spider
      = Raise (HttpError not_found "Ignoring non-200 response").
Proof.
  eexists. split; [reflexivity|].
  apply (allowed_codes_as_string_allow_nothing (H := decimal_parser) project_settings
           "404,500" _ not_found ∅);
    [reflexivity | reflexivity | reflexivity | simpl; lia | reflexivity..].
Defined.

(** ** Deleted entries *)

Section settings_writes.
Import BaseSettings.

(** X28: [delete] at priority [p] removes an entry held at a priority of at
    most [p] and leaves one held at a higher priority; once the entry is
    removed the name reads as unset, and a later [set] stores its value at
    any priority, also one below that of the removed entry.  [delete] of a
    name that is not set raises TypeError. *)
Theorem delete_then_set (self : BaseSettings.t) name priority (p : Z) :
  frozen self = false →
  get_settings_priority priority = Return p →
  (∀ current, getpriority self name = Some current → current ≤ p →
     ∃ self',
       delete self name priority = Return self'
       ∧ __contains__ self' name = false
       ∧ (∀ default, get self' name default = default)
       ∧ (∀ other, other ≠ name →
            attributes self' !! other = attributes self !! other)
       ∧ ∀ value priority' p',
           get_settings_priority priority' = Return p' →
           ∃ self'', set self' name value priority' = Return self''
                   ∧ __getitem__ self'' name = value
                   ∧ getpriority self'' name = Some p')
  ∧ (∀ current, getpriority self name = Some current → p < current →
       delete self name priority = Return self)
  ∧ (getpriority self name = None → delete self name priority = Raise TypeError).
Proof.
  intros Hfrozen Hp. unfold delete. rewrite Hfrozen, Hp.
  split; [|split].
  - intros current -> Hle. apply geb_true in Hle. rewrite Hle.
    eexists. split; [reflexivity|].
    unfold __contains__, get, __getitem__, dict_contains. simpl.
    rewrite lookup_delete_eq.
    split; [done|]. split; [done|]. split.
    + intros other Hother. by rewrite lookup_delete_ne.
    + intros value priority' p' Hp'. unfold set. simpl. rewrite Hp'.
      eexists. split; [reflexivity|]. unfold getpriority. simpl.
      by rewrite lookup_delete_eq, !lookup_insert_eq.
  - intros current -> Hlt. apply geb_false in Hlt. by rewrite Hlt.
  - by intros ->.
Qed.
End settings_writes.

(** DOWNLOAD_DELAY, set from the command line, is deleted at that level and
    then set anew with the default priority. *)
Lemma delete_then_set_witness :
  ∃ s' s'',
    BaseSettings.delete project_settings "DOWNLOAD_DELAY" (PriorityName "cmdline")
      = Return s'
    ∧ BaseSettings.set s' "DOWNLOAD_DELAY" (VInt 1) (PriorityName "default") = Return s''
    ∧ BaseSettings.__getitem__ s'' "DOWNLOAD_DELAY" = VInt 1.
Proof.
  destruct (delete_then_set project_settings "DOWNLOAD_DELAY" (PriorityName "cmdline") 40)
    as [Hdelete _]; [reflexivity | reflexivity |].
  destruct (Hdelete 40) as (s' & Hs' & _ & _ & _ & Hset); [reflexivity | lia |].
  destruct (Hset (VInt 1) (PriorityName "default") 0) as (s'' & Hs'' & Hvalue & _);
    [reflexivity|].
  exists s', s''. split; [exact Hs'|]. split; [exact Hs'' | exact Hvalue].
Defined.
